(** * Session, authorization and invoice issuance: a shallow embedding

    The development follows the TypeScript sources:
    - [UserContext], [SessionStore]: the provider imported as
      [@/context/UserContext] (src/unnamed/part_000): the role/permission
      resolver [fetchUserAndRolesAndPermissions] and the auth listener;
    - [ProtectedRoute]: the route guard (second part of
      src/components/ui-custom/ConfirmationDialog.tsx);
    - [InvoicingTypes]: src/lib/types/invoicing.ts (zod schemas);
    - [InvoicingApi]: src/lib/api/invoicingApi.ts ([issueBoleta],
      [generateBoletaPdf], [fetchClientByDocument]);
    - [BoletaForm]: the invoice form (src/unnamed/part_009):
      [calculateBaseValue], [handleGeneratePdf], [onSubmit];
    - [Sidebar]: src/components/ui-custom/Sidebar.tsx ([visibleNavLinks]);
    - [InvoicingDownload]: [downloadBoletaPdf] of src/lib/api/invoicingApi.ts;
    - [BoletaFormActions]: [handleDownloadPdf], [handleClientSearch] and the
      "Nueva Boleta" button of the invoice form;
    - [TransactionForm]: the transaction form of src/unnamed/part_009
      ([formSchema], [onSubmit]);
    - [UploadDocumentModal]: the upload dialog of src/unnamed/part_009
      ([handleSubmit]).
    Line numbers in the comments are those of these files.

    JavaScript numbers are IEEE-754 binary64 values ([float]), database
    identifiers are integers ([Z]); a string is the [string] of its UTF-8
    bytes, its [length] counts UTF-16 code units ([str_length]) and [trim]
    removes the white space of ECMAScript; a [Set<string>] is a
    [gset string]; [T | null] and [T | undefined] are [option T].
    Asynchronous functions are cut at their [await]s: every piece between
    two suspension points is a function on the React state, and the
    collaborators (supabase-js, axios) answer through explicit values.
    What belongs to libraries is modelled by its documented behaviour:
    [filter(Boolean)], [Set], [toFixed], zod's checks, react-hook-form's
    [handleSubmit], React's effect dependencies. *)

From Stdlib Require Import ZArith Floats Lia.
From stdpp Require Import gmap strings list pretty.

Set Warnings "-inexact-float,-clear-no-such-hyp,-register-all".
Local Open Scope string_scope.
Local Open Scope nat_scope.
Local Open Scope list_scope.

(** ** JavaScript values shared by the modules *)
Module Js.

(** [Boolean(s)] for a string. *)
Definition truthy_string (s : string) : bool :=
  if decide (s = "") then false else true.

(** [Boolean(n)] for an integral number (a database identifier). *)
Definition truthy_int (n : Z) : bool :=
  if decide (n = 0%Z) then false else true.

(** [xs.filter(Boolean)] over possibly-undefined strings. *)
Definition filter_Boolean_string (xs : list (option string)) : list string :=
  omap (λ x, match x with
             | Some s => if truthy_string s then Some s else None
             | None => None
             end) xs.

(** [xs.filter(Boolean)] over possibly-undefined identifiers. *)
Definition filter_Boolean_int (xs : list (option Z)) : list Z :=
  omap (λ x, match x with
             | Some n => if truthy_int n then Some n else None
             | None => None
             end) xs.

(** What a rejected promise or a [throw] carries: an [Error] instance with
    its message, or some other value. *)
Inductive Thrown :=
| ErrorInstance (message : string)
| OtherValue.

(** Completion of a call that may throw. *)
Inductive Result (A : Type) :=
| Returns (a : A)
| Throws (e : Thrown).
Arguments Returns {A} a.
Arguments Throws {A} e.

(** [s] occurs inside [t]. *)
Definition contains (t s : string) : Prop :=
  ∃ pre post, t = (pre ++ s ++ post)%string.

(** *** [length] and [trim] of a string

    A string is kept as its UTF-8 bytes, which is how a literal of this
    file is read.  One byte contributes to [s.length], the number of UTF-16
    code units, according to its place in a character: a byte below 128 and
    the first byte of a two- or three-byte character give one unit, the
    first byte of a four-byte character (a surrogate pair) gives two, and a
    continuation byte (128 to 191) gives none.  [pending] is the number of
    continuation bytes the character begun still expects; a continuation
    byte that no character expects counts as one unit. *)
Definition code_units (pending : nat) (a : Ascii.ascii) : nat * nat :=
  let n := Ascii.nat_of_ascii a in
  if bool_decide (n < 128) then (1, 0)
  else if bool_decide (n < 192) then
         match pending with
         | 0 => (1, 0)
         | S k => (0, k)
         end
  else if bool_decide (n < 224) then (1, 1)
  else if bool_decide (n < 240) then (1, 2)
  else (2, 3).

Fixpoint str_length_from (pending : nat) (s : string) : nat :=
  match s with
  | EmptyString => 0
  | String a rest =>
      let '(units, expected) := code_units pending a in
      units + str_length_from expected rest
  end.

(** [s.length] *)
Definition str_length (s : string) : nat := str_length_from 0 s.

Definition of_bytes (bytes : list nat) : string :=
  String.string_of_list_ascii (Ascii.ascii_of_nat <$> bytes).

(** The characters [String.prototype.trim] removes, each by its UTF-8
    bytes: the WhiteSpace and LineTerminator code points of ECMAScript,
    U+0009 to U+000D, U+0020, U+00A0, U+1680, U+2000 to U+200A, U+2028,
    U+2029, U+202F, U+205F, U+3000 and U+FEFF. *)
Definition white_space : list string :=
  of_bytes <$>
    [ [9]; [10]; [11]; [12]; [13]; [32]; [194; 160]; [225; 154; 128];
      [226; 128; 128]; [226; 128; 129]; [226; 128; 130]; [226; 128; 131];
      [226; 128; 132]; [226; 128; 133]; [226; 128; 134]; [226; 128; 135];
      [226; 128; 136]; [226; 128; 137]; [226; 128; 138];
      [226; 128; 168]; [226; 128; 169]; [226; 128; 175]; [226; 129; 159];
      [227; 128; 128]; [239; 187; 191] ].

(** [s] without its prefix [p], if it starts with [p]. *)
Fixpoint strip_prefix (p s : string) : option string :=
  match p, s with
  | EmptyString, _ => Some s
  | String a p', String b s' => if decide (a = b) then strip_prefix p' s' else None
  | String _ _, EmptyString => None
  end.

(** [s] without the leading occurrences of the strings of [ws]; [fuel]
    bounds their number. *)
Fixpoint strip_leading (ws : list string) (fuel : nat) (s : string) : string :=
  match fuel with
  | 0 => s
  | S fuel =>
      match head (omap (λ w, strip_prefix w s) ws) with
      | Some rest => strip_leading ws fuel rest
      | None => s
      end
  end.

(** [s.trimStart()], [s.trimEnd()] and [s.trim()].  The end is trimmed on
    the reversed bytes: the encoding of a white-space character starts with
    a byte that is no continuation byte, so it ends the string only as that
    character. *)
Definition trimStart (s : string) : string :=
  strip_leading white_space (String.length s) s.
Definition trimEnd (s : string) : string :=
  String.rev (strip_leading (String.rev <$> white_space) (String.length s) (String.rev s)).
Definition trim (s : string) : string := trimEnd (trimStart s).

#[global] Arguments str_length : simpl never.
#[global] Arguments trim : simpl never.

End Js.

(** ** The hosted relational collaborator (supabase-js query results) *)
Module Supabase.

Record PostgrestError := { message : string; code : string }.

(** [{ data, error }] as returned by an awaited query. *)
Record PostgrestResponse (A : Type) :=
  { data : option A; error : option PostgrestError }.
Arguments data {A} _.
Arguments error {A} _.

Definition ok {A} (rows : A) : PostgrestResponse A :=
  {| data := Some rows; error := None |}.
Definition failed {A} (e : PostgrestError) : PostgrestResponse A :=
  {| data := None; error := Some e |}.

End Supabase.

(** ** src/context/UserContext.tsx *)
Module UserContext.
Import Js Supabase.

Record User := { id : string; email : string }.
Record Session := { user_of : User; expires_at : Z }.

(** [SupabaseFetchedRolesData]: one row of
    [from('user_roles').select('roles(id, role_name)')]; the joined object
    is read through [roles?.], so it may be missing. *)
Record Role := { role_id : Z; role_name : string }.
Record SupabaseFetchedRolesData := { roles_of : option Role }.

(** One row of [from('resource_permissions').select('resource_path')]. *)
Record PermissionRow := { resource_path : string }.

(** [UserContextType]: the four [useState] cells of the provider. *)
Record UserContextType :=
  { user : option User;
    roles : option (list string);
    permissions : option (gset string);
    loading : bool }.

Definition setUser (u : option User) (st : UserContextType) :=
  {| user := u; roles := roles st; permissions := permissions st; loading := loading st |}.
Definition setRoles (r : option (list string)) (st : UserContextType) :=
  {| user := user st; roles := r; permissions := permissions st; loading := loading st |}.
Definition setPermissions (p : option (gset string)) (st : UserContextType) :=
  {| user := user st; roles := roles st; permissions := p; loading := loading st |}.
Definition setLoading (b : bool) (st : UserContextType) :=
  {| user := user st; roles := roles st; permissions := permissions st; loading := b |}.

(** [useState] initial values. *)
Definition initial : UserContextType :=
  {| user := None; roles := None; permissions := None; loading := true |}.

(** Observable effects besides state: the network calls and the
    [console.error]/[console.warn] lines ([console.log] is left out). *)
Inductive Effect :=
| auth_getUser
| select_user_roles (user_id : string)
| select_resource_permissions (role_ids : list Z)
| console_error (msg : string) (e : PostgrestError)
| console_warn (msg : string).

(** Where an invocation of [fetchUserAndRolesAndPermissions] is suspended. *)
Inductive Pending :=
| AwaitUser
| AwaitRoles (user_id : string)
| AwaitPermissions (role_ids : list Z).

(** How a piece of the [try] body ends. *)
Inductive Control :=
| Return_
| Throw (e : PostgrestError)
| Await (p : Pending).

(** State of the promise returned by the async function. *)
Inductive PromiseState :=
| Suspended (p : Pending)
| Fulfilled
| Rejected (e : PostgrestError).

(** [catch (error) { console.error(..); setRoles(null); setPermissions(null); }] *)
Definition catch_block (e : PostgrestError) (st : UserContextType)
  : UserContextType * list Effect :=
  (setPermissions None (setRoles None st),
   [console_error "UserContext: Global error fetching user, roles, or permissions:" e]).

(** [finally { setLoading(false); }] *)
Definition finally_block (st : UserContextType) : UserContextType :=
  setLoading false st.

(** [try { body } catch { .. } finally { .. }]: the handler does not
    rethrow, so a thrown error ends in a fulfilled promise. *)
Definition try_catch_finally (r : UserContextType * list Effect * Control)
  : UserContextType * list Effect * PromiseState :=
  match r with
  | (st, eff, Return_) => (finally_block st, eff, Fulfilled)
  | (st, eff, Throw e) =>
      let '(st', eff') := catch_block e st in
      (finally_block st', eff ++ eff', Fulfilled)
  | (st, eff, Await p) => (st, eff, Suspended p)
  end.

(** Lines 33-35: [setLoading(true)] and the call of [auth.getUser()]. *)
Definition body_start (st : UserContextType) : UserContextType * list Effect * Control :=
  (setLoading true st, [auth_getUser], Await AwaitUser).

(** Lines 36-44 and 103-107, resumed with [authUser]. *)
Definition body_user (authUser : option User) (st : UserContextType)
  : UserContextType * list Effect * Control :=
  let st := setUser authUser st in
  match authUser with
  | Some u => (st, [select_user_roles (id u)], Await (AwaitRoles (id u)))
  | None => (setPermissions None (setRoles None st), [], Return_)
  end.

(** Lines 46-82 and 98-101, resumed with the answer of the role query. *)
Definition body_roles (resp : PostgrestResponse (list SupabaseFetchedRolesData))
    (st : UserContextType) : UserContextType * list Effect * Control :=
  match error resp with
  | Some userRolesError =>
      (st, [console_error "UserContext: Error fetching user roles:" userRolesError],
       Throw userRolesError)
  | None =>
      let userRolesData := default [] (data resp) in
      let fetchedRoles :=
        filter_Boolean_string ((λ item, role_name <$> roles_of item) <$> userRolesData) in
      let st := setRoles (Some fetchedRoles) st in
      if decide (0 < length fetchedRoles) then
        let roleIds :=
          filter_Boolean_int ((λ item, role_id <$> roles_of item) <$> userRolesData) in
        if decide (length roleIds = 0) then
          (setLoading false (setPermissions (Some ∅) st),
           [console_warn "UserContext: No role IDs found for user, setting empty permissions."],
           Return_)
        else (st, [select_resource_permissions roleIds], Await (AwaitPermissions roleIds))
      else (setPermissions (Some ∅) st, [], Return_)
  end.

(** Lines 90-94: the set built from the fetched rows, with the root path
    added when it is not empty. *)
Definition fetchedPermissions (permissionsData : option (list PermissionRow)) : gset string :=
  let fetched : gset string := list_to_set (resource_path <$> default [] permissionsData) in
  if decide (0 < size fetched) then {["/"]} ∪ fetched else fetched.

(** Lines 84-96, resumed with the answer of the permission query. *)
Definition body_permissions (resp : PostgrestResponse (list PermissionRow))
    (st : UserContextType) : UserContextType * list Effect * Control :=
  match error resp with
  | Some permissionsError =>
      (st, [console_error "UserContext: Error fetching permissions:" permissionsError],
       Throw permissionsError)
  | None => (setPermissions (Some (fetchedPermissions (data resp))) st, [], Return_)
  end.

(** The collaborator as seen by one uninterrupted invocation. *)
Record SupabaseClient :=
  { getUser : option User;
    from_user_roles : string → PostgrestResponse (list SupabaseFetchedRolesData);
    from_resource_permissions : list Z → PostgrestResponse (list PermissionRow) }.

(** Sequencing of two pieces: the second runs when the first suspends. *)
Definition and_then (r : UserContextType * list Effect * PromiseState)
    (k : Pending → UserContextType → UserContextType * list Effect * PromiseState)
  : UserContextType * list Effect * PromiseState :=
  match r with
  | (st, eff, Suspended p) =>
      let '(st', eff', c) := k p st in (st', eff ++ eff', c)
  | done => done
  end.

(** Resumption of a suspended invocation with the collaborator's answer. *)
Definition resume (sb : SupabaseClient) (p : Pending) (st : UserContextType)
  : UserContextType * list Effect * PromiseState :=
  match p with
  | AwaitUser => try_catch_finally (body_user (getUser sb) st)
  | AwaitRoles uid => try_catch_finally (body_roles (from_user_roles sb uid) st)
  | AwaitPermissions ids =>
      try_catch_finally (body_permissions (from_resource_permissions sb ids) st)
  end.

(** [fetchUserAndRolesAndPermissions], run to completion against [sb]
    (three awaits at most). *)
Definition fetchUserAndRolesAndPermissions (sb : SupabaseClient) (st : UserContextType)
  : UserContextType * list Effect * PromiseState :=
  and_then (and_then (and_then (try_catch_finally (body_start st)) (resume sb)) (resume sb))
           (resume sb).

(** *** The relational tables behind the two queries *)

(** A [user_roles] row with its joined [roles] object, and a
    [resource_permissions] row. *)
Record UserRoleRow := { ur_user_id : string; ur_roles : option Role }.
Record ResourcePermission :=
  { rp_role_id : Z; rp_resource_path : string; can_access : bool }.
Record Database :=
  { user_roles : list UserRoleRow;
    resource_permissions : list ResourcePermission }.

(** [from('user_roles').select('roles(id, role_name)').eq('user_id', uid)] *)
Definition query_user_roles (db : Database) (uid : string)
  : list SupabaseFetchedRolesData :=
  (λ r, {| roles_of := ur_roles r |})
    <$> filter (λ r, ur_user_id r = uid) (user_roles db).

(** [from('resource_permissions').select('resource_path')
      .in('role_id', roleIds).eq('can_access', true)] *)
Definition query_resource_permissions (db : Database) (roleIds : list Z)
  : list PermissionRow :=
  (λ g, {| resource_path := rp_resource_path g |})
    <$> filter (λ g, rp_role_id g ∈ roleIds ∧ can_access g = true)
               (resource_permissions db).

(** A collaborator that answers every query from [db] without failing. *)
Definition healthy (db : Database) (authUser : option User) : SupabaseClient :=
  {| getUser := authUser;
     from_user_roles := λ uid, ok (query_user_roles db uid);
     from_resource_permissions := λ ids, ok (query_resource_permissions db ids) |}.

(** The actor holds role [r]. *)
Definition holds_role (db : Database) (u : User) (r : Role) : Prop :=
  {| ur_user_id := id u; ur_roles := Some r |} ∈ user_roles db.

(** One of the actor's roles has an allowed grant on [path]. *)
Definition granted (db : Database) (u : User) (path : string) : Prop :=
  ∃ r, holds_role db u r ∧
       {| rp_role_id := role_id r; rp_resource_path := path; can_access := true |}
         ∈ resource_permissions db.

(** The permission set a completed resolution leaves in the store. *)
Definition resolved (db : Database) (u : User) (st : UserContextType)
  : option (gset string) :=
  permissions (fetchUserAndRolesAndPermissions (healthy db (Some u)) st).1.1.

End UserContext.

(** ** The provider's [useEffect]: auth listener and in-flight resolutions *)
Module SessionStore.
Import Js Supabase UserContext.

(** [AuthChangeEvent] of supabase-js. *)
Inductive AuthChangeEvent :=
| INITIAL_SESSION
| PASSWORD_RECOVERY
| SIGNED_IN
| SIGNED_OUT
| TOKEN_REFRESHED
| USER_UPDATED.

#[export] Instance AuthChangeEvent_eq_dec : EqDecision AuthChangeEvent.
Proof. solve_decision. Defined.

(** An invocation of [fetchUserAndRolesAndPermissions] suspended at an
    [await], together with the user of the session under which it called
    [getUser()]: the auth collaborator answers that request for the session
    it was sent with, also when the session has changed since. *)
Record Invocation :=
  { suspended_at : Pending;
    asked_as : option User }.

(** The provider together with its surroundings: the React state, the
    suspended invocations (oldest first), the effects so far, and the user
    of the session the auth collaborator currently holds. *)
Record World :=
  { ctx : UserContextType;
    invocations : list Invocation;
    effects : list Effect;
    auth : option User }.

(** The requests in flight, oldest first. *)
Definition inflight (w : World) : list Pending := suspended_at <$> invocations w.

Definition pending_of (p : PromiseState) : list Pending :=
  match p with
  | Suspended q => [q]
  | Fulfilled | Rejected _ => []
  end.

(** The invocation of [p], if it is suspended, called under [asked]. *)
Definition suspend (asked : option User) (p : PromiseState) : list Invocation :=
  (λ q, {| suspended_at := q; asked_as := asked |}) <$> pending_of p.

(** A call [fetchUserAndRolesAndPermissions()]: the body runs up to its
    first [await], the call of [getUser()] under the current session. *)
Definition call_fetch (w : World) : World :=
  let '(st, eff, p) := try_catch_finally (body_start (ctx w)) in
  {| ctx := st; invocations := invocations w ++ suspend (auth w) p;
     effects := effects w ++ eff; auth := auth w |}.

(** The callback given to [supabase.auth.onAuthStateChange] (lines 123-150). *)
Definition onAuthStateChange (event : AuthChangeEvent) (session : option Session)
    (w : World) : World :=
  match session with
  | Some s =>
      if decide (event = SIGNED_IN ∧ id <$> user (ctx w) = Some (id (user_of s))) then
        {| ctx := setLoading false (setUser (Some (user_of s)) (ctx w));
           invocations := invocations w; effects := effects w; auth := auth w |}
      else
        call_fetch {| ctx := setUser (Some (user_of s)) (ctx w);
                      invocations := invocations w; effects := effects w; auth := auth w |}
  | None =>
      {| ctx := setLoading false (setPermissions None (setRoles None (setUser None (ctx w))));
         invocations := invocations w; effects := effects w; auth := auth w |}
  end.

(** The dependency list [[fetchUserAndRolesAndPermissions, user?.id]]: after
    a render in which [user?.id] differs from the previous one the effect
    runs again, and its first statement calls the resolver. *)
Definition useEffect (previous_id : option string) (w : World) : World :=
  if decide (id <$> user (ctx w) = previous_id) then w else call_fetch w.

(** What a suspended invocation is resumed with. *)
Inductive Response :=
| UserResponse (authUser : option User)
| RolesResponse (r : PostgrestResponse (list SupabaseFetchedRolesData))
| PermissionsResponse (r : PostgrestResponse (list PermissionRow)).

(** The answer of the collaborators to the pending request of an
    invocation: [getUser()] yields the user of the session the request was
    sent with, the queries are answered from [db]. *)
Definition answer (db : Database) (inv : Invocation) : Response :=
  match suspended_at inv with
  | AwaitUser => UserResponse (asked_as inv)
  | AwaitRoles uid => RolesResponse (ok (query_user_roles db uid))
  | AwaitPermissions ids => PermissionsResponse (ok (query_resource_permissions db ids))
  end.

(** The failing answer: [getUser] yields no user, a query yields [error]. *)
Definition failure (e : PostgrestError) (inv : Invocation) : Response :=
  match suspended_at inv with
  | AwaitUser => UserResponse None
  | AwaitRoles _ => RolesResponse (failed e)
  | AwaitPermissions _ => PermissionsResponse (failed e)
  end.

(** The code after the [await] an invocation is suspended at. *)
Definition continuation (p : Pending) (resp : Response) (st : UserContextType)
  : option (UserContextType * list Effect * PromiseState) :=
  match p, resp with
  | AwaitUser, UserResponse authUser => Some (try_catch_finally (body_user authUser st))
  | AwaitRoles _, RolesResponse r => Some (try_catch_finally (body_roles r st))
  | AwaitPermissions _, PermissionsResponse r =>
      Some (try_catch_finally (body_permissions r st))
  | _, _ => None
  end.

(** The [i]-th suspended invocation receives [resp] and runs to its next
    [await] or to its end. *)
Definition settle (i : nat) (resp : Invocation → Response) (w : World) : World :=
  match invocations w !! i with
  | Some inv =>
      match continuation (suspended_at inv) (resp inv) (ctx w) with
      | Some (st, eff, ps) =>
          {| ctx := st;
             invocations := delete i (invocations w) ++ suspend (asked_as inv) ps;
             effects := effects w ++ eff; auth := auth w |}
      | None => w
      end
  | None => w
  end.

(** What can happen to a mounted provider: the auth collaborator pushes an
    event (and from then on holds the session of the event), or a pending
    request is answered, by the collaborators or with an error. *)
Inductive Event :=
| AuthStateChange (event : AuthChangeEvent) (session : option Session)
| Answered (i : nat)
| Failed (i : nat) (e : PostgrestError).

Definition step (db : Database) (w : World) (ev : Event) : World :=
  let previous_id := id <$> user (ctx w) in
  match ev with
  | AuthStateChange event session =>
      useEffect previous_id
        (onAuthStateChange event session
           {| ctx := ctx w; invocations := invocations w; effects := effects w;
              auth := user_of <$> session |})
  | Answered i => useEffect previous_id (settle i (answer db) w)
  | Failed i e => useEffect previous_id (settle i (failure e) w)
  end.

Definition run (db : Database) (w : World) (evs : list Event) : World :=
  foldl (step db) w evs.

(** Mounting: the initial state, and the first run of the effect. *)
Definition mount (authUser : option User) : World :=
  call_fetch {| ctx := initial; invocations := []; effects := []; auth := authUser |}.

(** The role and permission queries among the effects. *)
Definition is_fetch (e : Effect) : bool :=
  match e with
  | select_user_roles _ | select_resource_permissions _ => true
  | _ => false
  end.
Definition fetch_count (w : World) : nat := length (filter is_fetch (effects w)).

End SessionStore.

(** ** src/components/ProtectedRoute.tsx *)
Module ProtectedRoute.
Import UserContext.

(** [permissions?.has(resourcePath) ?? false] (line 150). *)
Definition isAuthorized (resourcePath : string) (permissions : option (gset string)) : bool :=
  match permissions with
  | Some s => bool_decide (resourcePath ∈ s)
  | None => false
  end.

(** What the route renders. *)
Inductive Rendered :=
| Spinner
| NavigateToAuth
| AccessDenied
| Children.

Definition ProtectedRoute (resourcePath : string) (c : UserContextType) : Rendered :=
  if loading c then Spinner
  else match user c with
       | None => NavigateToAuth
       | Some _ =>
           if isAuthorized resourcePath (permissions c) then Children else AccessDenied
       end.

End ProtectedRoute.

(** ** JavaScript numbers: [Number.prototype.toFixed] followed by [parseFloat] *)
Module JsNumber.

(** The integer nearest to [100 * m * 2^e], the larger one on a tie: the [n]
    of ECMA-262 [Number.prototype.toFixed] for two fraction digits, computed
    on the exact value of the binary64 number. *)
Definition round_hundredths (m : positive) (e : Z) : Z :=
  if (0 <=? e)%Z then 100 * Z.pos m * 2 ^ e
  else (200 * Z.pos m + 2 ^ (- e)) / 2 ^ (- e + 1).

(** [parseFloat] of the decimal string for [n] hundredths with sign [s]:
    the binary64 number nearest to [n / 100] (ties to even), which is what
    the correctly rounded division of the integer [n] by [100] gives. *)
Definition of_hundredths (s : bool) (n : Z) : float :=
  match n with
  | Zpos p => SF2Prim (SFdiv prec emax (S754_finite s p 0) (S754_finite false 100 0))
  | _ => if s then neg_zero else zero
  end.

(** [parseFloat(x.toFixed(2))].  [toFixed] gives ["NaN"], ["Infinity"] and
    ["-Infinity"] for the non-finite values and [ToString(x)] from [1e21]
    on, which [parseFloat] reads back as [x]; below that it gives the sign
    of a negative [x] (not of [-0]) and the digits of [n]. *)
Definition parseFloat_toFixed2 (x : float) : float :=
  match Prim2SF x with
  | S754_nan => nan
  | S754_infinity _ => x
  | S754_zero _ => zero
  | S754_finite s m e =>
      if (1e21 <=? abs x)%float then x else of_hundredths s (round_hundredths m e)
  end.

End JsNumber.

(** ** JSON values as [axios] hands them over in [response.data] *)
Module Json.
Import Js.

Inductive json :=
| JNull
| JBool (b : bool)
| JNumber (x : float)
| JString (s : string)
| JArray (items : list json)
| JObject (members : list (string * json)).

(** The value of the own property [key], if any. *)
Fixpoint property (key : string) (members : list (string * json)) : option json :=
  match members with
  | [] => None
  | (k, v) :: rest => if decide (k = key) then Some v else property key rest
  end.

(** [Boolean(v)]. *)
Definition truthy (v : json) : bool :=
  match v with
  | JNull => false
  | JBool b => b
  | JNumber x => negb (PrimFloat.is_nan x || PrimFloat.is_zero x)
  | JString s => truthy_string s
  | JArray _ | JObject _ => true
  end.

(** What the JavaScript runtime and the libraries contribute and the
    repository does not define: [JSON.stringify], [ToString] of a value that
    is not a string (numbers, booleans, arrays, objects) inside a template
    literal, the message of the [TypeError] for reading a property of
    [null], the message of a [ZodError], and zod's e-mail pattern. *)
Record Runtime :=
  { JSON_stringify : json → string;
    ToString : json → string;
    TypeError_null_property : string → string;
    ZodError_message : json → string;
    email_pattern : string → bool }.

(** [`${v}`]. *)
Definition template (rt : Runtime) (v : json) : string :=
  match v with
  | JString s => s
  | _ => ToString rt v
  end.

(** [v.key]: [undefined] for a missing property and for primitive values, a
    [TypeError] for [null]. *)
Definition member (rt : Runtime) (key : string) (v : json) : Result (option json) :=
  match v with
  | JNull => Throws (ErrorInstance (TypeError_null_property rt key))
  | JObject members => Returns (property key members)
  | _ => Returns None
  end.

End Json.

(** ** src/lib/types/invoicing.ts *)
Module InvoicingTypes.
Import Js Json.

(** [Client]: the interface and the value of the form field [client]; the
    fields that [ClientSchema] marks [optional()] may be [undefined]. *)
Record Client :=
  { id : option Z;
    tipo_documento : string;
    numero_documento : string;
    razon_social : string;
    nombre_comercial : option string;
    direccion : string;
    ubigeo : option string;
    distrito : option string;
    provincia : option string;
    departamento : option string;
    telefono : option string;
    email : option string }.

(** One element of [detalles]. *)
Record Detalle :=
  { codigo : option string;
    descripcion : string;
    unidad : string;
    cantidad : float;
    mto_valor_unitario : float;
    porcentaje_igv : float;
    tip_afe_igv : string;
    codigo_producto_sunat : option string }.

(** [BoletaFormValues], and [BoletaPayload] once the two identifiers are set. *)
Record BoletaFormValues :=
  { serie : string;
    fecha_emision : string;
    moneda : string;
    tipo_operacion : string;
    metodo_envio : string;
    forma_pago_tipo : string;
    usuario_creacion : string;
    client : Client;
    detalles : list Detalle;
    company_id : option Z;
    branch_id : option Z }.

(** A zod issue: the path of the field and the message shown under it. *)
Inductive PathSegment :=
| Key (k : string)
| Index (i : nat).
Record ZodIssue := { path : list PathSegment; issue : string }.

(** [z.string().min(n, message)]: too small when [length < n]. *)
Definition string_min (n : nat) (message : string) (at_ : list PathSegment) (s : string)
  : list ZodIssue :=
  if decide (str_length s < n) then [ {| path := at_; issue := message |} ] else [].

(** [z.coerce.number().min(bound, message)] on a number: [NaN] is not a
    number for zod, and a value is too small when [value < bound]. *)
Definition coerce_number_min (bound : float) (message : string) (at_ : list PathSegment)
    (x : float) : list ZodIssue :=
  if PrimFloat.is_nan x then [ {| path := at_; issue := "Expected number, received nan" |} ]
  else if (x <? bound)%float then [ {| path := at_; issue := message |} ]
  else [].

(** [z.string().email(message).optional().or(z.literal(''))] *)
Definition email_or_empty (rt : Runtime) (message : string) (at_ : list PathSegment)
    (v : option string) : list ZodIssue :=
  match v with
  | None => []
  | Some s =>
      if email_pattern rt s then []
      else if decide (s = "") then []
      else [ {| path := at_; issue := message |} ]
  end.

Definition ClientSchema (rt : Runtime) (at_ : list PathSegment) (c : Client) : list ZodIssue :=
  string_min 1 "Tipo de documento es requerido." (at_ ++ [Key "tipo_documento"]) (tipo_documento c)
  ++ string_min 8 "Número de documento debe tener al menos 8 caracteres."
       (at_ ++ [Key "numero_documento"]) (numero_documento c)
  ++ string_min 3 "Razón social es requerida." (at_ ++ [Key "razon_social"]) (razon_social c)
  ++ string_min 5 "Dirección es requerida." (at_ ++ [Key "direccion"]) (direccion c)
  ++ email_or_empty rt "Email inválido." (at_ ++ [Key "email"]) (email c).

Definition DetalleSchema (at_ : list PathSegment) (d : Detalle) : list ZodIssue :=
  string_min 1 "Descripción es requerida." (at_ ++ [Key "descripcion"]) (descripcion d)
  ++ string_min 1 "Unidad es requerida." (at_ ++ [Key "unidad"]) (unidad d)
  ++ coerce_number_min 0.01 "Cantidad debe ser mayor a 0." (at_ ++ [Key "cantidad"]) (cantidad d)
  ++ coerce_number_min 0 "Precio debe ser 0 o mayor."
       (at_ ++ [Key "mto_valor_unitario"]) (mto_valor_unitario d)
  ++ coerce_number_min 0 "Number must be greater than or equal to 0"
       (at_ ++ [Key "porcentaje_igv"]) (porcentaje_igv d)
  ++ string_min 1 "Tipo de afectación IGV es requerido."
       (at_ ++ [Key "tip_afe_igv"]) (tip_afe_igv d).

(** [z.array(DetalleSchema).min(1, message)] *)
Definition detalles_schema (at_ : list PathSegment) (ds : list Detalle) : list ZodIssue :=
  (if decide (length ds < 1) then
     [ {| path := at_; issue := "Debe haber al menos un detalle." |} ]
   else [])
  ++ mjoin (imap (λ i d, DetalleSchema (at_ ++ [Index i]) d) ds).

(** [BoletaPayloadSchema.omit({ company_id: true, branch_id: true })]: the
    issues of a form value, none when it is valid.  The seven plain
    [z.string()] fields accept every string. *)
Definition BoletaPayloadSchema (rt : Runtime) (data : BoletaFormValues) : list ZodIssue :=
  ClientSchema rt [Key "client"] (client data)
  ++ detalles_schema [Key "detalles"] (detalles data).

(** [IssueResponse] *)
Record IssueData := { boleta_id : float; numero_completo : string }.
Record IssueResponse := { success : bool; message : string; data : IssueData }.

(** [IssueResponseSchema.parse]: [None] stands for the thrown [ZodError].
    Unknown keys are dropped; every key of the shape must be present with
    the type asked for. *)
Definition IssueResponseSchema_parse (body : json) : option IssueResponse :=
  match body with
  | JObject members =>
      match property "success" members, property "message" members, property "data" members with
      | Some (JBool b), Some (JString m), Some (JObject inner) =>
          match property "id" inner, property "numero_completo" inner with
          | Some (JNumber n), Some (JString nc) =>
              if PrimFloat.is_nan n then None
              else Some {| success := b; message := m;
                           data := {| boleta_id := n; numero_completo := nc |} |}
          | _, _ => None
          end
      | _, _, _ => None
      end
  | _ => None
  end.

End InvoicingTypes.

(** ** src/lib/api/invoicingApi.ts *)
Module InvoicingApi.
Import Js Json InvoicingTypes.

(** How an awaited [axios] request ends: a response with a success status,
    an [AxiosError] with a response, an [AxiosError] without one (an [Error]
    with its message), or a thrown value that is not an [Error]. *)
Inductive AxiosOutcome :=
| Response (data : json)
| ErrorWithResponse (status : Z) (data : json)
| ErrorNoResponse (message : string)
| ThrownOther.

(** The invoicing REST collaborator. *)
Record InvoicingRest :=
  { post_boletas : BoletaFormValues → AxiosOutcome;
    post_generate_pdf : float → string → AxiosOutcome }.

(** [error.response.data.message || JSON.stringify(error.response.data)],
    as it appears in a template literal. *)
Definition apiMessage (rt : Runtime) (data : json) : Result string :=
  match member rt "message" data with
  | Throws e => Throws e
  | Returns (Some v) =>
      if truthy v then Returns (template rt v) else Returns (JSON_stringify rt data)
  | Returns None => Returns (JSON_stringify rt data)
  end.

(** [issueBoleta] (lines 17-33). *)
Definition issueBoleta (rt : Runtime) (api : InvoicingRest) (boletaData : BoletaFormValues)
  : Result IssueResponse :=
  match post_boletas api boletaData with
  | Response data =>
      match IssueResponseSchema_parse data with
      | Some validatedResponse => Returns validatedResponse
      | None =>
          Throws (ErrorInstance
                    ("Error al procesar la respuesta o de red: " ++ ZodError_message rt data)%string)
      end
  | ErrorWithResponse _ data =>
      match apiMessage rt data with
      | Returns m => Throws (ErrorInstance ("Error de la API de facturación: " ++ m)%string)
      | Throws e => Throws e
      end
  | ErrorNoResponse m =>
      Throws (ErrorInstance ("Error al procesar la respuesta o de red: " ++ m)%string)
  | ThrownOther => Throws (ErrorInstance "Error desconocido al emitir la boleta.")
  end.

(** [generateBoletaPdf] (lines 38-49). *)
Definition generateBoletaPdf (rt : Runtime) (api : InvoicingRest) (boletaId : float)
    (format : string) : Result unit :=
  match post_generate_pdf api boletaId format with
  | Response _ => Returns ()
  | ErrorWithResponse _ data =>
      match apiMessage rt data with
      | Returns m => Throws (ErrorInstance ("Error de la API al generar PDF: " ++ m)%string)
      | Throws e => Throws e
      end
  | ErrorNoResponse _ | ThrownOther =>
      Throws (ErrorInstance "Error desconocido al solicitar la generación del PDF.")
  end.

(** A row of [socio_titulares] with the selected columns; text columns may
    be [null]. *)
Record SocioTitular :=
  { socio_id : Z;
    dni : string;
    nombres : option string;
    apellidoPaterno : option string;
    apellidoMaterno : option string;
    direccionDNI : option string;
    direccionVivienda : option string;
    distritoDNI : option string;
    distritoVivienda : option string;
    provinciaDNI : option string;
    provinciaVivienda : option string;
    regionDNI : option string;
    regionVivienda : option string;
    celular : option string }.

(** How the awaited [.single()] query ends. *)
Inductive QueryOutcome :=
| Answer (r : Supabase.PostgrestResponse SocioTitular)
| Reject (e : Thrown).

(** [`${v}`] for a nullable column, and [a || b || ''] over such columns. *)
Definition shown (v : option string) : string := default "null" v.
Definition first_truthy (a b : option string) : string :=
  match a with
  | Some x => if truthy_string x then x else
                match b with
                | Some y => if truthy_string y then y else ""
                | None => ""
                end
  | None => match b with
            | Some y => if truthy_string y then y else ""
            | None => ""
            end
  end.

(** Lines 131-144. *)
Definition clientData (socioData : SocioTitular) : Client :=
  {| id := Some (socio_id socioData);
     tipo_documento := "1";
     numero_documento := dni socioData;
     razon_social :=
       trim (shown (nombres socioData) ++ " " ++ shown (apellidoPaterno socioData)
             ++ " " ++ shown (apellidoMaterno socioData))%string;
     nombre_comercial :=
       Some (trim (shown (nombres socioData) ++ " " ++ shown (apellidoPaterno socioData))%string);
     direccion := first_truthy (direccionDNI socioData) (direccionVivienda socioData);
     ubigeo := Some "";
     distrito := Some (first_truthy (distritoDNI socioData) (distritoVivienda socioData));
     provincia := Some (first_truthy (provinciaDNI socioData) (provinciaVivienda socioData));
     departamento := Some (first_truthy (regionDNI socioData) (regionVivienda socioData));
     telefono := Some (first_truthy (celular socioData) None);
     email := Some "" |}.

(** The [catch] of [fetchClientByDocument] (lines 148-154). *)
Definition lookup_catch (e : Thrown) : Result (option Client) :=
  match e with
  | ErrorInstance m => Throws (ErrorInstance ("Error de base de datos: " ++ m)%string)
  | OtherValue => Throws (ErrorInstance "Error al buscar cliente en la base de datos interna.")
  end.

(** [fetchClientByDocument] (lines 110-155): the completion and the
    document numbers the [socio_titulares] table was queried for. *)
Definition fetchClientByDocument (socio_titulares : string → QueryOutcome) (docNumber : string)
  : Result (option Client) * list string :=
  if negb (truthy_string docNumber) || bool_decide (str_length docNumber < 8) then
    (Returns None, [])
  else
    (match socio_titulares docNumber with
     | Reject e => lookup_catch e
     | Answer r =>
         match Supabase.error r with
         | Some err =>
             if decide (Supabase.code err = "PGRST116") then
               match Supabase.data r with
               | Some socioData => Returns (Some (clientData socioData))
               | None => Returns None
               end
             else
               lookup_catch (ErrorInstance ("Error de base de datos: " ++ Supabase.message err)%string)
         | None =>
             match Supabase.data r with
             | Some socioData => Returns (Some (clientData socioData))
             | None => Returns None
             end
         end
     end,
     [docNumber]).

End InvoicingApi.

(** ** src/components/invoicing/BoletaForm.tsx *)
Module BoletaForm.
Import Js Json JsNumber InvoicingTypes InvoicingApi.

(** [calculateBaseValue] (lines 38-43). *)
Definition calculateBaseValue (totalPrice igvPercentage : float) : float :=
  if (igvPercentage =? 0)%float then totalPrice
  else
    let igvRate := (igvPercentage / 100)%float in
    let baseValue := (totalPrice / (1 + igvRate))%float in
    parseFloat_toFixed2 baseValue.

Definition COMPANY_ID : Z := 1.
Definition BRANCH_ID : Z := 1.

Record LastIssuedBoleta := { issued_id : float; issued_numero_completo : string }.

(** The [useState] cells of [BoletaForm]. *)
Record FormState :=
  { isSubmitting : bool;
    isClientSearching : bool;
    isGeneratingPdf : bool;
    lastIssuedBoleta : option LastIssuedBoleta;
    currentSocioId : option Z }.

Definition setIsSubmitting (b : bool) (st : FormState) : FormState :=
  {| isSubmitting := b; isClientSearching := isClientSearching st;
     isGeneratingPdf := isGeneratingPdf st; lastIssuedBoleta := lastIssuedBoleta st;
     currentSocioId := currentSocioId st |}.
Definition setIsGeneratingPdf (b : bool) (st : FormState) : FormState :=
  {| isSubmitting := isSubmitting st; isClientSearching := isClientSearching st;
     isGeneratingPdf := b; lastIssuedBoleta := lastIssuedBoleta st;
     currentSocioId := currentSocioId st |}.
Definition setLastIssuedBoleta (l : option LastIssuedBoleta) (st : FormState) : FormState :=
  {| isSubmitting := isSubmitting st; isClientSearching := isClientSearching st;
     isGeneratingPdf := isGeneratingPdf st; lastIssuedBoleta := l;
     currentSocioId := currentSocioId st |}.

(** What the form does to the outside: requests to the invoicing
    collaborator and toasts. *)
Inductive Effect :=
| POST_boletas (payload : BoletaFormValues)
| POST_generate_pdf (boletaId : float) (format : string)
| toast (title description variant : string).

(** [error instanceof Error ? error.message : fallback] *)
Definition errorMessage (fallback : string) (e : Thrown) : string :=
  match e with
  | ErrorInstance m => m
  | OtherValue => fallback
  end.

(** [handleGeneratePdf] (lines 109-128). *)
Definition handleGeneratePdf (rt : Runtime) (api : InvoicingRest) (boletaId : float)
    (st : FormState) : FormState * list Effect :=
  let st := setIsGeneratingPdf true st in
  let shown :=
    match generateBoletaPdf rt api boletaId "A4" with
    | Returns _ =>
        toast "Generación de PDF Solicitada"
              "El PDF se está generando. Podrá descargarlo en breve." "success"
    | Throws e =>
        toast "Error de PDF"
              (errorMessage "Error al solicitar la generación del PDF." e) "destructive"
    end in
  (setIsGeneratingPdf false st, [POST_generate_pdf boletaId "A4"; shown]).

(** Lines 162-173: the line items with the unit value converted. *)
Definition processedDetails (ds : list Detalle) : list Detalle :=
  (λ d,
     let total_price := mto_valor_unitario d in
     let igv_percent := porcentaje_igv d in
     let base_value := calculateBaseValue total_price igv_percent in
     {| codigo := codigo d; descripcion := descripcion d; unidad := unidad d;
        cantidad := cantidad d; mto_valor_unitario := base_value;
        porcentaje_igv := igv_percent; tip_afe_igv := tip_afe_igv d;
        codigo_producto_sunat := codigo_producto_sunat d |}) <$> ds.

(** Lines 175-180. *)
Definition payload (data : BoletaFormValues) : BoletaFormValues :=
  {| serie := serie data; fecha_emision := fecha_emision data; moneda := moneda data;
     tipo_operacion := tipo_operacion data; metodo_envio := metodo_envio data;
     forma_pago_tipo := forma_pago_tipo data; usuario_creacion := usuario_creacion data;
     client := client data; detalles := processedDetails (detalles data);
     company_id := Some COMPANY_ID; branch_id := Some BRANCH_ID |}.

(** [onSubmit] (lines 158-206). *)
Definition onSubmit (rt : Runtime) (api : InvoicingRest) (data : BoletaFormValues)
    (st : FormState) : FormState * list Effect :=
  let st := setLastIssuedBoleta None (setIsSubmitting true st) in
  match issueBoleta rt api (payload data) with
  | Returns result =>
      let boletaId := boleta_id (InvoicingTypes.data result) in
      let numeroCompleto := numero_completo (InvoicingTypes.data result) in
      let st :=
        setLastIssuedBoleta
          (Some {| issued_id := boletaId; issued_numero_completo := numeroCompleto |}) st in
      let '(st, pdf) := handleGeneratePdf rt api boletaId st in
      (setIsSubmitting false st,
       [POST_boletas (payload data)] ++ pdf ++
       [toast "Boleta Emitida con Éxito"
              ("Documento " ++ numeroCompleto ++ " procesado y enviado a SUNAT.")%string
              "success"])
  | Throws error =>
      (setIsSubmitting false st,
       [POST_boletas (payload data);
        toast "Error de Emisión" (errorMessage "Ocurrió un error inesperado." error)
              "destructive"])
  end.

(** [form.handleSubmit(onSubmit)] with the [zodResolver]: the callback runs
    only when the resolver reports no issue; otherwise the issues become the
    field errors of the form.  The result carries those errors. *)
Definition handleSubmit (rt : Runtime) (api : InvoicingRest) (data : BoletaFormValues)
    (st : FormState) : FormState * list Effect * list ZodIssue :=
  match BoletaPayloadSchema rt data with
  | [] => (onSubmit rt api data st, [])
  | errors => (st, [], errors)
  end.

(** The [disabled] attribute of the submit button (line 738). *)
Definition submit_disabled (isValid : bool) (st : FormState) : bool :=
  isSubmitting st || isClientSearching st || negb isValid
  || bool_decide (is_Some (lastIssuedBoleta st)).

End BoletaForm.

(** ** src/components/ui-custom/Sidebar.tsx *)
Module Sidebar.
Import UserContext.

(** An entry of [allNavLinks] (the icon is left out). *)
Record NavLink := { name : string; path : string; requiresPermission : bool }.

(** Lines 7-17. *)
Definition allNavLinks : list NavLink :=
  [ {| name := "Dashboard"; path := "/"; requiresPermission := false |};
    {| name := "Socios Titulares"; path := "/people"; requiresPermission := true |};
    {| name := "Documentos"; path := "/partner-documents"; requiresPermission := true |};
    {| name := "Facturación"; path := "/invoicing"; requiresPermission := true |};
    {| name := "Ingresos"; path := "/income"; requiresPermission := true |};
    {| name := "Gastos"; path := "/expenses"; requiresPermission := true |};
    {| name := "Cuentas"; path := "/accounts"; requiresPermission := true |};
    {| name := "Configuración"; path := "/settings"; requiresPermission := true |} ].

(** The filter of lines 26-32 over any list of links. *)
Definition visible_among (links : list NavLink) (c : UserContextType) : list NavLink :=
  if loading c then []
  else match permissions c with
       | None => []
       | Some s =>
           filter (λ link, requiresPermission link = false ∨ path link ∈ s) links
       end.

(** [visibleNavLinks] (lines 22-33). *)
Definition visibleNavLinks (c : UserContextType) : list NavLink :=
  visible_among allNavLinks c.

End Sidebar.

(** ** src/lib/api/invoicingApi.ts: [downloadBoletaPdf] *)
Module InvoicingDownload.
Import Js Json InvoicingTypes InvoicingApi.

(** How the awaited [GET /boletas/{id}/download-pdf] ends; the blob is kept
    as the string of its bytes. *)
Inductive BlobOutcome :=
| BlobResponse (pdfBlob : string)
| BlobErrorWithResponse (status : Z)
| BlobErrorNoResponse (message : string)
| BlobThrownOther.

(** How the awaited [storage.from(bucket).upload(..)] ends: [{ error }]
    with or without an error, or a rejection. *)
Inductive UploadOutcome :=
| Uploaded
| UploadError (message : string)
| UploadRejected (e : Thrown).

(** The two collaborators of the download. *)
Record Archive :=
  { get_download_pdf : float → string → BlobOutcome;
    storage_upload : string → string → string → UploadOutcome }.

(** What [downloadBoletaPdf] does to the outside: the request for the PDF,
    the upload (bucket, path, file name, content, [upsert]) and the save
    dialog of the browser (file name, content). *)
Inductive IO :=
| GET_download_pdf (boletaId : float) (format : string)
| storage_upload_call (bucket filePath fileName content : string) (upsert : bool)
| browser_download (fileName content : string).

(** [`${n}`] for an integral number (of magnitude below 1e21). *)
Definition integer_to_string (n : Z) : string := pretty n.

(** [downloadBoletaPdf] (lines 58-103). *)
Definition downloadBoletaPdf (env : Archive) (boletaId : float) (serieCorrelativo : string)
    (socioId : Z) (format : string) : Result unit * list IO :=
  match get_download_pdf env boletaId format with
  | BlobResponse pdfBlob =>
      let fileName := (serieCorrelativo ++ ".pdf")%string in
      let filePath := (integer_to_string socioId ++ "/" ++ fileName)%string in
      let sent :=
        [ GET_download_pdf boletaId format;
          storage_upload_call "comprobante-de-pago" filePath fileName pdfBlob true ] in
      match storage_upload env "comprobante-de-pago" filePath pdfBlob with
      | Uploaded => (Returns (), sent ++ [browser_download fileName pdfBlob])
      | UploadError m =>
          (Throws (ErrorInstance ("Error al guardar en Storage: " ++ m)%string), sent)
      | UploadRejected e => (Throws e, sent)
      end
  | BlobErrorWithResponse status =>
      (Throws (ErrorInstance
                 ("Error de la API al descargar PDF. Código: " ++ integer_to_string status)%string),
       [GET_download_pdf boletaId format])
  | BlobErrorNoResponse m => (Throws (ErrorInstance m), [GET_download_pdf boletaId format])
  | BlobThrownOther => (Throws OtherValue, [GET_download_pdf boletaId format])
  end.

End InvoicingDownload.

(** ** The other handlers of the invoice form *)
Module BoletaFormActions.
Import Js Json InvoicingTypes InvoicingApi InvoicingDownload BoletaForm.

(** What these handlers do to the outside. *)
Inductive Action :=
| io (e : IO)
| SELECT_socio_titulares (dni : string)
| show (title description variant : string).

Definition setCurrentSocioId (v : option Z) (st : FormState) : FormState :=
  {| isSubmitting := isSubmitting st; isClientSearching := isClientSearching st;
     isGeneratingPdf := isGeneratingPdf st; lastIssuedBoleta := lastIssuedBoleta st;
     currentSocioId := v |}.
Definition setIsClientSearching (b : bool) (st : FormState) : FormState :=
  {| isSubmitting := isSubmitting st; isClientSearching := b;
     isGeneratingPdf := isGeneratingPdf st; lastIssuedBoleta := lastIssuedBoleta st;
     currentSocioId := currentSocioId st |}.

(** [n || null] for an optional identifier: [undefined] and [0] give [null]. *)
Definition id_or_null (v : option Z) : option Z :=
  match v with
  | Some n => if truthy_int n then Some n else None
  | None => None
  end.

(** [handleDownloadPdf] (lines 130-156); the state is not touched. *)
Definition handleDownloadPdf (env : Archive) (st : FormState) : list Action :=
  match lastIssuedBoleta st with
  | None => [show "Error" "No hay una boleta emitida para descargar." "destructive"]
  | Some issued =>
      match id_or_null (currentSocioId st) with
      | None =>
          [show "Error" "No se ha identificado un socio para asociar el comprobante."
                "destructive"]
      | Some socioId =>
          let '(r, sent) :=
            downloadBoletaPdf env (issued_id issued) (issued_numero_completo issued)
                              socioId "A4" in
          (io <$> sent) ++
          [ match r with
            | Returns _ =>
                show "Descarga Iniciada y Guardada"
                     ("Descargando " ++ issued_numero_completo issued
                      ++ ".pdf y guardado en el repositorio del socio.")%string
                     "success"
            | Throws e =>
                show "Error de Descarga/Guardado"
                     (errorMessage "Error al descargar o guardar el PDF." e) "destructive"
            end ]
      end
  end.

(** [s || ''] for an optional string. *)
Definition or_empty (v : option string) : string :=
  match v with
  | Some s => if truthy_string s then s else ""
  | None => ""
  end.

(** The eight [form.setValue('client.…', …)] of a search, on the client of
    the form. *)
Definition set_client_fields (razon nombre direc dist prov dep ubi tel : string)
    (c : Client) : Client :=
  {| id := id c; tipo_documento := tipo_documento c;
     numero_documento := numero_documento c;
     razon_social := razon; nombre_comercial := Some nombre; direccion := direc;
     ubigeo := Some ubi; distrito := Some dist; provincia := Some prov;
     departamento := Some dep; telefono := Some tel; email := email c |}.

(** [handleClientSearch] (lines 208-263) for the text of the input that
    lost focus: the new state, the new client of the form, and the actions. *)
Definition handleClientSearch (socio_titulares : string → QueryOutcome) (value : string)
    (c : Client) (st : FormState) : FormState * Client * list Action :=
  let docNumber := trim value in
  let docType := tipo_documento c in
  let st := setCurrentSocioId None st in
  if negb (bool_decide (docType = "1")) || bool_decide (str_length docNumber < 8) then
    (st, c, [])
  else
    let st := setIsClientSearching true st in
    let '(r, queried) := fetchClientByDocument socio_titulares docNumber in
    let sent := SELECT_socio_titulares <$> queried in
    match r with
    | Returns (Some found) =>
        (setIsClientSearching false (setCurrentSocioId (id_or_null (id found)) st),
         set_client_fields (or_empty (Some (razon_social found)))
           (or_empty (nombre_comercial found)) (or_empty (Some (direccion found)))
           (or_empty (distrito found)) (or_empty (provincia found))
           (or_empty (departamento found)) (or_empty (ubigeo found))
           (or_empty (telefono found)) c,
         sent ++ [show "Cliente Encontrado"
                       ("Datos de " ++ razon_social found ++ " cargados.")%string "success"])
    | Returns None =>
        (setIsClientSearching false st,
         set_client_fields "" "" "" "" "" "" "" "" c,
         sent ++ [show "Cliente No Encontrado"
                       "No se encontraron datos para el documento ingresado. Por favor, complete manualmente."
                       "warning"])
    | Throws e =>
        (setIsClientSearching false st, c,
         sent ++ [show "Error de Búsqueda" (errorMessage "Error al buscar cliente." e)
                       "destructive"])
    end.

(** The click on "Nueva Boleta" (lines 720-724): the form goes back to
    [defaultValues], the issued document and the member are forgotten. *)
Definition nuevaBoleta (defaultValues : BoletaFormValues) (st : FormState)
  : FormState * BoletaFormValues :=
  (setCurrentSocioId None (setLastIssuedBoleta None st), defaultValues).

End BoletaFormActions.

(** ** src/components/accounts/TransactionForm.tsx (src/unnamed/part_009) *)
Module TransactionForm.
Import Js InvoicingTypes.

(** ['Ingreso' | 'Anulacion' | 'Devolucion' | 'Gasto'] *)
Inductive TransactionType := Ingreso | Anulacion | Devolucion | Gasto.

#[global] Instance TransactionType_eq_dec : EqDecision TransactionType.
Proof. solve_decision. Defined.

(** The string of a transaction type. *)
Definition type_name (t : TransactionType) : string :=
  match t with
  | Ingreso => "Ingreso"
  | Anulacion => "Anulacion"
  | Devolucion => "Devolucion"
  | Gasto => "Gasto"
  end.

(** A [Date]: its time value in milliseconds, or an invalid date. *)
Inductive JsDate :=
| TimeValue (ms : Z)
| InvalidDate.

(** [TransactionFormValues] (src/lib/types/form.ts). *)
Record TransactionFormValues :=
  { accountName : string;
    transactionType : TransactionType;
    amount : float;
    date : JsDate;
    description : option string;
    category : option string;
    sub_category : option string;
    numeroGasto : option string;
    colaboradorId : option string;
    receiptNumber : option string;
    dni : option string;
    fullName : option string;
    numeroOperacion : option string }.

(** What a zod type reports for one key: its issues, and whether the value
    has the wrong type, in which case zod does not run the refinements of
    the enclosing object. *)
Definition amount_issue (message : string) : ZodIssue :=
  {| path := [Key "amount"]; issue := message |}.

(** [z.preprocess((val) => Number(val), z.number().min(0, ..))] (lines
    800-803) on a number. *)
Definition amount_schema (x : float) : list ZodIssue * bool :=
  if PrimFloat.is_nan x then ([amount_issue "Expected number, received nan"], true)
  else if (x <? 0)%float then ([amount_issue "El monto debe ser positivo."], false)
  else ([], false).

(** [z.date(..)] (lines 804-806) on a [Date]. *)
Definition date_schema (d : JsDate) : list ZodIssue * bool :=
  match d with
  | TimeValue _ => ([], false)
  | InvalidDate => ([ {| path := [Key "date"]; issue := "Invalid date" |} ], true)
  end.

(** The callback of [superRefine] (lines 816-845). *)
Definition superRefine (data : TransactionFormValues) : list ZodIssue :=
  (if bool_decide (transactionType data = Anulacion) && negb (amount data =? 0)%float
   then [amount_issue "Para Anulación, el monto debe ser 0."] else [])
  ++ (if bool_decide (transactionType data = Devolucion) && (amount data <=? 0)%float
      then [amount_issue
              "Para Devolución, el monto debe ser positivo (se registrará como negativo)."]
      else [])
  ++ (if bool_decide (transactionType data = Gasto) && (amount data <=? 0)%float
      then [amount_issue "Para Gasto, el monto debe ser positivo (se registrará como negativo)."]
      else [])
  ++ (if bool_decide (transactionType data = Ingreso) && (amount data <=? 0)%float
      then [amount_issue "Para Ingreso, el monto debe ser positivo."] else []).

(** [formSchema] (lines 795-845): the issues of a form value, none when it
    is valid.  The enum accepts each of the four types and the optional
    strings accept every string. *)
Definition formSchema (data : TransactionFormValues) : list ZodIssue :=
  let account := string_min 1 "Selecciona una cuenta." [Key "accountName"] (accountName data) in
  let '(amount_issues, amount_aborted) := amount_schema (amount data) in
  let '(date_issues, date_aborted) := date_schema (date data) in
  let shape := account ++ amount_issues ++ date_issues in
  if amount_aborted || date_aborted then shape else shape ++ superRefine data.

(** The object given to [supabase.from('gastos').insert] (lines 898-907). *)
Record GastoRow :=
  { gasto_account : string;
    gasto_amount : float;
    gasto_date : string;
    gasto_description : option string;
    gasto_category : option string;
    gasto_sub_category : option string;
    numero_gasto : option string;
    colaborador_id : option string }.

(** The object given to [supabase.from('ingresos').insert] (lines 910-919). *)
Record IngresoRow :=
  { ingreso_account : string;
    ingreso_amount : float;
    ingreso_date : string;
    transaction_type : TransactionType;
    receipt_number : option string;
    ingreso_dni : option string;
    full_name : option string;
    ingreso_numeroOperacion : option string }.

(** The two tables: each insert answers [{ error }]. *)
Record Tables :=
  { insert_gastos : GastoRow → option Supabase.PostgrestError;
    insert_ingresos : IngresoRow → option Supabase.PostgrestError }.

(** What the libraries contribute: date-fns' [format(_, 'yyyy-MM-dd')] of a
    valid time value in the local time zone, and
    [toLocaleString('es-PE', { style: 'currency', currency: 'PEN' })]. *)
Record Locale :=
  { format_yyyy_MM_dd : Z → string;
    toLocaleString_PEN : float → string }.

(** [format(date, 'yyyy-MM-dd')]: a [RangeError] for an invalid date. *)
Definition format (lc : Locale) (d : JsDate) : Result string :=
  match d with
  | TimeValue ms => Returns (format_yyyy_MM_dd lc ms)
  | InvalidDate => Throws (ErrorInstance "Invalid time value")
  end.

Inductive Effect :=
| INSERT_gastos (row : GastoRow)
| INSERT_ingresos (row : IngresoRow)
| toast_success (title description : string)
| toast_error (title description : string)
| onSuccess
| onClose.

(** Lines 889-895. *)
Definition finalAmount (values : TransactionFormValues) : float :=
  match transactionType values with
  | Devolucion | Gasto => (- abs (amount values))%float
  | Anulacion => 0%float
  | Ingreso => amount values
  end.

(** How the [try] block ends: normally, or with a thrown value whose
    [message] is read by the [catch]. *)
Inductive Completion :=
| Done
| Failed (message : string).

(** The [try] block of [onSubmit] (lines 888-921), up to the insert. *)
Definition insert_transaction (lc : Locale) (db : Tables) (values : TransactionFormValues)
  : Completion * list Effect :=
  match format lc (date values) with
  | Throws (ErrorInstance m) => (Failed m, [])
  | Throws OtherValue => (Failed "", [])
  | Returns transactionDate =>
      match transactionType values with
      | Gasto =>
          let row :=
            {| gasto_account := accountName values; gasto_amount := finalAmount values;
               gasto_date := transactionDate; gasto_description := description values;
               gasto_category := category values; gasto_sub_category := sub_category values;
               numero_gasto := numeroGasto values; colaborador_id := colaboradorId values |} in
          (match insert_gastos db row with
           | Some error => Failed (Supabase.message error)
           | None => Done
           end, [INSERT_gastos row])
      | _ =>
          let row :=
            {| ingreso_account := accountName values; ingreso_amount := finalAmount values;
               ingreso_date := transactionDate; transaction_type := transactionType values;
               receipt_number := receiptNumber values; ingreso_dni := dni values;
               full_name := fullName values;
               ingreso_numeroOperacion := numeroOperacion values |} in
          (match insert_ingresos db row with
           | Some error => Failed (Supabase.message error)
           | None => Done
           end, [INSERT_ingresos row])
      end
  end.

(** [onSubmit] (lines 885-934): the [loading] flag afterwards and what was
    done. *)
Definition onSubmit (lc : Locale) (db : Tables) (values : TransactionFormValues)
    (loading : bool) : bool * list Effect :=
  let '(completion, sent) := insert_transaction lc db values in
  (false,
   sent ++
   match completion with
   | Done =>
       [ toast_success "Transacción registrada"
           ("Se ha registrado un " ++ type_name (transactionType values) ++ " de "
            ++ toLocaleString_PEN lc (amount values) ++ " en la cuenta "
            ++ accountName values ++ ".")%string;
         onSuccess; onClose ]
   | Failed message => [ toast_error "Error al registrar transacción" message ]
   end).

(** [form.handleSubmit(onSubmit)] with the [zodResolver] (line 938). *)
Definition handleSubmit (lc : Locale) (db : Tables) (values : TransactionFormValues)
    (loading : bool) : bool * list Effect * list ZodIssue :=
  match formSchema values with
  | [] => (onSubmit lc db values loading, [])
  | errors => (loading, [], errors)
  end.

End TransactionForm.

(** ** src/components/documents/UploadDocumentModal.tsx (src/unnamed/part_009) *)
Module UploadDocumentModal.
Import Js.

(** ['Planos de ubicación' | 'Memoria descriptiva'] *)
Inductive DocumentType := Planos_de_ubicacion | Memoria_descriptiva.

Definition type_label (t : DocumentType) : string :=
  match t with
  | Planos_de_ubicacion => "Planos de ubicación"
  | Memoria_descriptiva => "Memoria descriptiva"
  end.

(** A [File]: its name and its content. *)
Record File := { file_name : string; file_content : string }.

(** The props read by [handleSubmit]. *)
Record Props :=
  { socioId : option Z;
    socioName : string;
    documentType : option DocumentType }.

(** The [useState] cells. *)
Record State := { selectedFile : option File; isUploading : bool }.

(** The object given to [upsert] (lines 1327-1331). *)
Record DocumentRow :=
  { socio_id : Z;
    tipo_documento : DocumentType;
    link_documento : string }.

(** The collaborators: whether [auth.getSession] has a session, the clock,
    the storage ([upload] answers with the message of its error, if any;
    [getPublicUrl] with the URL, if any) and the table. *)
Record Backend :=
  { has_session : bool;
    Date_now : Z;
    upload : string → string → File → option string;
    getPublicUrl : string → string → option string;
    upsert : DocumentRow → option string }.

Inductive Effect :=
| preventDefault
| toast_warning (message : string)
| toast_loading (title description : string)
| storage_upload (bucketName filePath : string) (file : File)
| UPSERT_socio_documentos (row : DocumentRow) (onConflict : string)
| toast_success (title description : string)
| toast_error (title description : string)
| onUploadSuccess
| onOpenChange (isOpen : bool).

(** The one-character string of the double quote. *)
Definition quote : string := String (Ascii.ascii_of_nat 34) EmptyString.

(** [handleFileChange] (lines 1269-1273). *)
Definition handleFileChange (files : option (list File)) (st : State) : State :=
  match files with
  | Some (file :: _) => {| selectedFile := Some file; isUploading := isUploading st |}
  | _ => st
  end.

(** Line 1297. *)
Definition bucketName (documentType : DocumentType) : string :=
  match documentType with
  | Planos_de_ubicacion => "planos"
  | Memoria_descriptiva => "memoria-descriptiva"
  end.

(** Line 1301. *)
Definition filePath (socioId now : Z) (file : File) : string :=
  (pretty socioId ++ "/" ++ pretty now ++ "-" ++ file_name file)%string.

Inductive Completion :=
| Done
| Failed (message : string).

(** The [try] block (lines 1288-1337). *)
Definition store_document (be : Backend) (socioId : Z) (documentType : DocumentType)
    (file : File) : Completion * list Effect :=
  if negb (has_session be) then
    (Failed "No hay sesión de usuario activa. Por favor, inicia sesión de nuevo.", [])
  else
    let bucket := bucketName documentType in
    let path := filePath socioId (Date_now be) file in
    let uploaded := [storage_upload bucket path file] in
    match upload be bucket path file with
    | Some message => (Failed ("Error en Supabase Storage: " ++ message)%string, uploaded)
    | None =>
        match getPublicUrl be bucket path with
        | Some publicUrl =>
            if truthy_string publicUrl then
              let row := {| socio_id := socioId; tipo_documento := documentType;
                            link_documento := publicUrl |} in
              let sent := uploaded ++ [UPSERT_socio_documentos row "socio_id, tipo_documento"] in
              match upsert be row with
              | Some message =>
                  (Failed ("Error en la base de datos: " ++ message)%string, sent)
              | None => (Done, sent)
              end
            else (Failed "No se pudo obtener la URL pública del archivo.", uploaded)
        | None => (Failed "No se pudo obtener la URL pública del archivo.", uploaded)
        end
    end.

(** [handleSubmit] (lines 1275-1357). *)
Definition handleSubmit (be : Backend) (props : Props) (st : State) : State * list Effect :=
  match selectedFile st, socioId props, documentType props with
  | Some file, Some id, Some type =>
      if truthy_int id then
        let started :=
          [ preventDefault;
            toast_loading ("Subiendo " ++ quote ++ type_label type ++ quote ++ "...")%string
                          ("Adjuntando archivo para " ++ socioName props ++ ".")%string ] in
        let '(completion, sent) := store_document be id type file in
        match completion with
        | Done =>
            ({| selectedFile := None; isUploading := false |},
             started ++ sent ++
             [ toast_success "Documento subido con éxito!"
                 ("El archivo para " ++ socioName props ++ " ha sido procesado.")%string;
               onUploadSuccess; onOpenChange false ])
        | Failed message =>
            ({| selectedFile := selectedFile st; isUploading := false |},
             started ++ sent ++
             [ toast_error "Error al subir el documento"
                 (if truthy_string message then message
                  else "Ocurrió un problema con la subida. Inténtalo de nuevo.") ])
        end
      else (st, [preventDefault; toast_warning "Por favor, selecciona un archivo para subir."])
  | _, _, _ => (st, [preventDefault; toast_warning "Por favor, selecciona un archivo para subir."])
  end.

End UploadDocumentModal.

(** ** Sample data used by the examples *)
Module Samples.
Import Js Supabase UserContext SessionStore.

Definition ana : User := {| id := "u-ana"; email := "ana@example.org" |}.
Definition bruno : User := {| id := "u-bruno"; email := "bruno@example.org" |}.
Definition session_of (u : User) : Session := {| user_of := u; expires_at := 3600 |}.

(** One actor holding one role that has one allowed grant. *)
Definition db_people (rid : Z) (name : string) : Database :=
  {| user_roles := [ {| ur_user_id := "u-ana";
                        ur_roles := Some {| role_id := rid; role_name := name |} |} ];
     resource_permissions :=
       [ {| rp_role_id := rid; rp_resource_path := "/people"; can_access := true |} ] |}.

(** Two actors with different roles and grants. *)
Definition db_two : Database :=
  {| user_roles :=
       [ {| ur_user_id := "u-ana";
            ur_roles := Some {| role_id := 1; role_name := "admin" |} |};
         {| ur_user_id := "u-bruno";
            ur_roles := Some {| role_id := 2; role_name := "files" |} |} ];
     resource_permissions :=
       [ {| rp_role_id := 1; rp_resource_path := "/settings"; can_access := true |};
         {| rp_role_id := 2; rp_resource_path := "/partner-documents"; can_access := true |} ] |}.

(** A collaborator whose role query is refused. *)
Definition denied : PostgrestError :=
  {| message := "permission denied for table user_roles"; code := "42501" |}.
Definition sb_roles_denied : SupabaseClient :=
  {| getUser := Some ana;
     from_user_roles := λ _, failed denied;
     from_resource_permissions := λ _, ok [] |}.

(** Stand-ins for the runtime functions in the examples. *)
Definition rt_sample : Json.Runtime :=
  {| Json.JSON_stringify := λ _, "{}";
     Json.ToString := λ _, "[object Object]";
     Json.TypeError_null_property :=
       λ key, ("Cannot read properties of null (reading '" ++ key ++ "')")%string;
     Json.ZodError_message := λ _, "[]";
     Json.email_pattern := λ _, false |}.

(** [defaultClient] and [defaultValues] of the form, with the date fixed and
    the list of line items left open. *)
Definition defaultClient : InvoicingTypes.Client :=
  {| InvoicingTypes.id := None;
     InvoicingTypes.tipo_documento := "1";
     InvoicingTypes.numero_documento := "";
     InvoicingTypes.razon_social := "";
     InvoicingTypes.nombre_comercial := Some "";
     InvoicingTypes.direccion := "";
     InvoicingTypes.ubigeo := Some "";
     InvoicingTypes.distrito := Some "";
     InvoicingTypes.provincia := Some "";
     InvoicingTypes.departamento := Some "";
     InvoicingTypes.telefono := Some "";
     InvoicingTypes.email := Some "" |}.

Definition defaultDetalle : InvoicingTypes.Detalle :=
  {| InvoicingTypes.codigo := Some "SERV";
     InvoicingTypes.descripcion := "Elaboracion de Expediente Tecnico";
     InvoicingTypes.unidad := "ZZ";
     InvoicingTypes.cantidad := 1;
     InvoicingTypes.mto_valor_unitario := 250;
     InvoicingTypes.porcentaje_igv := 18;
     InvoicingTypes.tip_afe_igv := "10";
     InvoicingTypes.codigo_producto_sunat := Some "00001" |}.

Definition form_values (items : list InvoicingTypes.Detalle) : InvoicingTypes.BoletaFormValues :=
  {| InvoicingTypes.serie := "B001";
     InvoicingTypes.fecha_emision := "2025-07-28";
     InvoicingTypes.moneda := "PEN";
     InvoicingTypes.tipo_operacion := "0101";
     InvoicingTypes.metodo_envio := "resumen_diario";
     InvoicingTypes.forma_pago_tipo := "Contado";
     InvoicingTypes.usuario_creacion := "admin_user";
     InvoicingTypes.client := defaultClient;
     InvoicingTypes.detalles := items;
     InvoicingTypes.company_id := None;
     InvoicingTypes.branch_id := None |}.

(** The form as mounted. *)
Definition form_idle : BoletaForm.FormState :=
  {| BoletaForm.isSubmitting := false;
     BoletaForm.isClientSearching := false;
     BoletaForm.isGeneratingPdf := false;
     BoletaForm.lastIssuedBoleta := None;
     BoletaForm.currentSocioId := None |}.

(** An invoicing collaborator that answers every submission with [outcome]
    and accepts every PDF request. *)
Definition rest_answering (outcome : InvoicingApi.AxiosOutcome) : InvoicingApi.InvoicingRest :=
  {| InvoicingApi.post_boletas := λ _, outcome;
     InvoicingApi.post_generate_pdf := λ _ _, InvoicingApi.Response Json.JNull |}.

(** The error body [{message: "RUC invalid"}] and the body
    [{success: flag, message: "rechazado", data: {id: 42, numero_completo: "B001-00042"}}]. *)
Definition ruc_invalid : Json.json :=
  Json.JObject [("message", Json.JString "RUC invalid")].
Definition issued_with_success (flag : bool) : Json.json :=
  Json.JObject
    [ ("success", Json.JBool flag);
      ("message", Json.JString "rechazado");
      ("data", Json.JObject [ ("id", Json.JNumber 42);
                              ("numero_completo", Json.JString "B001-00042") ]) ].

(** A [socio_titulares] table that knows nobody and one that is down. *)
Definition nobody : string → InvoicingApi.QueryOutcome :=
  λ _, InvoicingApi.Answer
         {| Supabase.data := None;
            Supabase.error :=
              Some {| Supabase.message := "JSON object requested, multiple (or no) rows returned";
                      Supabase.code := "PGRST116" |} |}.
Definition unreachable : string → InvoicingApi.QueryOutcome :=
  λ _, InvoicingApi.Answer
         {| Supabase.data := None;
            Supabase.error :=
              Some {| Supabase.message := "TypeError: Failed to fetch";
                      Supabase.code := "" |} |}.

End Samples.

(** ** Properties of the role/permission resolver *)
Module UserContextFacts.
Import Js Supabase UserContext.

Lemma filter_Boolean_string_elem (xs : list (option string)) (s : string) :
  s ∈ filter_Boolean_string xs ↔ Some s ∈ xs ∧ s ≠ "".
Proof.
  unfold filter_Boolean_string. rewrite list_elem_of_omap. split.
  - intros (x & Hx & Hs). destruct x as [t|]; [|done].
    unfold truthy_string in Hs. destruct (decide (t = "")); [done|].
    by simplify_eq.
  - intros [Hin Hne]. exists (Some s). split; [done|].
    unfold truthy_string. by destruct (decide (s = "")).
Qed.

Lemma filter_Boolean_int_elem (xs : list (option Z)) (n : Z) :
  n ∈ filter_Boolean_int xs ↔ Some n ∈ xs ∧ n ≠ 0%Z.
Proof.
  unfold filter_Boolean_int. rewrite list_elem_of_omap. split.
  - intros (x & Hx & Hn). destruct x as [t|]; [|done].
    unfold truthy_int in Hn. destruct (decide (t = 0%Z)); [done|].
    by simplify_eq.
  - intros [Hin Hne]. exists (Some n). split; [done|].
    unfold truthy_int. by destruct (decide (n = 0%Z)).
Qed.

Lemma query_user_roles_elem db uid (r : Role) :
  Some r ∈ (λ item, roles_of item) <$> query_user_roles db uid
  ↔ {| ur_user_id := uid; ur_roles := Some r |} ∈ user_roles db.
Proof.
  unfold query_user_roles. rewrite <- list_fmap_compose, list_elem_of_fmap. split.
  - intros ([uid' o] & Heq & Hin). apply list_elem_of_filter in Hin as [Hid Hin].
    simpl in *. by subst.
  - intros Hin. eexists. split; [|apply list_elem_of_filter; split; [|exact Hin]]; done.
Qed.

Lemma query_resource_permissions_elem db ids (path : string) :
  path ∈ resource_path <$> query_resource_permissions db ids
  ↔ ∃ rid, rid ∈ ids ∧
      {| rp_role_id := rid; rp_resource_path := path; can_access := true |}
        ∈ resource_permissions db.
Proof.
  unfold query_resource_permissions. rewrite <- list_fmap_compose, list_elem_of_fmap. split.
  - intros ([rid p a] & Heq & Hin). apply list_elem_of_filter in Hin as [[Hid Ha] Hin].
    simpl in *. subst. eauto.
  - intros (rid & Hid & Hin). eexists. split; [|apply list_elem_of_filter; split; [|exact Hin]]; done.
Qed.

Lemma fetchedPermissions_elem rows (path : string) :
  path ∈ fetchedPermissions (Some rows)
  ↔ path ∈ resource_path <$> rows ∨ (path = "/" ∧ rows ≠ []).
Proof.
  unfold fetchedPermissions. simpl.
  destruct (decide (0 < size _)) as [Hpos|Hz].
  - rewrite elem_of_union, elem_of_singleton, elem_of_list_to_set.
    assert (rows ≠ []) by (intros ->; apply size_pos_elem_of in Hpos as [x Hx]; set_solver).
    naive_solver.
  - rewrite elem_of_list_to_set.
    assert (rows = []) as ->; [|naive_solver].
    destruct rows as [|row rows]; [done|]. exfalso.
    assert (size (list_to_set (resource_path <$> row :: rows) : gset string) = 0) as Hsz by lia.
    apply size_empty_inv in Hsz. set_solver.
Qed.

(** The role names and the usable role identifiers the resolver reads
    from the membership rows of [u]. *)
Definition fetchedRoles_of (db : Database) (u : User) : list string :=
  filter_Boolean_string
    ((λ item, role_name <$> roles_of item) <$> query_user_roles db (id u)).
Definition roleIds_of (db : Database) (u : User) : list Z :=
  filter_Boolean_int
    ((λ item, role_id <$> roles_of item) <$> query_user_roles db (id u)).

(** A completed resolution against a healthy collaborator, in closed form. *)
Lemma resolved_eq db u st :
  resolved db u st =
    Some (if decide (0 < length (fetchedRoles_of db u)) then
            if decide (length (roleIds_of db u) = 0) then ∅
            else fetchedPermissions
                   (Some (query_resource_permissions db (roleIds_of db u)))
          else ∅).
Proof.
  unfold resolved, fetchUserAndRolesAndPermissions, fetchedRoles_of, roleIds_of.
  cbn [body_start try_catch_finally and_then resume healthy getUser body_user
       from_user_roles from_resource_permissions].
  unfold body_roles. cbn [ok error data default].
  destruct (decide (0 < length _)); [|done].
  destruct (decide (length _ = 0)); done.
Qed.

End UserContextFacts.

(** ** C1: the root path in the effective permission set *)
Module RootPath.
Import Js Supabase UserContext UserContextFacts Samples.

(** Membership rows of the actor. *)
Definition memberships (db : Database) (u : User) : list UserRoleRow :=
  filter (λ r, ur_user_id r = id u) (user_roles db).

(** One of the actor's roles with a non-zero identifier has an allowed
    grant on [path]. *)
Definition granted_by_usable_id (db : Database) (u : User) (path : string) : Prop :=
  ∃ r, holds_role db u r ∧ role_id r ≠ 0%Z ∧
       {| rp_role_id := role_id r; rp_resource_path := path; can_access := true |}
         ∈ resource_permissions db.

(** One of the actor's roles has a non-empty name. *)
Definition has_named_role (db : Database) (u : User) : Prop :=
  ∃ r, holds_role db u r ∧ role_name r ≠ "".

Lemma fetchedRoles_of_elem db u (name : string) :
  name ∈ fetchedRoles_of db u ↔ name ≠ "" ∧ ∃ r, holds_role db u r ∧ role_name r = name.
Proof.
  unfold fetchedRoles_of, holds_role.
  rewrite filter_Boolean_string_elem, list_elem_of_fmap. split.
  - intros [(item & Heq & Hin) Hne]. split; [done|].
    destruct (roles_of item) as [r|] eqn:Hr; [|done]. exists r. split; [|by simplify_eq/=].
    apply query_user_roles_elem, list_elem_of_fmap. eauto.
  - intros (Hne & r & Hr & <-). split; [|done].
    apply query_user_roles_elem, list_elem_of_fmap in Hr as (item & Heq & Hin).
    exists item. by rewrite <- Heq.
Qed.

Lemma roleIds_of_elem db u (rid : Z) :
  rid ∈ roleIds_of db u ↔ rid ≠ 0%Z ∧ ∃ r, holds_role db u r ∧ role_id r = rid.
Proof.
  unfold roleIds_of, holds_role.
  rewrite filter_Boolean_int_elem, list_elem_of_fmap. split.
  - intros [(item & Heq & Hin) Hne]. split; [done|].
    destruct (roles_of item) as [r|] eqn:Hr; [|done]. exists r. split; [|by simplify_eq/=].
    apply query_user_roles_elem, list_elem_of_fmap. eauto.
  - intros (Hne & r & Hr & <-). split; [|done].
    apply query_user_roles_elem, list_elem_of_fmap in Hr as (item & Heq & Hin).
    exists item. by rewrite <- Heq.
Qed.

Lemma no_memberships_no_rows db u :
  memberships db u = [] → query_user_roles db (id u) = [].
Proof. unfold memberships, query_user_roles. by intros ->. Qed.

(** Every path of the resolved set other than the root comes from an
    allowed grant of a role the actor holds; the root is there only next
    to such a path. *)
Lemma resolved_sound db u st s (path : string) :
  resolved db u st = Some s → path ∈ s → ∃ p, granted db u p.
Proof.
  rewrite resolved_eq. intros [= <-] Hin.
  destruct (decide (0 < length _)); [|set_solver].
  destruct (decide (length _ = 0)); [set_solver|].
  assert (∃ p, p ∈ resource_path <$> query_resource_permissions db (roleIds_of db u))
    as [p Hp].
  { apply fetchedPermissions_elem in Hin as [Hin|[_ Hne]]; [eauto|].
    destruct (query_resource_permissions db (roleIds_of db u)) as [|row rows]; [done|].
    exists (resource_path row). set_solver. }
  apply query_resource_permissions_elem in Hp as (rid & Hid & Hg).
  apply roleIds_of_elem in Hid as (_ & r & Hr & <-).
  exists p, r. done.
Qed.

(** C1 (as amended): an actor without membership rows gets the empty set
    (no root path); an actor holding a role with a non-empty name gets,
    for every allowed grant of a role with a non-zero identifier, both the
    granted path and the root path, and adding the root path again changes
    nothing; the root path is in the set only if some role of the actor
    has an allowed grant. *)
Theorem root_path_with_usable_grant (db : Database) (u : User) (st : UserContextType) :
  (memberships db u = [] → resolved db u st = Some ∅) ∧
  (∀ path, has_named_role db u → granted_by_usable_id db u path →
     ∃ s, resolved db u st = Some s ∧ "/" ∈ s ∧ path ∈ s ∧ {["/"]} ∪ s = s) ∧
  (∀ s, resolved db u st = Some s → "/" ∈ s → ∃ path, granted db u path).
Proof.
  split; [|split].
  - intros Hnone. rewrite resolved_eq. unfold fetchedRoles_of.
    rewrite (no_memberships_no_rows _ _ Hnone). done.
  - intros path (r & Hr & Hname) (r' & Hr' & Hid & Hg).
    rewrite resolved_eq.
    assert (role_name r ∈ fetchedRoles_of db u) as Hn
      by (apply fetchedRoles_of_elem; eauto).
    assert (role_id r' ∈ roleIds_of db u) as Hi
      by (apply roleIds_of_elem; eauto).
    destruct (decide (0 < length _)) as [_|Hz];
      [|destruct (fetchedRoles_of db u); [by apply elem_of_nil in Hn | simpl in Hz; lia]].
    destruct (decide (length _ = 0)) as [Hz|_];
      [destruct (roleIds_of db u); [by apply elem_of_nil in Hi | done]|].
    eexists. split; [done|].
    assert (path ∈ resource_path <$> query_resource_permissions db (roleIds_of db u)) as Hp
      by (apply query_resource_permissions_elem; eauto).
    assert ("/" ∈ fetchedPermissions (Some (query_resource_permissions db (roleIds_of db u)))).
    { apply fetchedPermissions_elem. right. split; [done|].
      intros Hnil. rewrite Hnil in Hp. by apply elem_of_nil in Hp. }
    split; [done|]. split; [apply fetchedPermissions_elem; by left|]. set_solver.
  - intros s Hs Hroot. eapply resolved_sound; eauto.
Qed.

Lemma root_path_with_usable_grant_witness :
  ∃ s, resolved (db_people 1 "admin") ana initial = Some s ∧
       "/" ∈ s ∧ "/people" ∈ s ∧ {["/"]} ∪ s = s.
Proof.
  apply (root_path_with_usable_grant (db_people 1 "admin") ana initial).
  - exists {| role_id := 1; role_name := "admin" |}. split; [|done].
    unfold holds_role. simpl. apply list_elem_of_here.
  - exists {| role_id := 1; role_name := "admin" |}. split; [|split; [done|]].
    + unfold holds_role. simpl. apply list_elem_of_here.
    + simpl. apply list_elem_of_here.
Defined.

(** C1 (as stated) fails when the only role of the actor has identifier 0:
    the role has an allowed grant on [/people], yet [filter(Boolean)] drops
    the identifier, the guard on [roleIds.length === 0] stores the empty
    set, and the root path is absent. *)
Lemma granted_without_root_path :
  granted (db_people 0 "admin") ana "/people" ∧
  resolved (db_people 0 "admin") ana initial = Some ∅.
Proof.
  split.
  - exists {| role_id := 0; role_name := "admin" |}. split.
    + unfold holds_role. simpl. apply list_elem_of_here.
    + simpl. apply list_elem_of_here.
  - rewrite resolved_eq. reflexivity.
Qed.

End RootPath.

(** ** C2: a failing role or permission fetch *)
Module FetchFailure.
Import Js Supabase UserContext UserContextFacts Samples.

(** The role query answers with an error. *)
Definition role_fetch_fails (sb : SupabaseClient) (u : User) (e : PostgrestError) : Prop :=
  error (from_user_roles sb (id u)) = Some e.

(** The role query succeeds with at least one named role and one usable
    identifier, and the permission query the resolver then sends answers
    with an error. *)
Definition permission_fetch_fails (sb : SupabaseClient) (u : User) (e : PostgrestError)
  : Prop :=
  ∃ rows,
    let names := filter_Boolean_string ((λ item, role_name <$> roles_of item) <$> default [] rows) in
    let ids := filter_Boolean_int ((λ item, role_id <$> roles_of item) <$> default [] rows) in
    from_user_roles sb (id u) = {| data := rows; error := None |} ∧
    0 < length names ∧ length ids ≠ 0 ∧
    error (from_resource_permissions sb ids) = Some e.

Definition global_error : string :=
  "UserContext: Global error fetching user, roles, or permissions:".

(** C2 (as amended): when the role fetch or the permission fetch fails,
    resolution stops there, the store ends with the actor kept, roles and
    permission set absent and loading cleared, and the failure is written
    to the error console; the promise of the resolver is fulfilled, so no
    error reaches the caller. *)
Theorem fetch_failure_fail_closed (sb : SupabaseClient) (st : UserContextType)
    (u : User) (e : PostgrestError) :
  getUser sb = Some u →
  role_fetch_fails sb u e ∨ permission_fetch_fails sb u e →
  ∃ st' eff,
    fetchUserAndRolesAndPermissions sb st = (st', eff, Fulfilled) ∧
    user st' = Some u ∧ roles st' = None ∧ permissions st' = None ∧
    loading st' = false ∧
    console_error global_error e ∈ eff ∧
    (∀ ids, role_fetch_fails sb u e → select_resource_permissions ids ∉ eff).
Proof.
  intros Hu Hfail.
  unfold fetchUserAndRolesAndPermissions.
  cbn [body_start try_catch_finally and_then resume].
  rewrite Hu. cbn [body_user try_catch_finally and_then resume].
  destruct Hfail as [Hr|(rows & Hrows & Hn & Hi & Hp)].
  - unfold role_fetch_fails in Hr. unfold body_roles. rewrite Hr.
    cbn. do 2 eexists. split; [done|]. repeat split; try done.
    + unfold global_error. set_solver.
    + intros ids _ Hin. set_solver.
  - unfold body_roles. rewrite Hrows. cbn [error data].
    destruct (decide (0 < length _)); [|done].
    destruct (decide (length _ = 0)); [done|].
    cbn [try_catch_finally and_then resume]. unfold body_permissions. rewrite Hp.
    cbn. do 2 eexists. split; [done|]. repeat split; try done.
    + unfold global_error. set_solver.
    + intros ids Hr. unfold role_fetch_fails in Hr. rewrite Hrows in Hr. done.
Qed.

Lemma fetch_failure_fail_closed_witness :
  ∃ st' eff,
    fetchUserAndRolesAndPermissions sb_roles_denied initial = (st', eff, Fulfilled) ∧
    user st' = Some ana ∧ roles st' = None ∧ permissions st' = None ∧
    loading st' = false ∧
    console_error global_error denied ∈ eff ∧
    (∀ ids, role_fetch_fails sb_roles_denied ana denied →
            select_resource_permissions ids ∉ eff).
Proof.
  apply (fetch_failure_fail_closed sb_roles_denied initial ana denied).
  - reflexivity.
  - left. reflexivity.
Defined.

(** C2 (as stated) fails on the last part: with the role query refused the
    resolver's promise is fulfilled, not rejected, and the context handed
    to the consumers holds the four fields below and no error. *)
Lemma failure_not_surfaced :
  fetchUserAndRolesAndPermissions sb_roles_denied initial =
    ({| user := Some ana; roles := None; permissions := None; loading := false |},
     [ auth_getUser;
       select_user_roles "u-ana";
       console_error "UserContext: Error fetching user roles:" denied;
       console_error global_error denied ],
     Fulfilled)
  ∧ ∀ e, (fetchUserAndRolesAndPermissions sb_roles_denied initial).2 ≠ Rejected e.
Proof. split; [reflexivity | intros e; discriminate]. Qed.

End FetchFailure.

(** ** C3: resolutions that complete after the actor has changed *)
Module StaleResolution.
Import Js Supabase UserContext SessionStore UserContextFacts Samples.

(** The pending request belongs to a resolution for actor [u]. *)
Definition targets (db : Database) (u : User) (p : Pending) : Prop :=
  match p with
  | AwaitUser => True
  | AwaitRoles uid => uid = id u
  | AwaitPermissions ids =>
      ids = roleIds_of db u ∧ 0 < length (fetchedRoles_of db u) ∧ length ids ≠ 0
  end.

(** The invocation was called under the session of [u] and waits for a
    request of a resolution for [u]. *)
Definition concerns (db : Database) (u : User) (inv : Invocation) : Prop :=
  asked_as inv = Some u ∧ targets db u (suspended_at inv).

(** The store and everything in flight concern the one actor [u]. *)
Definition coherent (db : Database) (u : User) (w : World) : Prop :=
  auth w = Some u ∧ user (ctx w) = Some u ∧
  Forall (concerns db u) (invocations w) ∧
  (inflight w = [] → permissions (ctx w) = resolved db u initial).

Definition is_answer (ev : Event) : Prop :=
  match ev with
  | Answered _ => True
  | _ => False
  end.

Lemma useEffect_same_id (w : World) (previous_id : option string) :
  id <$> user (ctx w) = previous_id → useEffect previous_id w = w.
Proof. intros H. unfold useEffect. by rewrite decide_True. Qed.

Lemma Forall_delete_snoc {A} (P : A → Prop) (l : list A) (i : nat) (x : A) :
  Forall P l → P x → Forall P (delete i l ++ [x]).
Proof.
  intros Hl Hx. apply Forall_app. split; [|by apply Forall_singleton].
  by apply Forall_delete.
Qed.

Lemma inflight_nil (w : World) : inflight w = [] ↔ invocations w = [].
Proof. unfold inflight. split; [apply fmap_nil_inv | by intros ->]. Qed.

Lemma answered_coherent db u w i :
  coherent db u w → coherent db u (step db w (Answered i)).
Proof.
  intros (Hauth & Huser & Hall & Hquiet).
  unfold step, settle.
  destruct (invocations w !! i) as [[p asked]|] eqn:Hp;
    [|rewrite useEffect_same_id by done; done].
  assert (concerns db u {| suspended_at := p; asked_as := asked |}) as [Ha Ht]
    by (eapply Forall_lookup_1; eauto).
  cbn in Ha, Ht. subst asked. unfold answer. cbn [suspended_at asked_as].
  destruct p as [|uid|ids]; cbn [continuation].
  - cbn [body_user try_catch_finally].
    rewrite useEffect_same_id by (cbn; by rewrite Huser).
    split; [done|]. split; [done|]. split.
    + cbn. apply Forall_delete_snoc; [done|]. by split.
    + intros Hnil. apply inflight_nil in Hnil. cbn in Hnil.
      by apply app_eq_nil in Hnil as [_ ?].
  - cbn in Ht. subst uid. unfold body_roles. cbn [ok error data default].
    pose proof (resolved_eq db u initial) as Hres.
    unfold fetchedRoles_of, roleIds_of in Hres.
    destruct (decide (0 < length _)) as [Hn|Hn].
    + destruct (decide (length _ = 0)) as [Hi|Hi]; cbn [try_catch_finally].
      * rewrite useEffect_same_id by (cbn; by rewrite Huser).
        split; [done|]. split; [done|]. split; [|done].
        cbn. rewrite app_nil_r. by apply Forall_delete.
      * rewrite useEffect_same_id by (cbn; by rewrite Huser).
        split; [done|]. split; [done|]. split.
        -- cbn. apply Forall_delete_snoc; [done|]. by repeat split.
        -- intros Hnil. apply inflight_nil in Hnil. cbn in Hnil.
           by apply app_eq_nil in Hnil as [_ ?].
    + cbn [try_catch_finally].
      rewrite useEffect_same_id by (cbn; by rewrite Huser).
      split; [done|]. split; [done|]. split; [|done].
      cbn. rewrite app_nil_r. by apply Forall_delete.
  - destruct Ht as (-> & Hn & Hi). unfold body_permissions. cbn [ok error data].
    cbn [try_catch_finally].
    rewrite useEffect_same_id by (cbn; by rewrite Huser).
    pose proof (resolved_eq db u initial) as Hres.
    rewrite decide_True in Hres by done. rewrite decide_False in Hres by done.
    split; [done|]. split; [done|]. split; [|done].
    cbn. rewrite app_nil_r. by apply Forall_delete.
Qed.

Lemma answers_coherent db u evs : ∀ w,
  coherent db u w → Forall is_answer evs → coherent db u (run db w evs).
Proof.
  induction evs as [|ev evs IH]; intros w Hw Hevs; [done|].
  apply Forall_cons in Hevs as [Hev Hevs].
  destruct ev as [| i |]; try done.
  cbn. apply IH; [|done]. by apply answered_coherent.
Qed.

(** An auth event that is not a same-actor [SIGNED_IN], arriving while
    nothing is in flight, leaves a store that concerns the new actor only. *)
Lemma actor_change_coherent db w event s :
  inflight w = [] →
  ¬ (event = SIGNED_IN ∧ id <$> user (ctx w) = Some (id (user_of s))) →
  let w' := step db w (AuthStateChange event (Some s)) in
  coherent db (user_of s) w' ∧ inflight w' ≠ [].
Proof.
  intros Hq Hne. apply inflight_nil in Hq. cbn. unfold onAuthStateChange. cbn [ctx].
  rewrite decide_False by done.
  unfold useEffect, call_fetch. cbn. rewrite Hq.
  destruct (decide _); cbn; (split; [|done]); repeat split; try done.
  all: repeat constructor.
Qed.

(** Awaits an invocation suspended at [p] still has to go through. *)
Definition awaits_left (p : Pending) : nat :=
  match p with
  | AwaitUser => 3
  | AwaitRoles _ => 2
  | AwaitPermissions _ => 1
  end.
Definition work_left (w : World) : nat := sum_list_with awaits_left (inflight w).

Lemma work_left_snoc (l : list Pending) (p : Pending) :
  sum_list_with awaits_left (l ++ [p]) = sum_list_with awaits_left l + awaits_left p.
Proof. rewrite sum_list_with_app. cbn. lia. Qed.

(** Answering the oldest pending request of a coherent store takes one
    await off the work that is left. *)
Lemma answered_oldest_work_left db u w :
  coherent db u w → work_left (step db w (Answered 0)) ≤ pred (work_left w).
Proof.
  intros (Hauth & Huser & Hall & Hquiet).
  unfold step, settle, work_left, inflight.
  destruct (invocations w) as [|[p asked] l] eqn:Hl; cbn [lookup list_lookup].
  { rewrite useEffect_same_id by done. rewrite Hl. done. }
  apply Forall_cons in Hall as [[Ha _] _]. cbn in Ha. subst asked.
  unfold answer. cbn [suspended_at asked_as].
  destruct p as [|uid|ids]; cbn [continuation delete list_delete].
  - cbn [body_user try_catch_finally].
    rewrite useEffect_same_id by (cbn; by rewrite Huser).
    cbn [invocations suspend pending_of fmap list_fmap].
    rewrite fmap_app. cbn [fmap list_fmap suspended_at].
    rewrite work_left_snoc. cbn. lia.
  - unfold body_roles. cbn [ok error data default].
    destruct (decide (0 < length _)) as [Hn|Hn].
    + destruct (decide (length _ = 0)) as [Hi|Hi]; cbn [try_catch_finally];
        rewrite useEffect_same_id by (cbn; by rewrite Huser);
        cbn [invocations suspend pending_of fmap list_fmap];
        rewrite ?app_nil_r, ?fmap_app; cbn [fmap list_fmap suspended_at];
        rewrite ?work_left_snoc; cbn; lia.
    + cbn [try_catch_finally].
      rewrite useEffect_same_id by (cbn; by rewrite Huser).
      cbn [invocations suspend pending_of fmap list_fmap]. rewrite app_nil_r. cbn. lia.
  - unfold body_permissions. cbn [ok error data try_catch_finally].
    rewrite useEffect_same_id by (cbn; by rewrite Huser).
    cbn [invocations suspend pending_of fmap list_fmap]. rewrite app_nil_r. cbn. lia.
Qed.

Lemma run_cons db w ev evs : run db w (ev :: evs) = run db (step db w ev) evs.
Proof. reflexivity. Qed.

Lemma answers_work_left db u n : ∀ w,
  coherent db u w →
  work_left (run db w (replicate n (Answered 0))) ≤ work_left w - n.
Proof.
  induction n as [|n IH]; intros w Hw; cbn [replicate]; [cbn; lia|].
  rewrite run_cons.
  pose proof (answered_oldest_work_left db u w Hw) as Hstep.
  pose proof (IH _ (answered_coherent db u w 0 Hw)) as Hrest.
  lia.
Qed.

Lemma no_work_left_at_rest (w : World) : work_left w = 0 → inflight w = [].
Proof.
  unfold work_left. destruct (inflight w) as [|p l]; [done|].
  destruct p; cbn; lia.
Qed.

Lemma actor_change_work_left db w event s :
  inflight w = [] →
  ¬ (event = SIGNED_IN ∧ id <$> user (ctx w) = Some (id (user_of s))) →
  work_left (step db w (AuthStateChange event (Some s))) ≤ 6.
Proof.
  intros Hq Hne. apply inflight_nil in Hq. unfold step, onAuthStateChange. cbn [ctx].
  rewrite decide_False by done.
  unfold useEffect, call_fetch, work_left, inflight.
  cbn [ctx invocations body_start try_catch_finally pending_of suspend].
  rewrite Hq.
  destruct (decide _); cbn; lia.
Qed.

(** After such an auth event six answers to the oldest pending request
    bring the store to rest: at most two invocations are in flight and each
    has three [await]s at most. *)
Lemma actor_change_settles db w event s :
  inflight w = [] →
  ¬ (event = SIGNED_IN ∧ id <$> user (ctx w) = Some (id (user_of s))) →
  inflight (run db w (AuthStateChange event (Some s) :: replicate 6 (Answered 0))) = [].
Proof.
  intros Hq Hne. rewrite run_cons.
  destruct (actor_change_coherent db w event s Hq Hne) as [Hc _].
  apply no_work_left_at_rest.
  pose proof (answers_work_left db (user_of s) 6 _ Hc) as Hle.
  pose proof (actor_change_work_left db w event s Hq Hne) as Hsix.
  lia.
Qed.

(** C3 (as amended): there is no stale-result check, the result of a
    resolution is stored when it completes.  When an actor change arrives
    while nothing is in flight, then however the answers of the resolutions
    it starts are ordered, the store comes to rest with the Actor and the
    permission set of that one actor, and it does come to rest; but an
    answered permission query always overwrites the permission set,
    whichever actor the store holds by then. *)
Theorem resolution_last_completion_wins (db : Database) :
  (∀ w event s evs,
     inflight w = [] →
     ¬ (event = SIGNED_IN ∧ id <$> user (ctx w) = Some (id (user_of s))) →
     Forall is_answer evs →
     let w' := run db w (AuthStateChange event (Some s) :: evs) in
     inflight w' = [] →
     user (ctx w') = Some (user_of s) ∧
     permissions (ctx w') = resolved db (user_of s) initial) ∧
  (∀ w event s,
     inflight w = [] →
     ¬ (event = SIGNED_IN ∧ id <$> user (ctx w) = Some (id (user_of s))) →
     inflight (run db w (AuthStateChange event (Some s) :: replicate 6 (Answered 0))) = []) ∧
  (∀ w i ids,
     inflight w !! i = Some (AwaitPermissions ids) →
     let w' := step db w (Answered i) in
     user (ctx w') = user (ctx w) ∧
     permissions (ctx w') =
       Some (fetchedPermissions (Some (query_resource_permissions db ids)))).
Proof.
  split; [|split].
  - intros w event s evs Hq Hne Hevs w' Hrest.
    destruct (actor_change_coherent db w event s Hq Hne) as [Hc _].
    pose proof (answers_coherent db (user_of s) evs _ Hc Hevs) as (_ & Hu & _ & Hp).
    split; [exact Hu | by apply Hp].
  - apply actor_change_settles.
  - intros w i ids Hi. cbn. unfold settle. unfold inflight in Hi.
    rewrite list_lookup_fmap in Hi.
    destruct (invocations w !! i) as [[p asked]|]; [|done].
    cbn in Hi. injection Hi as ->. unfold answer. cbn [suspended_at continuation].
    unfold body_permissions. cbn [ok error data try_catch_finally].
    rewrite useEffect_same_id by done. done.
Qed.

(** Mounted with nobody signed in and at rest. *)
Definition signed_out_at_rest : World := run db_two (mount None) [Answered 0].

Lemma resolution_last_completion_wins_witness :
  let w' := run db_two signed_out_at_rest
              (AuthStateChange SIGNED_IN (Some (session_of ana)) :: replicate 6 (Answered 0)) in
  inflight w' = [] ∧
  user (ctx w') = Some ana ∧
  permissions (ctx w') = Some {[ "/"; "/settings" ]}.
Proof.
  destruct (resolution_last_completion_wins db_two) as (Hsafe & Hlive & _).
  assert (inflight signed_out_at_rest = []) as Hq by reflexivity.
  assert (¬ (SIGNED_IN = SIGNED_IN ∧
             id <$> user (ctx signed_out_at_rest) = Some (id (user_of (session_of ana)))))
    as Hne by (intros [_ H]; discriminate H).
  pose proof (Hlive signed_out_at_rest SIGNED_IN (session_of ana) Hq Hne) as Hrest.
  split; [exact Hrest|].
  destruct (Hsafe signed_out_at_rest SIGNED_IN (session_of ana) (replicate 6 (Answered 0))
              Hq Hne ltac:(repeat constructor) Hrest) as [Hu Hp].
  split; [exact Hu|]. rewrite Hp, resolved_eq. reflexivity.
Defined.

(** The run that breaks C3 (as stated): Ana is signed in at mount; the
    resolution started by the re-run of the effect completes, and her first
    resolution is still waiting for its role query when Bruno signs in;
    Bruno's two resolutions complete, then Ana's role and permission queries
    are answered. *)
Definition overtaken : list Event :=
  [ Answered 0 ]
  ++ replicate 3 (Answered 1)
  ++ [ AuthStateChange SIGNED_IN (Some (session_of bruno)) ]
  ++ replicate 6 (Answered 1)
  ++ [ Answered 0; Answered 0 ].

(** C3 (as stated) fails: at the end of [overtaken] nothing is in flight,
    the store holds Bruno as the Actor and Ana's permission set, which is
    not Bruno's. *)
Lemma stale_result_overwrites :
  let w := run db_two (mount (Some ana)) overtaken in
  inflight w = [] ∧ loading (ctx w) = false ∧
  user (ctx w) = Some bruno ∧
  permissions (ctx w) = resolved db_two ana initial ∧
  permissions (ctx w) = Some {[ "/"; "/settings" ]} ∧
  resolved db_two bruno initial = Some {[ "/"; "/partner-documents" ]} ∧
  permissions (ctx w) ≠ resolved db_two bruno initial.
Proof.
  cbv zeta.
  assert (permissions (ctx (run db_two (mount (Some ana)) overtaken))
          = Some {[ "/"; "/settings" ]}) as Hana by (vm_compute; reflexivity).
  assert (resolved db_two bruno initial = Some {[ "/"; "/partner-documents" ]}) as Hbruno
    by (rewrite resolved_eq; vm_compute; reflexivity).
  assert (resolved db_two ana initial = Some {[ "/"; "/settings" ]}) as Hana'
    by (rewrite resolved_eq; vm_compute; reflexivity).
  rewrite Hana, Hbruno, Hana'.
  split; [vm_compute; reflexivity|].
  split; [vm_compute; reflexivity|].
  split; [vm_compute; reflexivity|].
  split; [exact eq_refl|]. split; [exact eq_refl|]. split; [exact eq_refl|].
  intros Heq.
  assert ("/settings" ∈ ({[ "/"; "/partner-documents" ]} : gset string)) as Hin.
  { apply (inj Some) in Heq. rewrite <- Heq.
    apply elem_of_union. right. by apply elem_of_singleton. }
  apply elem_of_union in Hin as [Hin|Hin]; apply elem_of_singleton in Hin; discriminate Hin.
Qed.

End StaleResolution.

(** ** C4: an auth event for the actor already held *)
Module Revalidation.
Import Js Supabase UserContext SessionStore UserContextFacts Samples.

(** C4 (as amended): a [SIGNED_IN] event carrying the identifier of the
    actor already held replaces the Actor record and clears the loading
    flag; roles and permission set are unchanged, nothing new is in flight
    and no query is sent.  Any other event that carries a session calls the
    resolver. *)
Theorem signed_in_same_actor_no_fetch (db : Database) (w : World) (s : Session) :
  (id <$> user (ctx w) = Some (id (user_of s)) →
   let w' := step db w (AuthStateChange SIGNED_IN (Some s)) in
   ctx w' = {| user := Some (user_of s); roles := roles (ctx w);
               permissions := permissions (ctx w); loading := false |} ∧
   inflight w' = inflight w ∧ effects w' = effects w ∧
   fetch_count w' = fetch_count w) ∧
  (∀ event, event ≠ SIGNED_IN →
   id <$> user (ctx w) = Some (id (user_of s)) →
   let w' := step db w (AuthStateChange event (Some s)) in
   inflight w' = inflight w ++ [AwaitUser] ∧
   effects w' = effects w ++ [auth_getUser]).
Proof.
  split.
  - intros Hid. cbn. unfold onAuthStateChange. cbn [ctx].
    rewrite decide_True by done.
    unfold useEffect. cbn.
    rewrite decide_True by done. done.
  - intros event Hev Hid. cbn. unfold onAuthStateChange. cbn [ctx].
    rewrite decide_False by (intros [? _]; done).
    unfold useEffect, call_fetch. cbn.
    rewrite decide_True by done. unfold inflight. cbn. by rewrite fmap_app.
Qed.

(** Ana signed in, her first resolution complete and nothing in flight. *)
Definition ana_at_rest : World :=
  run db_two (mount (Some ana)) (replicate 6 (Answered 0)).

Lemma signed_in_same_actor_no_fetch_witness :
  let w' := step db_two ana_at_rest (AuthStateChange SIGNED_IN (Some (session_of ana))) in
  ctx w' = {| user := Some ana; roles := roles (ctx ana_at_rest);
              permissions := permissions (ctx ana_at_rest); loading := false |} ∧
  inflight w' = inflight ana_at_rest ∧ effects w' = effects ana_at_rest ∧
  fetch_count w' = fetch_count ana_at_rest.
Proof.
  apply (signed_in_same_actor_no_fetch db_two ana_at_rest (session_of ana)).
  vm_compute. reflexivity.
Defined.

(** C4 (as stated) fails for a token refresh: with Ana held and at rest, a
    [TOKEN_REFRESHED] event for Ana starts a resolution, and once its
    requests are answered one more role query and one more permission query
    have been sent. *)
Lemma token_refresh_refetches :
  let refreshed := AuthStateChange TOKEN_REFRESHED (Some (session_of ana)) in
  id <$> user (ctx ana_at_rest) = Some (id (user_of (session_of ana))) ∧
  inflight ana_at_rest = [] ∧
  inflight (step db_two ana_at_rest refreshed) = [AwaitUser] ∧
  fetch_count (run db_two ana_at_rest (refreshed :: replicate 3 (Answered 0)))
    = fetch_count ana_at_rest + 2.
Proof. cbv zeta. repeat split; vm_compute; reflexivity. Qed.

End Revalidation.

(** ** C5: the access gate *)
Module AccessGate.
Import UserContext ProtectedRoute Samples.

(** C5: [isAuthorized] is a function of its two arguments; it is [false] when
    the permission set is absent, whatever the path, and [false] when the
    path is not in the set. *)
Theorem isAuthorized_fail_closed (resourcePath : string)
    (permissions : option (gset string)) :
  permissions = None ∨ (∃ s, permissions = Some s ∧ resourcePath ∉ s) →
  isAuthorized resourcePath permissions = false.
Proof.
  intros [->|(s & -> & Hnot)]; [done|].
  unfold isAuthorized. by apply bool_decide_eq_false.
Qed.

Lemma isAuthorized_fail_closed_witness :
  isAuthorized "/settings" None = false ∧
  isAuthorized "/settings" (Some {[ "/"; "/people" ]}) = false.
Proof.
  split.
  - apply isAuthorized_fail_closed. by left.
  - apply isAuthorized_fail_closed. right. eexists. split; [done|].
    intros Hin. apply elem_of_union in Hin as [Hin|Hin];
      apply elem_of_singleton in Hin; discriminate Hin.
Defined.

(** The gate renders its children only for a path of the permission set. *)
Lemma ProtectedRoute_children resourcePath c :
  ProtectedRoute resourcePath c = Children ↔
  loading c = false ∧ is_Some (user c) ∧
  ∃ s, permissions c = Some s ∧ resourcePath ∈ s.
Proof.
  unfold ProtectedRoute, isAuthorized.
  destruct (loading c); [naive_solver|].
  destruct (user c) as [u|]; [|split; [done|intros (_ & [? ?] & _); done]].
  destruct (permissions c) as [s|]; [|naive_solver].
  destruct (bool_decide_reflect (resourcePath ∈ s)); naive_solver.
Qed.

End AccessGate.

(** ** C6: the tax-exclusive base value *)
Module BaseValue.
Import Js Json JsNumber InvoicingTypes InvoicingApi BoletaForm.







End BaseValue.

(** ** C7: validation before any network call *)
Module Validation.
Import Js Json JsNumber InvoicingTypes InvoicingApi BoletaForm Samples.

(** A number that is not greater than zero is [NaN] or below 0.01. *)
Lemma not_positive_below_cent (x : float) :
  (0 <? x)%float = false → PrimFloat.is_nan x = false → (x <? 0.01)%float = true.
Proof.
  unfold PrimFloat.is_nan. rewrite !FloatAxioms.ltb_spec, FloatAxioms.eqb_spec.
  change (Prim2SF 0) with (S754_zero false).
  change (Prim2SF 0.01) with (S754_finite false 5764607523034235 (-59)).
  unfold SFltb, SFeqb.
  destruct (Prim2SF x) as [[]|[]| |[] m e]; cbn [SFcompare negb]; done.
Qed.

(** A number below zero is not [NaN]. *)
Lemma negative_not_nan (x : float) :
  (x <? 0)%float = true → PrimFloat.is_nan x = false.
Proof.
  unfold PrimFloat.is_nan. rewrite !FloatAxioms.ltb_spec, FloatAxioms.eqb_spec.
  change (Prim2SF 0) with (S754_zero false).
  unfold SFltb, SFeqb.
  destruct (Prim2SF x) as [[]|[]| |[] m e]; cbn [SFcompare negb]; try done.
  all: intros _; rewrite Z.compare_refl, Pos.compare_cont_refl; done.
Qed.

Lemma cantidad_issue (at_ : list PathSegment) (x : float) :
  (0 <? x)%float = false →
  ∃ message,
    coerce_number_min 0.01 "Cantidad debe ser mayor a 0." at_ x
    = [ {| path := at_; issue := message |} ].
Proof.
  intros Hx. unfold coerce_number_min.
  destruct (PrimFloat.is_nan x) eqn:Hnan; [eauto|].
  rewrite (not_positive_below_cent x Hx Hnan). eauto.
Qed.

Lemma valor_unitario_issue (at_ : list PathSegment) (x : float) :
  (x <? 0)%float = true →
  coerce_number_min 0 "Precio debe ser 0 o mayor." at_ x
  = [ {| path := at_; issue := "Precio debe ser 0 o mayor." |} ].
Proof.
  intros Hx. unfold coerce_number_min.
  rewrite (negative_not_nan x Hx), Hx. done.
Qed.

(** The issues of a line item are among the issues of the form. *)
Lemma detalle_issue_reported rt data i d (e : ZodIssue) :
  detalles data !! i = Some d →
  e ∈ DetalleSchema [Key "detalles"; Index i] d →
  e ∈ BoletaPayloadSchema rt data.
Proof.
  intros Hi He. unfold BoletaPayloadSchema, detalles_schema.
  apply elem_of_app. right. apply elem_of_app. right.
  apply list_elem_of_join. exists (DetalleSchema [Key "detalles"; Index i] d).
  split; [done|].
  apply list_elem_of_lookup. exists i. rewrite list_lookup_imap, Hi. done.
Qed.

(** [handleSubmit] with at least one issue: no callback, no effect. *)
Lemma handleSubmit_rejects rt api data st (e : ZodIssue) :
  e ∈ BoletaPayloadSchema rt data →
  handleSubmit rt api data st = (st, [], BoletaPayloadSchema rt data).
Proof.
  intros He. unfold handleSubmit.
  destruct (BoletaPayloadSchema rt data); [by apply elem_of_nil in He | done].
Qed.

(** The form value breaks one of the three invariants of the data model. *)
Definition breaks_invariant (data : BoletaFormValues) : Prop :=
  detalles data = [] ∨
  ∃ i d, detalles data !! i = Some d ∧
         ((0 <? cantidad d)%float = false ∨ (mto_valor_unitario d <? 0)%float = true).

(** The request to [POST /boletas] is not among the effects. *)
Definition no_submission (effects : list Effect) : Prop :=
  ∀ p, POST_boletas p ∉ effects.

(** C7: a form value without line items, or with a quantity that is not
    greater than zero, or with a unit value below zero, is rejected by the
    resolver with an issue on the field at fault; [onSubmit] does not run,
    the state of the form is unchanged and nothing is sent. *)
Theorem invalid_request_rejected_locally (rt : Runtime) (api : InvoicingRest)
    (data : BoletaFormValues) (st : FormState) :
  breaks_invariant data →
  ∃ errors,
    handleSubmit rt api data st = (st, [], errors) ∧ errors ≠ [] ∧
    no_submission (handleSubmit rt api data st).1.2 ∧
    (detalles data = [] →
       {| path := [Key "detalles"]; issue := "Debe haber al menos un detalle." |} ∈ errors) ∧
    (∀ i d, detalles data !! i = Some d → (0 <? cantidad d)%float = false →
       ∃ message,
         {| path := [Key "detalles"; Index i; Key "cantidad"]; issue := message |} ∈ errors) ∧
    (∀ i d, detalles data !! i = Some d → (mto_valor_unitario d <? 0)%float = true →
       {| path := [Key "detalles"; Index i; Key "mto_valor_unitario"];
          issue := "Precio debe ser 0 o mayor." |} ∈ errors).
Proof.
  intros Hbad. exists (BoletaPayloadSchema rt data).
  assert (detalles data = [] →
          {| path := [Key "detalles"]; issue := "Debe haber al menos un detalle." |}
            ∈ BoletaPayloadSchema rt data) as Hempty.
  { intros Hnil. unfold BoletaPayloadSchema, detalles_schema. rewrite Hnil.
    apply elem_of_app. right. cbn. apply list_elem_of_here. }
  assert (∀ i d, detalles data !! i = Some d → (0 <? cantidad d)%float = false →
          ∃ message,
            {| path := [Key "detalles"; Index i; Key "cantidad"]; issue := message |}
              ∈ BoletaPayloadSchema rt data) as Hqty.
  { intros i d Hi Hq.
    destruct (cantidad_issue ([Key "detalles"; Index i] ++ [Key "cantidad"]) _ Hq)
      as [message Hm].
    exists message. apply (detalle_issue_reported rt data i d); [done|].
    unfold DetalleSchema. rewrite Hm.
    apply elem_of_app. right. apply elem_of_app. right.
    apply elem_of_app. left. apply list_elem_of_here. }
  assert (∀ i d, detalles data !! i = Some d → (mto_valor_unitario d <? 0)%float = true →
          {| path := [Key "detalles"; Index i; Key "mto_valor_unitario"];
             issue := "Precio debe ser 0 o mayor." |} ∈ BoletaPayloadSchema rt data) as Hval.
  { intros i d Hi Hv. apply (detalle_issue_reported rt data i d); [done|].
    unfold DetalleSchema.
    rewrite (valor_unitario_issue ([Key "detalles"; Index i] ++ [Key "mto_valor_unitario"]) _ Hv).
    apply elem_of_app. right. apply elem_of_app. right.
    apply elem_of_app. right. apply elem_of_app. left. apply list_elem_of_here. }
  assert (∃ e, e ∈ BoletaPayloadSchema rt data) as [e He].
  { destruct Hbad as [Hnil|(i & d & Hi & [Hq|Hv])]; [eauto| |eauto].
    destruct (Hqty i d Hi Hq) as [message Hm]. eauto. }
  rewrite (handleSubmit_rejects rt api data st e He).
  split; [done|]. split; [by intros Hnil; rewrite Hnil in He; apply elem_of_nil in He|].
  split; [intros p Hp; by apply elem_of_nil in Hp|].
  done.
Qed.

Lemma invalid_request_rejected_locally_witness :
  ∃ errors,
    handleSubmit rt_sample (rest_answering ThrownOther) (form_values []) form_idle
    = (form_idle, [], errors) ∧ errors ≠ [] ∧
    no_submission
      (handleSubmit rt_sample (rest_answering ThrownOther) (form_values []) form_idle).1.2 ∧
    (detalles (form_values []) = [] →
       {| path := [Key "detalles"]; issue := "Debe haber al menos un detalle." |} ∈ errors) ∧
    (∀ i d, detalles (form_values []) !! i = Some d → (0 <? cantidad d)%float = false →
       ∃ message,
         {| path := [Key "detalles"; Index i; Key "cantidad"]; issue := message |} ∈ errors) ∧
    (∀ i d, detalles (form_values []) !! i = Some d →
       (mto_valor_unitario d <? 0)%float = true →
       {| path := [Key "detalles"; Index i; Key "mto_valor_unitario"];
          issue := "Precio debe ser 0 o mayor." |} ∈ errors).
Proof.
  apply (invalid_request_rejected_locally rt_sample (rest_answering ThrownOther)
           (form_values []) form_idle).
  left. reflexivity.
Defined.

(** A quantity of zero and a unit value of -1 are both reported, each on its
    own field. *)
Example zero_quantity_negative_value_rejected :
  let d := {| codigo := None; descripcion := "x"; unidad := "ZZ"; cantidad := 0;
              mto_valor_unitario := -1; porcentaje_igv := 18; tip_afe_igv := "10";
              codigo_producto_sunat := None |} in
  issue <$> detalles_schema [Key "detalles"] [d]
  = [ "Cantidad debe ser mayor a 0."; "Precio debe ser 0 o mayor." ].
Proof. vm_compute. reflexivity. Qed.

End Validation.

(** ** C8: client lookup by document number *)
Module ClientLookup.
Import Js Json InvoicingTypes InvoicingApi Samples.

(** The table answers "no row": error code [PGRST116], or neither data nor
    error. *)
Definition not_found (o : QueryOutcome) : Prop :=
  ∃ r, o = Answer r ∧ Supabase.data r = None ∧
       (Supabase.error r = None ∨
        ∃ err, Supabase.error r = Some err ∧ Supabase.code err = "PGRST116").

(** The backend or the network fails: an error other than [PGRST116], or a
    rejected request. *)
Definition lookup_failure (o : QueryOutcome) : Prop :=
  (∃ r err, o = Answer r ∧ Supabase.error r = Some err ∧ Supabase.code err ≠ "PGRST116")
  ∨ (∃ e, o = Reject e).

(** The table answers with the row [socioData]. *)
Definition found (o : QueryOutcome) (socioData : SocioTitular) : Prop :=
  ∃ r, o = Answer r ∧ Supabase.data r = Some socioData ∧ Supabase.error r = None.

(** C8: a document number shorter than 8 characters (UTF-16 code units,
    as [length] counts) gives [null] without a query; from 8 characters on
    there is exactly one query, "no row" gives
    [null], a row gives the client built from it, and a failure of the
    backend or the network throws an [Error], which is not the [null]
    result.  The function only reads. *)
Theorem fetchClientByDocument_contract (socio_titulares : string → QueryOutcome) (docNumber : string) :
  (str_length docNumber < 8 →
     fetchClientByDocument socio_titulares docNumber = (Returns None, [])) ∧
  (8 ≤ str_length docNumber →
     (fetchClientByDocument socio_titulares docNumber).2 = [docNumber] ∧
     (not_found (socio_titulares docNumber) →
        (fetchClientByDocument socio_titulares docNumber).1 = Returns None) ∧
     (∀ socioData, found (socio_titulares docNumber) socioData →
        (fetchClientByDocument socio_titulares docNumber).1
        = Returns (Some (clientData socioData))) ∧
     (lookup_failure (socio_titulares docNumber) →
        ∃ m, (fetchClientByDocument socio_titulares docNumber).1 = Throws (ErrorInstance m) ∧
             (fetchClientByDocument socio_titulares docNumber).1 ≠ Returns None)).
Proof.
  unfold fetchClientByDocument. split.
  - intros Hshort. rewrite (bool_decide_eq_true_2 _ Hshort), orb_true_r. done.
  - intros Hlong.
    assert (bool_decide (str_length docNumber < 8) = false) as ->
      by (apply bool_decide_eq_false; lia).
    assert (truthy_string docNumber = true) as ->.
    { unfold truthy_string. destruct (decide (docNumber = "")) as [->|]; [vm_compute in Hlong; lia|done]. }
    cbn [negb orb fst snd]. split; [done|]. split; [|split].
    + intros (r & -> & Hd & [He|(err & He & Hc)]); rewrite He, ?Hd; [done|].
      rewrite decide_True by done. done.
    + intros socioData (r & -> & Hd & He). by rewrite He, Hd.
    + intros [(r & err & -> & He & Hc)|(e & ->)].
      * rewrite He, decide_False by done. cbn. eauto.
      * destruct e; cbn; eauto.
Qed.

Lemma fetchClientByDocument_contract_witness :
  fetchClientByDocument unreachable "1234567" = (Returns None, []) ∧
  fetchClientByDocument unreachable "ñññññ" = (Returns None, []) ∧
  (fetchClientByDocument nobody "12345678").1 = Returns None ∧
  (fetchClientByDocument nobody "12345678").2 = ["12345678"] ∧
  ∃ m, (fetchClientByDocument unreachable "12345678").1 = Throws (ErrorInstance m) ∧
       (fetchClientByDocument unreachable "12345678").1 ≠ Returns None.
Proof.
  destruct (fetchClientByDocument_contract unreachable "1234567") as [Hshort _].
  destruct (fetchClientByDocument_contract unreachable "ñññññ") as [Hunits _].
  destruct (fetchClientByDocument_contract nobody "12345678") as [_ Hnobody].
  destruct (fetchClientByDocument_contract unreachable "12345678") as [_ Hdown].
  split; [apply Hshort; vm_compute; lia|].
  split; [apply Hunits; vm_compute; lia|].
  destruct (Hnobody ltac:(vm_compute; lia)) as (Hq & Hnone & _).
  destruct (Hdown ltac:(vm_compute; lia)) as (_ & _ & _ & Hfail).
  split; [|split; [exact Hq|]].
  - apply Hnone. eexists. split; [reflexivity|]. split; [reflexivity|].
    right. eexists. split; reflexivity.
  - apply Hfail. left. do 2 eexists. split; [reflexivity|]. split; [reflexivity|].
    cbn. discriminate.
Defined.

(** The message of a backend failure carries the backend's message. *)
Lemma lookup_failure_message socio_titulares docNumber r err :
  8 ≤ str_length docNumber →
  socio_titulares docNumber = Answer r →
  Supabase.error r = Some err → Supabase.code err ≠ "PGRST116" →
  (fetchClientByDocument socio_titulares docNumber).1
  = Throws (ErrorInstance
              ("Error de base de datos: Error de base de datos: " ++ Supabase.message err)%string).
Proof.
  intros Hlong Hr He Hc. unfold fetchClientByDocument.
  assert (bool_decide (str_length docNumber < 8) = false) as ->
    by (apply bool_decide_eq_false; lia).
  assert (truthy_string docNumber = true) as ->.
  { unfold truthy_string. destruct (decide (docNumber = "")) as [->|]; [vm_compute in Hlong; lia|done]. }
  cbn [negb orb fst]. rewrite Hr, He, decide_False by done. done.
Qed.

End ClientLookup.

(** ** C9 and C10: the outcome of a submission *)
Module Issuance.
Import Js Json InvoicingTypes InvoicingApi BoletaForm Samples.




(** The error body carries [m] as its non-empty [message]. *)
Definition collaborator_message (body : json) (m : string) : Prop :=
  ∃ members, body = JObject members ∧
             property "message" members = Some (JString m) ∧ m ≠ "".


Lemma append_empty (m : string) : (m ++ "")%string = m.
Proof.
  induction m as [|a m IH]; [done|].
  change (String a m ++ "")%string with (String a (m ++ "")%string). by rewrite IH.
Qed.

Lemma contains_suffix (prefix m : string) : contains (prefix ++ m)%string m.
Proof. exists prefix, "". by rewrite append_empty. Qed.

Lemma apiMessage_collaborator rt body m :
  collaborator_message body m → apiMessage rt body = Returns m.
Proof.
  intros (members & -> & Hm & Hne). unfold apiMessage. cbn [member]. rewrite Hm.
  cbn [truthy template]. unfold truthy_string. by rewrite decide_False.
Qed.





End Issuance.

(** ** The resolver against an arbitrary collaborator *)
Module ResolverFacts.
Import Js Supabase UserContext UserContextFacts Samples.

(** X1: The resolver always comes to an end: whatever the collaborator answers,
    the promise is fulfilled and the loading flag is cleared. *)
Theorem resolver_always_settles (sb : SupabaseClient) (st : UserContextType) :
  ∃ st' eff,
    fetchUserAndRolesAndPermissions sb st = (st', eff, Fulfilled) ∧ loading st' = false.
Proof.
  unfold fetchUserAndRolesAndPermissions.
  cbn [body_start try_catch_finally and_then resume].
  destruct (getUser sb) as [u|]; cbn [body_user try_catch_finally and_then resume];
    [|eauto].
  unfold body_roles.
  destruct (error (from_user_roles sb (id u))); cbn [try_catch_finally catch_block and_then];
    [eauto|].
  destruct (decide (0 < length _)); [|cbn; eauto].
  destruct (decide (length _ = 0)); cbn [try_catch_finally and_then resume]; [cbn; eauto|].
  unfold body_permissions.
  destruct (error (from_resource_permissions sb _)); cbn; eauto.
Qed.

(** X2: Whatever the store held before, a resolution that runs without being
    overtaken leaves the same store, sends the same requests and logs the
    same lines: nothing of a previous actor survives it. *)
Theorem resolver_forgets_previous_state (sb : SupabaseClient) (st1 st2 : UserContextType) :
  fetchUserAndRolesAndPermissions sb st1 = fetchUserAndRolesAndPermissions sb st2.
Proof.
  unfold fetchUserAndRolesAndPermissions.
  cbn [body_start try_catch_finally and_then resume].
  destruct (getUser sb) as [u|]; cbn [body_user try_catch_finally and_then resume];
    [|reflexivity].
  unfold body_roles.
  destruct (error (from_user_roles sb (id u))); cbn [try_catch_finally catch_block and_then];
    [reflexivity|].
  destruct (decide (0 < length _)); [|reflexivity].
  destruct (decide (length _ = 0)); cbn [try_catch_finally and_then resume]; [reflexivity|].
  unfold body_permissions.
  destruct (error (from_resource_permissions sb _)); reflexivity.
Qed.

(** X3: The permission query is never sent for an empty list of roles nor for
    the identifier 0: it follows a successful role query for the signed-in
    actor, carries identifiers read from its rows only, and at least one of
    those rows names its role. *)
Theorem permission_query_well_formed (sb : SupabaseClient) (st : UserContextType)
    (ids : list Z) :
  select_resource_permissions ids ∈ (fetchUserAndRolesAndPermissions sb st).1.2 →
  ids ≠ [] ∧ (0%Z ∉ ids) ∧
  ∃ u rows,
    getUser sb = Some u ∧
    from_user_roles sb (id u) = {| data := rows; error := None |} ∧
    (∀ rid, rid ∈ ids → ∃ r, {| roles_of := Some r |} ∈ default [] rows ∧ role_id r = rid) ∧
    (∃ r, {| roles_of := Some r |} ∈ default [] rows ∧ role_name r ≠ "").
Proof.
  unfold fetchUserAndRolesAndPermissions.
  cbn [body_start try_catch_finally and_then resume].
  destruct (getUser sb) as [u|]; cbn [body_user try_catch_finally and_then resume];
    [|cbn; intros Hin; set_solver].
  unfold body_roles.
  destruct (from_user_roles sb (id u)) as [rows err] eqn:Hrows. cbn [error data].
  destruct err as [e|]; cbn [try_catch_finally catch_block and_then];
    [cbn; intros Hin; set_solver|].
  destruct (decide (0 < length _)) as [Hnames|]; [|cbn; intros Hin; set_solver].
  destruct (decide (length _ = 0)) as [|Hids]; cbn [try_catch_finally and_then resume];
    [cbn; intros Hin; set_solver|].
  set (roleIds := filter_Boolean_int _) in *.
  set (names := filter_Boolean_string _) in *.
  intros Hin.
  assert (ids = roleIds) as ->.
  { unfold body_permissions in Hin.
    destruct (error (from_resource_permissions sb roleIds)); cbn in Hin; set_solver. }
  split; [by intros Hnil; rewrite Hnil in Hids|].
  split; [intros H0; by apply filter_Boolean_int_elem in H0 as [_ ?]|].
  exists u, rows. split; [done|]. split; [done|]. split.
  - intros rid Hrid. apply filter_Boolean_int_elem in Hrid as [Hrid _].
    apply list_elem_of_fmap in Hrid as ([[r|]] & Heq & Hrow); [|done].
    exists r. split; [done|]. by simplify_eq/=.
  - destruct names as [|n names'] eqn:Hn; [cbn in Hnames; lia|].
    assert (n ∈ names) as Hin' by (rewrite Hn; apply list_elem_of_here).
    apply filter_Boolean_string_elem in Hin' as [Hin' Hne].
    apply list_elem_of_fmap in Hin' as ([[r|]] & Heq & Hrow); [|done].
    exists r. split; [done|]. by simplify_eq/=.
Qed.

Lemma permission_query_well_formed_witness :
  [1%Z] ≠ [] ∧ (0%Z ∉ [1%Z]) ∧
  ∃ u rows,
    getUser (healthy db_two (Some ana)) = Some u ∧
    from_user_roles (healthy db_two (Some ana)) (id u) = {| data := rows; error := None |} ∧
    (∀ rid, rid ∈ [1%Z] → ∃ r, {| roles_of := Some r |} ∈ default [] rows ∧ role_id r = rid) ∧
    (∃ r, {| roles_of := Some r |} ∈ default [] rows ∧ role_name r ≠ "").
Proof.
  apply (permission_query_well_formed (healthy db_two (Some ana)) initial [1%Z]).
  vm_compute. apply list_elem_of_further, list_elem_of_further, list_elem_of_here.
Defined.

(** X4: The stored permission set is never broader than what the collaborator
    returned: each of its paths is in a non-empty answer to the permission
    query that was sent, or is the root path added next to such an answer. *)
Theorem stored_permissions_come_from_query (sb : SupabaseClient) (st : UserContextType)
    (s : gset string) (path : string) :
  permissions (fetchUserAndRolesAndPermissions sb st).1.1 = Some s →
  path ∈ s →
  ∃ ids rows,
    select_resource_permissions ids ∈ (fetchUserAndRolesAndPermissions sb st).1.2 ∧
    data (from_resource_permissions sb ids) = Some rows ∧
    error (from_resource_permissions sb ids) = None ∧
    rows ≠ [] ∧
    (path = "/" ∨ {| resource_path := path |} ∈ rows).
Proof.
  unfold fetchUserAndRolesAndPermissions.
  cbn [body_start try_catch_finally and_then resume].
  destruct (getUser sb) as [u|]; cbn [body_user try_catch_finally and_then resume];
    [|cbn; done].
  unfold body_roles.
  destruct (error (from_user_roles sb (id u))); cbn [try_catch_finally catch_block and_then];
    [cbn; done|].
  destruct (decide (0 < length _)); [|cbn; intros [= <-]; set_solver].
  destruct (decide (length _ = 0)); cbn [try_catch_finally and_then resume];
    [cbn; intros [= <-]; set_solver|].
  set (roleIds := filter_Boolean_int _) in *.
  unfold body_permissions.
  destruct (error (from_resource_permissions sb roleIds)) eqn:Herr; [cbn; done|].
  cbn. intros [= <-] Hin.
  destruct (data (from_resource_permissions sb roleIds)) as [rows|] eqn:Hdata.
  - apply fetchedPermissions_elem in Hin.
    exists roleIds, rows. split; [set_solver|]. split; [done|]. split; [done|].
    destruct Hin as [Hin|[-> Hne]].
    + split; [by intros ->; apply elem_of_nil in Hin|]. right.
      apply list_elem_of_fmap in Hin as ([p] & -> & Hp). done.
    + split; [done|]. by left.
  - unfold fetchedPermissions in Hin. cbn in Hin.
    destruct (decide (0 < size _)) as [Hpos|]; [|set_solver].
    apply size_pos_elem_of in Hpos as [x Hx]. set_solver.
Qed.

Lemma stored_permissions_come_from_query_witness :
  ∃ ids rows,
    select_resource_permissions ids
      ∈ (fetchUserAndRolesAndPermissions (healthy db_two (Some ana)) initial).1.2 ∧
    data (from_resource_permissions (healthy db_two (Some ana)) ids) = Some rows ∧
    error (from_resource_permissions (healthy db_two (Some ana)) ids) = None ∧
    rows ≠ [] ∧
    ("/settings" = "/" ∨ {| resource_path := "/settings" |} ∈ rows).
Proof.
  apply (stored_permissions_come_from_query (healthy db_two (Some ana)) initial
           {[ "/"; "/settings" ]} "/settings").
  - vm_compute. reflexivity.
  - apply elem_of_union. right. by apply elem_of_singleton.
Defined.

End ResolverFacts.

(** ** Invariants of the session store under any order of events *)
Module SessionFacts.
Import Js Supabase UserContext SessionStore ProtectedRoute Samples.

(** Nothing in flight implies that the loading flag is cleared. *)
Definition rests_unloaded (w : World) : Prop :=
  inflight w = [] → loading (ctx w) = false.

Lemma nothing_in_flight (w : World) : inflight w = [] ↔ invocations w = [].
Proof. unfold inflight. split; [apply fmap_nil_inv | by intros ->]. Qed.

Lemma call_fetch_in_flight (w : World) : inflight (call_fetch w) ≠ [].
Proof.
  intros H. apply nothing_in_flight in H. unfold call_fetch in H. cbn in H.
  by apply app_eq_nil in H as [_ ?].
Qed.

Lemma useEffect_rests_unloaded previous_id w :
  rests_unloaded w → rests_unloaded (useEffect previous_id w).
Proof.
  intros Hw. unfold useEffect. destruct (decide _); [done|].
  intros Hnil. by apply call_fetch_in_flight in Hnil.
Qed.

Lemma try_catch_finally_unloaded r st eff :
  try_catch_finally r = (st, eff, Fulfilled) → loading st = false.
Proof.
  destruct r as [[st0 eff0] [|e|p]]; cbn; intros [= <- _]; done.
Qed.

Lemma try_catch_finally_never_rejects r st eff e :
  try_catch_finally r ≠ (st, eff, Rejected e).
Proof. destruct r as [[st0 eff0] [|e'|p]]; cbn; congruence. Qed.

Lemma settle_rests_unloaded i resp w :
  rests_unloaded w → rests_unloaded (settle i resp w).
Proof.
  intros Hw. unfold settle.
  destruct (invocations w !! i) as [[p asked]|]; [|done].
  cbn [suspended_at asked_as].
  destruct (continuation p (resp _) (ctx w)) as [[[st eff] ps]|] eqn:Hk; [|done].
  intros Hnil. apply nothing_in_flight in Hnil. cbn in *.
  apply app_eq_nil in Hnil as [_ Hps].
  destruct ps as [q| |e]; [done| |].
  - destruct p as [|uid|ids]; destruct (resp _) as [u|r|r]; cbn in Hk; try done;
      injection Hk as Hk; by apply try_catch_finally_unloaded in Hk.
  - destruct p as [|uid|ids]; destruct (resp _) as [u|r|r]; cbn in Hk; try done;
      injection Hk as Hk; by apply try_catch_finally_never_rejects in Hk.
Qed.

Lemma onAuthStateChange_rests_unloaded event session w :
  rests_unloaded (onAuthStateChange event session w).
Proof.
  unfold onAuthStateChange. destruct session as [s|]; [|done].
  destruct (decide _); [done|].
  intros Hnil. by apply call_fetch_in_flight in Hnil.
Qed.

Lemma step_rests_unloaded db w ev :
  rests_unloaded w → rests_unloaded (step db w ev).
Proof.
  intros Hw. destruct ev as [event session|i|i e]; cbn [step];
    apply useEffect_rests_unloaded.
  - apply onAuthStateChange_rests_unloaded.
  - by apply settle_rests_unloaded.
  - by apply settle_rests_unloaded.
Qed.

(** X5: From mounting on, through any sequence of auth events, answers and
    failures in any order: whenever no request is pending any more, the
    loading flag is cleared (the spinner of the guarded routes never stays). *)
Theorem at_rest_not_loading (db : Database) (authUser : option User) (evs : list Event) :
  inflight (run db (mount authUser) evs) = [] →
  loading (ctx (run db (mount authUser) evs)) = false.
Proof.
  assert (∀ w, rests_unloaded w → rests_unloaded (run db w evs)) as Hrun.
  { induction evs as [|ev evs IH]; intros w Hw; [done|].
    cbn. apply IH. by apply step_rests_unloaded. }
  apply Hrun. intros Hnil. by apply call_fetch_in_flight in Hnil.
Qed.

Lemma at_rest_not_loading_witness :
  loading (ctx (run db_two (mount (Some ana)) (replicate 6 (Answered 0)))) = false.
Proof.
  apply (at_rest_not_loading db_two (Some ana) (replicate 6 (Answered 0))).
  vm_compute. reflexivity.
Defined.

(** The event is an answer or a failure of a pending request. *)
Definition is_completion (ev : Event) : Prop :=
  match ev with
  | AuthStateChange _ _ => False
  | Answered _ | Failed _ _ => True
  end.

(** No [getUser()] request that was sent under a session is still pending:
    the invocations waiting for [getUser()] called it without a session. *)
Definition no_user_awaited (w : World) : Prop :=
  Forall (λ inv, suspended_at inv = AwaitUser → asked_as inv = None) (invocations w).

(** The auth collaborator and the store both hold no user, and no pending
    answer of [getUser()] carries one. *)
Definition signed_out (w : World) : Prop :=
  auth w = None ∧ user (ctx w) = None ∧ no_user_awaited w.

Lemma useEffect_signed_out previous_id w :
  signed_out w → signed_out (useEffect previous_id w).
Proof.
  intros Hw. unfold useEffect. destruct (decide _); [done|].
  destruct Hw as (Hauth & Huser & Hall). unfold call_fetch. cbn.
  split; [done|]. split; [done|]. unfold no_user_awaited. cbn.
  apply Forall_app. split; [done|]. by apply Forall_singleton.
Qed.

Lemma settle_signed_out i resp w :
  (∀ inv, suspended_at inv = AwaitUser → asked_as inv = None →
          resp inv = UserResponse None) →
  signed_out w → signed_out (settle i resp w).
Proof.
  intros Hresp (Hauth & Huser & Hall). unfold settle.
  destruct (invocations w !! i) as [[p asked]|] eqn:Hi; [|done].
  pose proof (Forall_lookup_1 _ _ _ _ Hall Hi) as Hasked. cbn in Hasked.
  pose proof (Hresp {| suspended_at := p; asked_as := asked |}) as Hanswer.
  cbn [suspended_at asked_as] in *.
  destruct (continuation p (resp _) (ctx w)) as [[[st eff] ps]|] eqn:Hk; [|done].
  assert (user st = None ∧ ∀ q, ps = Suspended q → q ≠ AwaitUser) as [Hst Hps].
  { destruct p as [|uid|ids].
    - rewrite (Hanswer eq_refl (Hasked eq_refl)) in Hk. cbn in Hk.
      injection Hk as <- _ <-. done.
    - destruct (resp _) as [|r|]; cbn in Hk; try done.
      unfold body_roles in Hk. destruct (error r); cbn in Hk;
        [by injection Hk as <- _ <-|].
      destruct (decide (0 < length _)); [|by injection Hk as <- _ <-].
      destruct (decide (length _ = 0)); injection Hk as <- _ <-;
        (split; [done|]); by intros q [= <-].
    - destruct (resp _) as [| |r]; cbn in Hk; try done.
      unfold body_permissions in Hk. destruct (error r); by injection Hk as <- _ <-. }
  split; [done|]. split; [done|]. unfold no_user_awaited. cbn.
  apply Forall_app. split; [by apply Forall_delete|].
  destruct ps as [q| |e]; cbn; [|done..].
  apply Forall_singleton. cbn. intros ->. by destruct (Hps AwaitUser eq_refl).
Qed.

(** X6: After an auth event without session that arrives when no
    [getUser()] request sent under a session is still pending (in
    particular when nothing is in flight), and through any later answers and
    failures of the requests that are or come to be pending, the store
    holds no user and a guarded route renders neither its children nor the
    denial notice: it waits or sends to the sign-in page.  Role and
    permission queries of an earlier actor may still be answered. *)
Theorem signed_out_stays_out (db : Database) (w : World) (event : AuthChangeEvent)
    (evs : list Event) :
  no_user_awaited w →
  Forall is_completion evs →
  let w' := run db w (AuthStateChange event None :: evs) in
  user (ctx w') = None ∧
  ∀ resourcePath,
    ProtectedRoute resourcePath (ctx w') = Spinner ∨
    ProtectedRoute resourcePath (ctx w') = NavigateToAuth.
Proof.
  intros Hw Hevs. cbv zeta.
  assert (∀ w0, signed_out w0 → signed_out (run db w0 evs)) as Hrun.
  { induction Hevs as [|ev evs Hev _ IH]; intros w0 Hw0; [done|].
    cbn. apply IH. destruct ev as [| i | i e]; [done| |]; cbn [step];
      apply useEffect_signed_out, settle_signed_out; try done.
    - intros [p asked] Hp Ha. cbn in Hp, Ha. subst. done.
    - intros [p asked] Hp Ha. cbn in Hp, Ha. subst. done. }
  assert (signed_out (step db w (AuthStateChange event None))) as Hout.
  { cbn. by apply useEffect_signed_out. }
  destruct (Hrun _ Hout) as (_ & Huser & _).
  change (run db w (AuthStateChange event None :: evs))
    with (run db (step db w (AuthStateChange event None)) evs).
  split; [done|]. intros resourcePath. unfold ProtectedRoute. rewrite Huser.
  destruct (loading _); auto.
Qed.

Lemma signed_out_stays_out_witness :
  let w' := run db_two (run db_two (mount (Some ana)) (replicate 5 (Answered 0)))
              [AuthStateChange SIGNED_OUT None; Answered 0] in
  user (ctx w') = None ∧
  ∀ resourcePath,
    ProtectedRoute resourcePath (ctx w') = Spinner ∨
    ProtectedRoute resourcePath (ctx w') = NavigateToAuth.
Proof.
  apply (signed_out_stays_out db_two
           (run db_two (mount (Some ana)) (replicate 5 (Answered 0))) SIGNED_OUT
           [Answered 0]).
  - vm_compute. repeat constructor; discriminate.
  - repeat constructor.
Defined.

(** The hypothesis of [signed_out_stays_out] is needed: Ana's [getUser()]
    request is pending when she signs out, and its answer, which was sent
    for her session, puts her back into the store. *)
Example stale_getUser_restores_user :
  let w := run db_two (mount (Some ana)) [AuthStateChange SIGNED_OUT None; Answered 0] in
  user (ctx w) = Some ana.
Proof. vm_compute. reflexivity. Qed.

End SessionFacts.

(** ** The guarded routes and the sidebar on a resolved store *)
Module Navigation.
Import Js Supabase UserContext UserContextFacts ProtectedRoute Sidebar Samples.

(** The actor and the loading flag after a resolution for a signed-in actor. *)
Lemma resolved_user_and_loading sb st u :
  getUser sb = Some u →
  user (fetchUserAndRolesAndPermissions sb st).1.1 = Some u ∧
  loading (fetchUserAndRolesAndPermissions sb st).1.1 = false.
Proof.
  intros Hu. unfold fetchUserAndRolesAndPermissions.
  cbn [body_start try_catch_finally and_then resume].
  rewrite Hu. cbn [body_user try_catch_finally and_then resume].
  unfold body_roles.
  destruct (error (from_user_roles sb (id u))); cbn [try_catch_finally catch_block and_then];
    [done|].
  destruct (decide (0 < length _)); [|done].
  destruct (decide (length _ = 0)); cbn [try_catch_finally and_then resume]; [done|].
  unfold body_permissions.
  destruct (error (from_resource_permissions sb _)); done.
Qed.

(** The permission set after a failed role or permission fetch. *)
Lemma failed_fetch_permissions sb st u e :
  getUser sb = Some u →
  FetchFailure.role_fetch_fails sb u e ∨ FetchFailure.permission_fetch_fails sb u e →
  permissions (fetchUserAndRolesAndPermissions sb st).1.1 = None.
Proof.
  intros Hu Hfail. unfold fetchUserAndRolesAndPermissions.
  cbn [body_start try_catch_finally and_then resume].
  rewrite Hu. cbn [body_user try_catch_finally and_then resume].
  destruct Hfail as [Hr|(rows & Hrows & Hn & Hi & Hp)].
  - unfold FetchFailure.role_fetch_fails in Hr. unfold body_roles. by rewrite Hr.
  - unfold body_roles. rewrite Hrows. cbn [error data].
    destruct (decide (0 < length _)); [|done].
    destruct (decide (length _ = 0)); [done|].
    cbn [try_catch_finally and_then resume]. unfold body_permissions. by rewrite Hp.
Qed.

(** X7: A link of the sidebar that requires a permission is shown exactly when
    the guarded route of its path lets the signed-in user in. *)
Theorem sidebar_agrees_with_gate (c : UserContextType) (link : NavLink) :
  link ∈ allNavLinks → requiresPermission link = true →
  loading c = false → is_Some (user c) →
  (link ∈ visibleNavLinks c ↔ ProtectedRoute (path link) c = Children).
Proof.
  intros Hall Hreq Hload [u Hu].
  unfold visibleNavLinks, visible_among, ProtectedRoute, isAuthorized.
  rewrite Hload, Hu. destruct (permissions c) as [s|].
  - rewrite list_elem_of_filter, Hreq.
    destruct (bool_decide_reflect (path link ∈ s)); naive_solver.
  - split; [by intros ?%elem_of_nil|done].
Qed.

Lemma sidebar_agrees_with_gate_witness :
  {| name := "Configuración"; path := "/settings"; requiresPermission := true |}
    ∈ visibleNavLinks {| user := Some ana; roles := Some ["admin"];
                         permissions := Some {[ "/"; "/settings" ]}; loading := false |}
  ↔ ProtectedRoute "/settings"
      {| user := Some ana; roles := Some ["admin"];
         permissions := Some {[ "/"; "/settings" ]}; loading := false |} = Children.
Proof.
  apply (sidebar_agrees_with_gate
           {| user := Some ana; roles := Some ["admin"];
              permissions := Some {[ "/"; "/settings" ]}; loading := false |}
           {| name := "Configuración"; path := "/settings"; requiresPermission := true |}).
  - unfold allNavLinks. do 7 apply list_elem_of_further. apply list_elem_of_here.
  - reflexivity.
  - reflexivity.
  - by eexists.
Defined.

(** X8: The sidebar only ever shows links of [allNavLinks], in their order, and
    the Dashboard link whenever a permission set is there, even an empty one. *)
Theorem sidebar_links (c : UserContextType) :
  visibleNavLinks c `sublist_of` allNavLinks ∧
  (loading c = false → is_Some (permissions c) →
   {| name := "Dashboard"; path := "/"; requiresPermission := false |} ∈ visibleNavLinks c) ∧
  (loading c = true ∨ permissions c = None → visibleNavLinks c = []).
Proof.
  unfold visibleNavLinks, visible_among. split; [|split].
  - destruct (loading c); [apply sublist_nil_l|].
    destruct (permissions c); [apply sublist_filter|apply sublist_nil_l].
  - intros -> [s ->]. apply list_elem_of_filter. split; [by left|].
    unfold allNavLinks. apply list_elem_of_here.
  - intros [->| ->]; [done|]. by destruct (loading c).
Qed.

Lemma sidebar_links_witness :
  {| name := "Dashboard"; path := "/"; requiresPermission := false |}
    ∈ visibleNavLinks {| user := Some ana; roles := Some [];
                         permissions := Some ∅; loading := false |}.
Proof.
  apply (sidebar_links {| user := Some ana; roles := Some [];
                          permissions := Some ∅; loading := false |}).
  - reflexivity.
  - by eexists.
Defined.

(** X9: After a resolution in which the role fetch or the permission fetch
    failed, every guarded route shows the denial notice to the signed-in
    actor and the sidebar shows no link at all. *)
Theorem failed_resolution_denies_everything (sb : SupabaseClient) (st : UserContextType)
    (u : User) (e : PostgrestError) :
  getUser sb = Some u →
  FetchFailure.role_fetch_fails sb u e ∨ FetchFailure.permission_fetch_fails sb u e →
  (∀ resourcePath,
     ProtectedRoute resourcePath (fetchUserAndRolesAndPermissions sb st).1.1 = AccessDenied) ∧
  visibleNavLinks (fetchUserAndRolesAndPermissions sb st).1.1 = [].
Proof.
  intros Hu Hfail.
  destruct (resolved_user_and_loading sb st u Hu) as [Huser Hload].
  pose proof (failed_fetch_permissions sb st u e Hu Hfail) as Hperm.
  split.
  - intros resourcePath. unfold ProtectedRoute, isAuthorized.
    by rewrite Hload, Huser, Hperm.
  - unfold visibleNavLinks, visible_among. by rewrite Hload, Hperm.
Qed.

Lemma failed_resolution_denies_everything_witness :
  (∀ resourcePath,
     ProtectedRoute resourcePath
       (fetchUserAndRolesAndPermissions sb_roles_denied initial).1.1 = AccessDenied) ∧
  visibleNavLinks (fetchUserAndRolesAndPermissions sb_roles_denied initial).1.1 = [].
Proof.
  apply (failed_resolution_denies_everything sb_roles_denied initial ana denied).
  - reflexivity.
  - left. reflexivity.
Defined.

(** X10: An actor without any role row is denied on every guarded route, the
    root path included, and sees the Dashboard link only. *)
Theorem no_roles_dashboard_only (db : Database) (u : User) (st : UserContextType) :
  query_user_roles db (id u) = [] →
  let c := (fetchUserAndRolesAndPermissions (healthy db (Some u)) st).1.1 in
  (∀ resourcePath, ProtectedRoute resourcePath c = AccessDenied) ∧
  visibleNavLinks c = [ {| name := "Dashboard"; path := "/"; requiresPermission := false |} ].
Proof.
  intros Hnone c.
  destruct (resolved_user_and_loading (healthy db (Some u)) st u eq_refl) as [Huser Hload].
  assert (permissions c = Some ∅) as Hperm.
  { pose proof (resolved_eq db u st) as Hres. unfold resolved in Hres.
    unfold c. rewrite Hres. unfold fetchedRoles_of. rewrite Hnone. done. }
  fold c in Huser, Hload. split.
  - intros resourcePath. unfold ProtectedRoute, isAuthorized.
    rewrite Hload, Huser, Hperm. rewrite bool_decide_eq_false_2; [done|set_solver].
  - unfold visibleNavLinks, visible_among. rewrite Hload, Hperm.
    vm_compute. reflexivity.
Qed.

Lemma no_roles_dashboard_only_witness :
  (∀ resourcePath,
     ProtectedRoute resourcePath
       (fetchUserAndRolesAndPermissions (healthy (db_people 1 "admin") (Some bruno))
          initial).1.1 = AccessDenied) ∧
  visibleNavLinks
    (fetchUserAndRolesAndPermissions (healthy (db_people 1 "admin") (Some bruno))
       initial).1.1
  = [ {| name := "Dashboard"; path := "/"; requiresPermission := false |} ].
Proof.
  apply (no_roles_dashboard_only (db_people 1 "admin") bruno initial).
  reflexivity.
Defined.

End Navigation.

(** ** The invoice workflow after the submission *)
Module InvoiceWorkflow.
Import Js Json InvoicingTypes InvoicingApi InvoicingDownload BoletaForm BoletaFormActions Samples.

(** The form after an accepted submission that returned [r]. *)
Definition after_issue (r : IssueResponse) (st : FormState) : FormState :=
  {| isSubmitting := false; isClientSearching := isClientSearching st;
     isGeneratingPdf := false;
     lastIssuedBoleta :=
       Some {| issued_id := boleta_id (data r);
               issued_numero_completo := numero_completo (data r) |};
     currentSocioId := currentSocioId st |}.

Lemma issueBoleta_accepted rt api payload_ body r :
  post_boletas api payload_ = Response body →
  IssueResponseSchema_parse body = Some r →
  issueBoleta rt api payload_ = Returns r.
Proof. intros Hp Hr. unfold issueBoleta. by rewrite Hp, Hr. Qed.

(** The state of the form after a submission the collaborator accepted. *)
Lemma onSubmit_accepted_state rt api data st body r :
  post_boletas api (payload data) = Response body →
  IssueResponseSchema_parse body = Some r →
  (onSubmit rt api data st).1 = after_issue r st.
Proof.
  intros Hp Hr. unfold onSubmit.
  rewrite (issueBoleta_accepted rt api _ body r Hp Hr). done.
Qed.

(** X11: A failure of the PDF request does not take the issued invoice back:
    after an accepted submission the document is stored, both busy flags are
    cleared, there was exactly one submission and one PDF request, and the
    success toast follows the PDF toast, which is the error toast when the
    PDF request failed and then carries the collaborator's message if the
    error body has one. *)
Theorem pdf_failure_keeps_issued_invoice (rt : Runtime) (api : InvoicingRest)
    (data : BoletaFormValues) (st : FormState) (body : json) (r : IssueResponse) :
  post_boletas api (payload data) = Response body →
  IssueResponseSchema_parse body = Some r →
  ∃ pdf_toast,
    onSubmit rt api data st
    = (after_issue r st,
       [ POST_boletas (payload data);
         POST_generate_pdf (boleta_id (InvoicingTypes.data r)) "A4";
         pdf_toast;
         toast "Boleta Emitida con Éxito"
               ("Documento " ++ numero_completo (InvoicingTypes.data r)
                ++ " procesado y enviado a SUNAT.")%string "success" ]) ∧
    (∀ e, generateBoletaPdf rt api (boleta_id (InvoicingTypes.data r)) "A4" = Throws e →
          pdf_toast = toast "Error de PDF"
                            (errorMessage "Error al solicitar la generación del PDF." e)
                            "destructive") ∧
    (∀ status ebody m,
       post_generate_pdf api (boleta_id (InvoicingTypes.data r)) "A4"
       = ErrorWithResponse status ebody →
       Issuance.collaborator_message ebody m →
       ∃ description,
         pdf_toast = toast "Error de PDF" description "destructive" ∧
         contains description m).
Proof.
  intros Hp Hr.
  pose proof (issueBoleta_accepted rt api _ body r Hp Hr) as Hissue.
  unfold onSubmit. rewrite Hissue. unfold handleGeneratePdf.
  eexists. split; [reflexivity|]. split.
  - intros e He. by rewrite He.
  - intros status ebody m Hpdf Hm. unfold generateBoletaPdf. rewrite Hpdf.
    rewrite (Issuance.apiMessage_collaborator rt ebody m Hm). cbn [errorMessage].
    eexists. split; [reflexivity|]. apply Issuance.contains_suffix.
Qed.

Lemma pdf_failure_keeps_issued_invoice_witness :
  ∃ pdf_toast,
    onSubmit rt_sample
      {| post_boletas := λ _, Response (issued_with_success true);
         post_generate_pdf := λ _ _, ErrorWithResponse 500 ruc_invalid |}
      (form_values [defaultDetalle]) form_idle
    = ({| isSubmitting := false; isClientSearching := false; isGeneratingPdf := false;
          lastIssuedBoleta :=
            Some {| issued_id := 42; issued_numero_completo := "B001-00042" |};
          currentSocioId := None |},
       [ POST_boletas (payload (form_values [defaultDetalle]));
         POST_generate_pdf 42 "A4";
         pdf_toast;
         toast "Boleta Emitida con Éxito"
               "Documento B001-00042 procesado y enviado a SUNAT." "success" ]) ∧
    ∃ description,
      pdf_toast = toast "Error de PDF" description "destructive" ∧
      contains description "RUC invalid".
Proof.
  destruct (pdf_failure_keeps_issued_invoice rt_sample
              {| post_boletas := λ _, Response (issued_with_success true);
                 post_generate_pdf := λ _ _, ErrorWithResponse 500 ruc_invalid |}
              (form_values [defaultDetalle]) form_idle (issued_with_success true)
              {| success := true; message := "rechazado";
                 data := {| boleta_id := 42; numero_completo := "B001-00042" |} |}
              eq_refl eq_refl)
    as (pdf_toast & Hrun & _ & Hmsg).
  exists pdf_toast. split; [exact Hrun|].
  apply (Hmsg 500%Z ruc_invalid "RUC invalid"); [reflexivity|].
  eexists. split; [reflexivity|]. split; [reflexivity|discriminate].
Defined.

(** X12: One invoice at a time: after an accepted submission the submit button is
    disabled whatever the validity of the form; "Nueva Boleta" forgets the
    issued document and the member, which enables the button again for a
    valid form and makes the download refuse. *)
Theorem issued_invoice_blocks_resubmission (rt : Runtime) (api : InvoicingRest)
    (env : Archive) (data defaults : BoletaFormValues) (st : FormState)
    (body : json) (r : IssueResponse) :
  post_boletas api (payload data) = Response body →
  IssueResponseSchema_parse body = Some r →
  let issued := (onSubmit rt api data st).1 in
  let fresh := (nuevaBoleta defaults issued).1 in
  (∀ isValid, submit_disabled isValid issued = true) ∧
  (∀ isValid, submit_disabled isValid fresh = isClientSearching st || negb isValid) ∧
  lastIssuedBoleta fresh = None ∧ currentSocioId fresh = None ∧
  (nuevaBoleta defaults issued).2 = defaults ∧
  handleDownloadPdf env fresh
  = [show "Error" "No hay una boleta emitida para descargar." "destructive"].
Proof.
  intros Hp Hr. cbv zeta. rewrite (onSubmit_accepted_state rt api data st body r Hp Hr).
  split; [|split].
  - intros isValid. unfold submit_disabled. cbn.
    by rewrite orb_true_r.
  - intros isValid. unfold submit_disabled. cbn. by rewrite orb_false_r.
  - done.
Qed.

Lemma issued_invoice_blocks_resubmission_witness :
  submit_disabled true
    (onSubmit rt_sample (rest_answering (Response (issued_with_success true)))
              (form_values [defaultDetalle]) form_idle).1 = true.
Proof.
  destruct (issued_invoice_blocks_resubmission rt_sample
              (rest_answering (Response (issued_with_success true)))
              {| get_download_pdf := λ _ _, BlobThrownOther;
                 storage_upload := λ _ _ _, Uploaded |}
              (form_values [defaultDetalle]) (form_values [defaultDetalle]) form_idle
              (issued_with_success true)
              {| success := true; message := "rechazado";
                 data := {| boleta_id := 42; numero_completo := "B001-00042" |} |}
              eq_refl eq_refl) as [Hdisabled _].
  apply Hdisabled.
Defined.

(** X13: The download needs an issued document and a member: without the one or
    the other (an identifier 0 counts as none) the only action is one error
    toast; no PDF is requested, nothing is uploaded or saved. *)
Theorem download_requires_invoice_and_member (env : Archive) (st : FormState) :
  lastIssuedBoleta st = None ∨ currentSocioId st = None ∨ currentSocioId st = Some 0%Z →
  ∃ description, handleDownloadPdf env st = [show "Error" description "destructive"].
Proof.
  intros Hmiss. unfold handleDownloadPdf.
  destruct (lastIssuedBoleta st) as [issued|]; [|eauto].
  destruct Hmiss as [?|[-> | ->]]; [done|eauto..].
Qed.

Lemma download_requires_invoice_and_member_witness :
  ∃ description,
    handleDownloadPdf {| get_download_pdf := λ _ _, BlobResponse "%PDF";
                         storage_upload := λ _ _ _, Uploaded |}
      {| isSubmitting := false; isClientSearching := false; isGeneratingPdf := false;
         lastIssuedBoleta :=
           Some {| issued_id := 42; issued_numero_completo := "B001-00042" |};
         currentSocioId := Some 0%Z |}
    = [show "Error" description "destructive"].
Proof.
  apply download_requires_invoice_and_member. right. right. reflexivity.
Defined.

(** The storage path of the archived copy. *)
Definition archive_path (socioId : Z) (numero_completo : string) : string :=
  (integer_to_string socioId ++ "/" ++ numero_completo ++ ".pdf")%string.

(** X14: With an issued document and a member, the download requests the PDF
    once; the copy goes to the bucket [comprobante-de-pago] under
    [{member}/{document number}.pdf], overwriting, and the browser saves the
    same content only after the upload succeeded; a failed upload is
    reported with the storage message and nothing is saved; a failed PDF
    request uploads and saves nothing. *)
Theorem download_archives_then_saves (env : Archive) (st : FormState)
    (issued : LastIssuedBoleta) (socioId : Z) :
  lastIssuedBoleta st = Some issued → currentSocioId st = Some socioId → socioId ≠ 0%Z →
  let fileName := (issued_numero_completo issued ++ ".pdf")%string in
  let filePath := archive_path socioId (issued_numero_completo issued) in
  let request := io (GET_download_pdf (issued_id issued) "A4") in
  (∀ pdfBlob,
     get_download_pdf env (issued_id issued) "A4" = BlobResponse pdfBlob →
     storage_upload env "comprobante-de-pago" filePath pdfBlob = Uploaded →
     handleDownloadPdf env st
     = [ request;
         io (storage_upload_call "comprobante-de-pago" filePath fileName pdfBlob true);
         io (browser_download fileName pdfBlob);
         show "Descarga Iniciada y Guardada"
              ("Descargando " ++ issued_numero_completo issued
               ++ ".pdf y guardado en el repositorio del socio.")%string "success" ]) ∧
  (∀ pdfBlob m,
     get_download_pdf env (issued_id issued) "A4" = BlobResponse pdfBlob →
     storage_upload env "comprobante-de-pago" filePath pdfBlob = UploadError m →
     handleDownloadPdf env st
     = [ request;
         io (storage_upload_call "comprobante-de-pago" filePath fileName pdfBlob true);
         show "Error de Descarga/Guardado" ("Error al guardar en Storage: " ++ m)%string
              "destructive" ]) ∧
  ((∀ pdfBlob, get_download_pdf env (issued_id issued) "A4" ≠ BlobResponse pdfBlob) →
     ∃ description,
       handleDownloadPdf env st
       = [ request; show "Error de Descarga/Guardado" description "destructive" ]).
Proof.
  intros Hissued Hsocio Hnz. cbv zeta.
  unfold handleDownloadPdf, archive_path. rewrite Hissued, Hsocio. cbn [id_or_null].
  unfold truthy_int. rewrite decide_False by done.
  unfold downloadBoletaPdf. split; [|split].
  - intros pdfBlob Hget Hup. rewrite Hget. cbv zeta. by rewrite Hup.
  - intros pdfBlob m Hget Hup. rewrite Hget. cbv zeta. by rewrite Hup.
  - intros Hfail. destruct (get_download_pdf env (issued_id issued) "A4") as [b|status|m|];
      [by destruct (Hfail b)|cbn; eauto..].
Qed.

(** The form holding the document B001-00042 of identifier 42 for member 7. *)
Definition issued_for_member_7 : FormState :=
  {| isSubmitting := false; isClientSearching := false; isGeneratingPdf := false;
     lastIssuedBoleta := Some {| issued_id := 42; issued_numero_completo := "B001-00042" |};
     currentSocioId := Some 7%Z |}.

Lemma download_archives_then_saves_witness :
  handleDownloadPdf {| get_download_pdf := λ _ _, BlobResponse "%PDF";
                       storage_upload := λ _ _ _, Uploaded |} issued_for_member_7
  = [ io (GET_download_pdf 42 "A4");
      io (storage_upload_call "comprobante-de-pago" "7/B001-00042.pdf" "B001-00042.pdf"
                              "%PDF" true);
      io (browser_download "B001-00042.pdf" "%PDF");
      show "Descarga Iniciada y Guardada"
           "Descargando B001-00042.pdf y guardado en el repositorio del socio." "success" ].
Proof.
  destruct (download_archives_then_saves
              {| get_download_pdf := λ _ _, BlobResponse "%PDF";
                 storage_upload := λ _ _ _, Uploaded |} issued_for_member_7
              {| issued_id := 42; issued_numero_completo := "B001-00042" |} 7%Z
              eq_refl eq_refl ltac:(discriminate)) as [Hok _].
  apply (Hok "%PDF" eq_refl eq_refl).
Defined.

End InvoiceWorkflow.

(** ** The client search of the invoice form *)
Module ClientSearch.
Import Js Json InvoicingTypes InvoicingApi InvoicingDownload BoletaForm BoletaFormActions Samples.

(** From 8 characters on, [fetchClientByDocument] sends its one query. *)
Lemma fetchClientByDocument_long socio_titulares docNumber :
  8 ≤ str_length docNumber →
  ∃ r, fetchClientByDocument socio_titulares docNumber = (r, [docNumber]) ∧
       (∀ found, r = Returns (Some found) →
          ∃ a row, socio_titulares docNumber = Answer a ∧ Supabase.data a = Some row ∧
                   found = clientData row).
Proof.
  intros Hlong. unfold fetchClientByDocument.
  assert (bool_decide (str_length docNumber < 8) = false) as ->
    by (apply bool_decide_eq_false; lia).
  assert (truthy_string docNumber = true) as ->.
  { unfold truthy_string. destruct (decide (docNumber = "")) as [->|]; [vm_compute in Hlong; lia|done]. }
  cbn [negb orb]. eexists. split; [reflexivity|].
  intros found Hfound.
  destruct (socio_titulares docNumber) as [a|e]; [|by destruct e].
  destruct (Supabase.error a) as [err|].
  - destruct (decide (Supabase.code err = "PGRST116")); [|done].
    destruct (Supabase.data a) as [row|] eqn:Hrow; [|done].
    injection Hfound as <-. eauto.
  - destruct (Supabase.data a) as [row|] eqn:Hrow; [|done].
    injection Hfound as <-. eauto.
Qed.

(** X15: A search never leaves a member identifier that it did not read itself:
    after [handleClientSearch] a member is set only if the document type is
    DNI, the trimmed text has at least 8 characters and the table answered
    with a row, whose non-zero identifier it then is; the table is queried
    for the trimmed text only; document type, document number and e-mail of
    the form, the issued document and the submitting flag are not touched. *)
Theorem client_search_member_id (socio_titulares : string → QueryOutcome) (value : string)
    (c : Client) (st : FormState) :
  let res := handleClientSearch socio_titulares value c st in
  (∀ m, currentSocioId res.1.1 = Some m →
     m ≠ 0%Z ∧ tipo_documento c = "1" ∧ 8 ≤ str_length (trim value) ∧
     ∃ a row, socio_titulares (trim value) = Answer a ∧
              Supabase.data a = Some row ∧ socio_id row = m) ∧
  (∀ d, SELECT_socio_titulares d ∈ res.2 → d = trim value) ∧
  tipo_documento res.1.2 = tipo_documento c ∧
  numero_documento res.1.2 = numero_documento c ∧
  email res.1.2 = email c ∧
  lastIssuedBoleta res.1.1 = lastIssuedBoleta st ∧
  isSubmitting res.1.1 = isSubmitting st.
Proof.
  cbv zeta. unfold handleClientSearch.
  destruct (bool_decide_reflect (tipo_documento c = "1")) as [Htipo|Htipo];
    [|cbn; split; [done|]; split; [by intros d ?%elem_of_nil|done]].
  destruct (bool_decide_reflect (str_length (trim value) < 8)) as [Hshort|Hlong];
    [cbn; split; [done|]; split; [by intros d ?%elem_of_nil|done]|].
  cbn [negb orb].
  destruct (fetchClientByDocument_long socio_titulares (trim value) ltac:(lia))
    as (r & -> & Hfound).
  destruct r as [[found|]|e]; cbn [fst snd].
  - split; [|split; [|done]].
    + intros m Hm. cbn in Hm. unfold id_or_null in Hm.
      destruct (Hfound found eq_refl) as (a & row & Ha & Hrow & ->).
      cbn in Hm. unfold truthy_int in Hm.
      destruct (decide (socio_id row = 0%Z)); [done|]. injection Hm as <-.
      split; [done|]. split; [done|]. split; [lia|]. eauto.
    + intros d Hd. apply elem_of_app in Hd as [Hd|Hd].
      * cbn in Hd. apply list_elem_of_singleton in Hd. by injection Hd.
      * apply list_elem_of_singleton in Hd. done.
  - split; [done|]. split; [|done].
    intros d Hd. apply elem_of_app in Hd as [Hd|Hd].
    + cbn in Hd. apply list_elem_of_singleton in Hd. by injection Hd.
    + apply list_elem_of_singleton in Hd. done.
  - split; [done|]. split; [|done].
    intros d Hd. apply elem_of_app in Hd as [Hd|Hd].
    + cbn in Hd. apply list_elem_of_singleton in Hd. by injection Hd.
    + apply list_elem_of_singleton in Hd. done.
Qed.

(** X16: The three outcomes of a search that is sent (document type DNI, at
    least 8 characters after trimming): a failure of the table leaves the
    client of the form as it was and reports the error; "no row" blanks the
    eight looked-up fields; a row fills them from the member and sets the
    member.  In each case there was one query, the searching flag is cleared
    and one toast is shown. *)
Theorem client_search_outcomes (socio_titulares : string → QueryOutcome) (value : string)
    (c : Client) (st : FormState) :
  tipo_documento c = "1" → 8 ≤ str_length (trim value) →
  let res := handleClientSearch socio_titulares value c st in
  let query := SELECT_socio_titulares (trim value) in
  isClientSearching res.1.1 = false ∧
  (ClientLookup.lookup_failure (socio_titulares (trim value)) →
     currentSocioId res.1.1 = None ∧ res.1.2 = c ∧
     ∃ description, res.2 = [query; show "Error de Búsqueda" description "destructive"]) ∧
  (ClientLookup.not_found (socio_titulares (trim value)) →
     currentSocioId res.1.1 = None ∧
     res.1.2 = set_client_fields "" "" "" "" "" "" "" "" c ∧
     ∃ description, res.2 = [query; show "Cliente No Encontrado" description "warning"]) ∧
  (∀ row, ClientLookup.found (socio_titulares (trim value)) row →
     currentSocioId res.1.1 = id_or_null (Some (socio_id row)) ∧
     razon_social res.1.2 = razon_social (clientData row) ∧
     direccion res.1.2 = direccion (clientData row) ∧
     ∃ description, res.2 = [query; show "Cliente Encontrado" description "success"]).
Proof.
  intros Htipo Hlong. cbv zeta. unfold handleClientSearch.
  rewrite (bool_decide_eq_true_2 _ Htipo).
  rewrite bool_decide_eq_false_2 by lia. cbn [negb orb].
  unfold fetchClientByDocument.
  rewrite bool_decide_eq_false_2 by lia.
  assert (truthy_string (trim value) = true) as ->.
  { unfold truthy_string. destruct (decide (trim value = "")) as [Heq|]; [|done].
    rewrite Heq in Hlong. vm_compute in Hlong. lia. }
  cbn [negb orb]. split; [|split; [|split]].
  - destruct (socio_titulares (trim value)) as [a|e]; [|by destruct e].
    destruct (Supabase.error a) as [err|].
    + destruct (decide _); [by destruct (Supabase.data a)|done].
    + by destruct (Supabase.data a).
  - intros [(a & err & -> & He & Hc)|(e & ->)].
    + rewrite He, decide_False by done. cbn. eauto.
    + destruct e; cbn; eauto.
  - intros (a & -> & Hd & [He|(err & He & Hc)]); rewrite He, ?Hd.
    + cbn. eauto.
    + rewrite decide_True by done. cbn. eauto.
  - intros row (a & -> & Hd & He). rewrite He, Hd. cbn [fst snd].
    split; [done|]. split.
    { cbn. unfold truthy_string. by destruct (decide _) as [->|]. }
    split; [|cbn; eauto].
    cbn. unfold truthy_string. by destruct (decide _) as [->|].
Qed.

(** The no-break space U+00A0, and a document number typed with one before
    and a space after it. *)
Definition nbsp : string := of_bytes [194; 160].
Definition padded_dni : string := (nbsp ++ "12345678 ")%string.

Lemma client_search_outcomes_witness :
  isClientSearching (handleClientSearch unreachable padded_dni defaultClient form_idle).1.1
  = false ∧
  currentSocioId (handleClientSearch unreachable padded_dni defaultClient form_idle).1.1
  = None ∧
  (handleClientSearch unreachable padded_dni defaultClient form_idle).1.2 = defaultClient.
Proof.
  destruct (client_search_outcomes unreachable padded_dni defaultClient form_idle)
    as (Hflag & Hfail & _).
  - reflexivity.
  - vm_compute. lia.
  - split; [exact Hflag|].
    destruct Hfail as (Hnone & Hsame & _); [|by split].
    left. do 2 eexists. split; [reflexivity|]. split; [reflexivity|]. cbn. discriminate.
Defined.

(** White space that is not ASCII is trimmed as well, and the length is
    taken after trimming: six digits between two no-break spaces are too
    short, and nothing is asked; eight digits are asked for without the
    padding. *)
Example nbsp_padding_is_trimmed :
  handleClientSearch unreachable (nbsp ++ "123456" ++ nbsp)%string defaultClient form_idle
  = (setCurrentSocioId None form_idle, defaultClient, []) ∧
  trim padded_dni = "12345678" ∧
  (handleClientSearch nobody padded_dni defaultClient form_idle).2
  = [ SELECT_socio_titulares "12345678";
      show "Cliente No Encontrado"
           "No se encontraron datos para el documento ingresado. Por favor, complete manualmente."
           "warning" ].
Proof. repeat split; vm_compute; reflexivity. Qed.

End ClientSearch.

(** ** Comparisons of JavaScript numbers *)
Module FloatFacts.

Lemma SFcompare_antisym (x y : spec_float) :
  SFcompare y x = option_map CompOpp (SFcompare x y).
Proof.
  destruct x as [[]|[]| |[] m1 e1], y as [[]|[]| |[] m2 e2]; cbn [SFcompare option_map CompOpp];
    try reflexivity.
  all: rewrite (Z.compare_antisym e1 e2); destruct (e1 ?= e2)%Z eqn:He; cbn [CompOpp]; try reflexivity.
  all: rewrite (Pos.compare_cont_antisym m1 m2 Eq); cbn [CompOpp]; try reflexivity.
  all: by destruct (Pos.compare_cont Eq m1 m2).
Qed.

Lemma SFcompare_refl (x : spec_float) : x ≠ S754_nan → SFcompare x x = Some Eq.
Proof.
  destruct x as [[]|[]| |[] m e]; cbn [SFcompare]; try done.
  all: intros _; rewrite Z.compare_refl, Pos.compare_cont_refl; done.
Qed.

Lemma is_nan_false (x : float) : PrimFloat.is_nan x = false ↔ Prim2SF x ≠ S754_nan.
Proof.
  unfold PrimFloat.is_nan. rewrite FloatAxioms.eqb_spec. unfold SFeqb. split.
  - intros H Hn. rewrite Hn in H. done.
  - intros H. by rewrite (SFcompare_refl _ H).
Qed.

(** [b <= x] is "[x] is a number and not below [b]". *)
Lemma leb_iff_not_below (b x : float) :
  PrimFloat.is_nan b = false →
  (b <=? x)%float = true ↔ PrimFloat.is_nan x = false ∧ (x <? b)%float = false.
Proof.
  rewrite !is_nan_false, FloatAxioms.leb_spec, FloatAxioms.ltb_spec.
  unfold SFleb, SFltb. rewrite (SFcompare_antisym (Prim2SF b) (Prim2SF x)).
  intros Hb. destruct (Prim2SF x) eqn:Hx, (Prim2SF b) eqn:Hbb; try done.
  all: try (cbn; split; [intros ?; done | intros [? ?]; done]).
  all: destruct (SFcompare _ _) as [[]|] eqn:Hc; cbn; try (split; [done | intros [? ?]; done]);
       try (split; [intros ?; split; done | done]).
Qed.

Lemma positive_iff (x : float) :
  (0 <? x)%float = true ↔
  PrimFloat.is_nan x = false ∧ (x <? 0)%float = false ∧ (x <=? 0)%float = false.
Proof.
  rewrite is_nan_false, !FloatAxioms.ltb_spec, FloatAxioms.leb_spec.
  change (Prim2SF 0) with (S754_zero false). unfold SFltb, SFleb.
  destruct (Prim2SF x) as [[]|[]| |[] m e]; cbn [SFcompare]; naive_solver.
Qed.

Lemma zero_iff (x : float) :
  (x =? 0)%float = true ↔
  PrimFloat.is_nan x = false ∧ (x <? 0)%float = false ∧ (x <=? 0)%float = true.
Proof.
  rewrite is_nan_false, !FloatAxioms.ltb_spec, FloatAxioms.leb_spec, FloatAxioms.eqb_spec.
  change (Prim2SF 0) with (S754_zero false). unfold SFltb, SFleb, SFeqb.
  destruct (Prim2SF x) as [[]|[]| |[] m e]; cbn [SFcompare]; naive_solver.
Qed.

Lemma abs_of_positive (x : float) : (0 <? x)%float = true → abs x = x.
Proof.
  rewrite FloatAxioms.ltb_spec. change (Prim2SF 0) with (S754_zero false). unfold SFltb.
  intros Hpos.
  assert (Prim2SF (abs x) = Prim2SF x) as Heq.
  { rewrite FloatAxioms.abs_spec.
    destruct (Prim2SF x) as [[]|[]| |[] m e]; cbn [SFcompare] in Hpos; done. }
  rewrite <- (FloatAxioms.SF2Prim_Prim2SF (abs x)), Heq.
  apply FloatAxioms.SF2Prim_Prim2SF.
Qed.

Lemma opp_of_positive (x : float) : (0 <? x)%float = true → (- x <? 0)%float = true.
Proof.
  rewrite !FloatAxioms.ltb_spec, FloatAxioms.opp_spec.
  change (Prim2SF 0) with (S754_zero false). unfold SFltb.
  destruct (Prim2SF x) as [[]|[]| |[] m e]; cbn [SFcompare SFopp negb]; done.
Qed.

Lemma neg_abs_not_positive (x : float) : (0 <? - abs x)%float = false.
Proof.
  rewrite FloatAxioms.ltb_spec, FloatAxioms.opp_spec, FloatAxioms.abs_spec.
  change (Prim2SF 0) with (S754_zero false). unfold SFltb.
  destruct (Prim2SF x) as [[]|[]| |[] m e]; cbn [SFcompare SFopp SFabs negb]; done.
Qed.

End FloatFacts.

(** ** Tactics for lists written out *)

(** Case analysis of a membership hypothesis, and proof of a membership. *)
Ltac elems H :=
  repeat (apply elem_of_cons in H as [H|H]); try discriminate H;
  try (apply elem_of_nil in H; destruct H); try (subst; discriminate).
Ltac in_list :=
  solve [repeat first [apply list_elem_of_here | apply list_elem_of_further]].

(** ** Which invoice forms are submitted *)
Module FormValidity.
Import Js Json InvoicingTypes InvoicingApi BoletaForm Samples.

(** The conditions of [ClientSchema] on the client of the form. *)
Definition valid_client (rt : Runtime) (c : Client) : Prop :=
  1 ≤ str_length (tipo_documento c) ∧ 8 ≤ str_length (numero_documento c) ∧
  3 ≤ str_length (razon_social c) ∧ 5 ≤ str_length (direccion c) ∧
  (∀ s, email c = Some s → s = "" ∨ email_pattern rt s = true).

(** The conditions of [DetalleSchema] on a line item. *)
Definition valid_detalle (d : Detalle) : Prop :=
  1 ≤ str_length (descripcion d) ∧ 1 ≤ str_length (unidad d) ∧
  (0.01 <=? cantidad d)%float = true ∧ (0 <=? mto_valor_unitario d)%float = true ∧
  (0 <=? porcentaje_igv d)%float = true ∧ 1 ≤ str_length (tip_afe_igv d).

(** Only the empty string has length 0. *)
Lemma str_length_pos (s : string) : s ≠ "" ↔ 1 ≤ str_length s.
Proof.
  destruct s as [|a rest]; [split; [done | vm_compute; lia]|].
  split; [intros _|done]. unfold str_length. cbn [str_length_from]. unfold code_units.
  repeat case_bool_decide; cbn; lia.
Qed.

Lemma string_min_nil n message at_ s :
  string_min n message at_ s = [] ↔ n ≤ str_length s.
Proof. unfold string_min. destruct (decide _); split; intros; try done; try lia. Qed.

(** The length is counted as JavaScript counts it: a name of two letters
    and an address of four are too short also when a letter takes two bytes. *)
Example accented_letters_count_once :
  issue <$> ClientSchema rt_sample []
              {| id := None; tipo_documento := "1"; numero_documento := "12345678";
                 razon_social := "Ñu"; nombre_comercial := None; direccion := "Ñaña";
                 ubigeo := None; distrito := None; provincia := None;
                 departamento := None; telefono := None; email := None |}
  = [ "Razón social es requerida."; "Dirección es requerida." ].
Proof. vm_compute. reflexivity. Qed.

Lemma coerce_number_min_nil bound message at_ x :
  PrimFloat.is_nan bound = false →
  coerce_number_min bound message at_ x = [] ↔ (bound <=? x)%float = true.
Proof.
  intros Hb. rewrite (FloatFacts.leb_iff_not_below bound x Hb). unfold coerce_number_min.
  destruct (PrimFloat.is_nan x); [naive_solver|].
  destruct (x <? bound)%float; naive_solver.
Qed.

Lemma email_or_empty_nil rt message at_ v :
  email_or_empty rt message at_ v = [] ↔ ∀ s, v = Some s → s = "" ∨ email_pattern rt s = true.
Proof.
  unfold email_or_empty. destruct v as [s|]; [|naive_solver].
  destruct (email_pattern rt s) eqn:He; [naive_solver|].
  destruct (decide (s = "")); [naive_solver|].
  split; [done|]. intros H. destruct (H s eq_refl); congruence.
Qed.

Lemma ClientSchema_nil rt at_ c : ClientSchema rt at_ c = [] ↔ valid_client rt c.
Proof.
  unfold ClientSchema, valid_client.
  rewrite !app_nil, !string_min_nil, email_or_empty_nil. done.
Qed.

Lemma DetalleSchema_nil at_ d : DetalleSchema at_ d = [] ↔ valid_detalle d.
Proof.
  unfold DetalleSchema, valid_detalle.
  rewrite !app_nil, !string_min_nil, !coerce_number_min_nil by reflexivity. done.
Qed.

Lemma detalles_nil (ds : list Detalle) : ∀ at_ : nat → list PathSegment,
  mjoin (imap (λ i d, DetalleSchema (at_ i) d) ds) = [] ↔ Forall valid_detalle ds.
Proof.
  induction ds as [|d ds IH]; intros at_.
  - split; [constructor|done].
  - change (mjoin (imap (λ i d0, DetalleSchema (at_ i) d0) (d :: ds)))
      with (DetalleSchema (at_ 0) d
            ++ mjoin (imap (λ i d0, DetalleSchema ((at_ ∘ S) i) d0) ds)).
    rewrite app_nil, DetalleSchema_nil, Forall_cons, (IH (at_ ∘ S)). done.
Qed.

Lemma BoletaPayloadSchema_nil rt data :
  BoletaPayloadSchema rt data = [] ↔
  valid_client rt (client data) ∧ detalles data ≠ [] ∧ Forall valid_detalle (detalles data).
Proof.
  unfold BoletaPayloadSchema, detalles_schema.
  rewrite !app_nil, ClientSchema_nil.
  rewrite (detalles_nil (detalles data) (λ i, [Key "detalles"] ++ [Index i])).
  destruct (detalles data) as [|d ds]; cbn [length].
  - rewrite decide_True by lia. naive_solver.
  - rewrite decide_False by lia. naive_solver.
Qed.

Definition is_submission (e : Effect) : bool :=
  match e with
  | POST_boletas _ => true
  | _ => false
  end.

(** [onSubmit] sends the converted payload first, and nothing else to
    [/boletas]. *)
Lemma onSubmit_effects rt api data st :
  ∃ rest, (onSubmit rt api data st).2 = POST_boletas (payload data) :: rest ∧
          Forall (λ e, is_submission e = false) rest.
Proof.
  unfold onSubmit. destruct (issueBoleta rt api (payload data)) as [r|e].
  - unfold handleGeneratePdf. cbn. eexists. split; [reflexivity|].
    repeat constructor. by destruct (generateBoletaPdf _ _ _ _).
  - cbn. eexists. split; [reflexivity|]. repeat constructor.
Qed.

(** X19: The invoice form sends a request to the collaborator exactly when the
    form value satisfies the field rules: a document type, a document number
    of 8 characters, a name of 3, an address of 5, an e-mail that is absent,
    empty or well-formed, at least one line item, and on every line a
    description, a unit, an IGV code, a quantity of at least 0.01 and a unit
    value and an IGV rate of at least 0 (none of them [NaN]).  What is sent
    is the converted payload, once. *)
Theorem submission_posted_iff_valid (rt : Runtime) (api : InvoicingRest)
    (data : BoletaFormValues) (st : FormState) :
  let effects := (handleSubmit rt api data st).1.2 in
  ((∃ p, POST_boletas p ∈ effects) ↔
   valid_client rt (client data) ∧ detalles data ≠ [] ∧
   Forall valid_detalle (detalles data)) ∧
  (∀ p, POST_boletas p ∈ effects → p = payload data) ∧
  length (filter is_submission effects) ≤ 1.
Proof.
  cbv zeta. rewrite <- BoletaPayloadSchema_nil. unfold handleSubmit.
  destruct (BoletaPayloadSchema rt data) as [|e errors] eqn:Hs; cbn [fst snd].
  - destruct (onSubmit_effects rt api data st) as (rest & -> & Hrest).
    assert (filter is_submission rest = []) as Hnone.
    { induction Hrest as [|x l Hx _ IH]; [done|].
      rewrite filter_cons_False; [done|]. intros Hp. rewrite Hx in Hp. exact Hp. }
    split; [|split].
    + split; [done|]. intros _. exists (payload data). apply list_elem_of_here.
    + intros p [Hp|Hp]%elem_of_cons; [by injection Hp|].
      rewrite Forall_forall in Hrest. by specialize (Hrest _ Hp).
    + rewrite filter_cons_True by done. cbn. rewrite Hnone. done.
  - split; [|split].
    + split; [by intros [p ?%elem_of_nil]|done].
    + by intros p ?%elem_of_nil.
    + cbn. lia.
Qed.

End FormValidity.

(** ** The transaction form *)
Module TransactionFacts.
Import Js InvoicingTypes TransactionForm.

(** The amount a transaction type allows: zero for a cancellation, a
    number greater than zero for the other three. *)
Definition amount_allowed (t : TransactionType) (x : float) : Prop :=
  match t with
  | Anulacion => (x =? 0)%float = true
  | Ingreso | Devolucion | Gasto => (0 <? x)%float = true
  end.

Lemma superRefine_nil (values : TransactionFormValues) :
  superRefine values = [] ↔
  match transactionType values with
  | Anulacion => (amount values =? 0)%float = true
  | Ingreso | Devolucion | Gasto => (amount values <=? 0)%float = false
  end.
Proof.
  unfold superRefine.
  destruct (transactionType values); repeat case_bool_decide; try done.
  all: destruct (amount values <=? 0)%float, (amount values =? 0)%float;
    cbn; split; congruence.
Qed.

Lemma formSchema_nil (values : TransactionFormValues) :
  formSchema values = [] ↔
  1 ≤ str_length (accountName values) ∧ PrimFloat.is_nan (amount values) = false ∧
  (amount values <? 0)%float = false ∧ (∃ ms, date values = TimeValue ms) ∧
  superRefine values = [].
Proof.
  unfold formSchema, amount_schema, date_schema.
  rewrite <- (FormValidity.string_min_nil 1 "Selecciona una cuenta." [Key "accountName"]).
  remember (string_min 1 "Selecciona una cuenta." [Key "accountName"] (accountName values))
    as account eqn:Haccount. clear Haccount.
  remember (superRefine values) as refined eqn:Hrefined. clear Hrefined.
  destruct (date values) as [ms|], (PrimFloat.is_nan (amount values)),
    (amount values <? 0)%float; cbn.
  all: split; [intros H |].
  all: try (intros (_ & ? & ? & [? ?] & _); discriminate).
  all: try (exfalso; apply (f_equal length) in H; rewrite ?length_app in H; cbn in H; lia).
  - apply app_nil in H as [Ha H]. rewrite !app_nil_r in Ha. eauto 10.
  - intros (-> & _ & _ & _ & ->). done.
Qed.

(** X20: The form is accepted exactly when an account is chosen, the date is a
    valid date and the amount fits the type: 0 (or -0) for Anulacion and a
    number greater than 0 (never [NaN]) for Ingreso, Devolucion and Gasto. *)
Theorem transaction_accepted_iff (values : TransactionFormValues) :
  formSchema values = [] ↔
  accountName values ≠ "" ∧ (∃ ms, date values = TimeValue ms) ∧
  amount_allowed (transactionType values) (amount values).
Proof.
  rewrite formSchema_nil, superRefine_nil. unfold amount_allowed.
  rewrite (FormValidity.str_length_pos (accountName values)).
  pose proof (FloatFacts.positive_iff (amount values)) as Hpos.
  pose proof (FloatFacts.zero_iff (amount values)) as Hzero.
  destruct (transactionType values); tauto.
Qed.

(** The table, the account and the amount of an insert. *)
Definition inserted (e : Effect) : option (string * string * float) :=
  match e with
  | INSERT_gastos row => Some ("gastos", gasto_account row, gasto_amount row)
  | INSERT_ingresos row => Some ("ingresos", ingreso_account row, ingreso_amount row)
  | _ => None
  end.

(** What the table answered to an insert. *)
Definition insert_error (db : Tables) (e : Effect) : option (option Supabase.PostgrestError) :=
  match e with
  | INSERT_gastos row => Some (insert_gastos db row)
  | INSERT_ingresos row => Some (insert_ingresos db row)
  | _ => None
  end.


(** X21: An accepted form writes one row, first of all: a Gasto into [gastos],
    the other types into [ingresos], for the chosen account.  The stored
    amount is the negated amount, below zero, for Gasto and Devolucion; 0
    for Anulacion; the amount itself, above zero, for Ingreso. *)
Theorem accepted_transaction_stored (lc : Locale) (db : Tables)
    (values : TransactionFormValues) (loading : bool) :
  formSchema values = [] →
  ∃ e rest stored,
    (handleSubmit lc db values loading).1.2 = e :: rest ∧
    inserted e
    = Some (if bool_decide (transactionType values = Gasto) then "gastos" else "ingresos",
            accountName values, stored) ∧
    Forall (λ e', inserted e' = None) rest ∧
    match transactionType values with
    | Gasto | Devolucion =>
        stored = (- amount values)%float ∧ (stored <? 0)%float = true
    | Anulacion => stored = 0%float
    | Ingreso => stored = amount values ∧ (0 <? stored)%float = true
    end.
Proof.
  intros Hvalid. unfold handleSubmit. rewrite Hvalid. cbn [fst snd].
  apply formSchema_nil in Hvalid as (_ & Hnan & Hneg & [ms Hdate] & Hrefined).
  apply superRefine_nil in Hrefined.
  unfold onSubmit, insert_transaction, finalAmount. rewrite Hdate. cbn [format].
  destruct (transactionType values) eqn:Htype.
  - destruct (insert_ingresos db _); cbn; do 3 eexists;
      (split; [reflexivity|]); (split; [reflexivity|]); (split; [repeat constructor|]);
      (split; [reflexivity|]); apply FloatFacts.positive_iff; done.
  - destruct (insert_ingresos db _); cbn; do 3 eexists;
      (split; [reflexivity|]); (split; [reflexivity|]); (split; [repeat constructor|]);
      reflexivity.
  - assert ((0 <? amount values)%float = true) as Hpos by (apply FloatFacts.positive_iff; done).
    rewrite (FloatFacts.abs_of_positive _ Hpos).
    destruct (insert_ingresos db _); cbn; do 3 eexists;
      (split; [reflexivity|]); (split; [reflexivity|]); (split; [repeat constructor|]);
      (split; [reflexivity|]); by apply FloatFacts.opp_of_positive.
  - assert ((0 <? amount values)%float = true) as Hpos by (apply FloatFacts.positive_iff; done).
    rewrite (FloatFacts.abs_of_positive _ Hpos).
    destruct (insert_gastos db _); cbn; do 3 eexists;
      (split; [reflexivity|]); (split; [reflexivity|]); (split; [repeat constructor|]);
      (split; [reflexivity|]); by apply FloatFacts.opp_of_positive.
Qed.

(** A purchase of 120 soles paid from the account Caja, and a locale and
    tables for the examples. *)
Definition gasto_120 : TransactionFormValues :=
  {| accountName := "Caja"; transactionType := Gasto; amount := 120;
     date := TimeValue 1753660800000; description := Some "Papel";
     category := Some "Oficina"; sub_category := None; numeroGasto := Some "G-17";
     colaboradorId := None; receiptNumber := None; dni := None; fullName := None;
     numeroOperacion := None |}.
Definition lc_sample : Locale :=
  {| format_yyyy_MM_dd := λ _, "2025-07-28"; toLocaleString_PEN := λ _, "S/ 120.00" |}.
Definition tables_accepting : Tables :=
  {| insert_gastos := λ _, None; insert_ingresos := λ _, None |}.

Lemma accepted_transaction_stored_witness :
  ∃ e rest stored,
    (handleSubmit lc_sample tables_accepting gasto_120 false).1.2 = e :: rest ∧
    inserted e = Some ("gastos", "Caja", stored) ∧
    Forall (λ e', inserted e' = None) rest ∧
    stored = (- 120)%float ∧ (stored <? 0)%float = true.
Proof.
  apply (accepted_transaction_stored lc_sample tables_accepting gasto_120 false).
  reflexivity.
Defined.

(** X22: Whatever the form value, [onSubmit] ends with [loading] off and at most
    one insert; [onSuccess] and [onClose] are called exactly when the insert
    was made and answered without error; an error of the table is shown
    with its message and no callback runs; an invalid date is reported
    before anything is written; and a row of [gastos] is written only for
    a Gasto, with an amount that is never above zero. *)
Theorem transaction_callbacks_follow_insert (lc : Locale) (db : Tables)
    (values : TransactionFormValues) (loading : bool) :
  let res := onSubmit lc db values loading in
  res.1 = false ∧
  length (filter (λ e, is_Some (inserted e)) res.2) ≤ 1 ∧
  (onSuccess ∈ res.2 ↔ ∃ e, e ∈ res.2 ∧ insert_error db e = Some None) ∧
  (onClose ∈ res.2 ↔ onSuccess ∈ res.2) ∧
  (∀ e error, e ∈ res.2 → insert_error db e = Some (Some error) →
     toast_error "Error al registrar transacción" (Supabase.message error) ∈ res.2 ∧
     onSuccess ∉ res.2) ∧
  (date values = InvalidDate → Forall (λ e, inserted e = None) res.2) ∧
  (∀ row, INSERT_gastos row ∈ res.2 →
     transactionType values = Gasto ∧ (0 <? gasto_amount row)%float = false).
Proof.
  cbv zeta. unfold onSubmit, insert_transaction.
  destruct (date values) as [ms|]; cbn [format].
  - destruct (transactionType values) eqn:Htype.
    4: destruct (insert_gastos db _) as [error|] eqn:Hins.
    1-3: destruct (insert_ingresos db _) as [error|] eqn:Hins.
    all: cbn [fst snd app].
    all: split; [done|]; split; [vm_compute; repeat constructor|].
    all: split;
      [split;
       [intros H; elems H; (eexists; split; [apply list_elem_of_here|]; cbn [insert_error]; by rewrite Hins)
       |intros (e & H & He); elems H; subst e; cbn [insert_error] in He;
        rewrite Hins in He; first [discriminate He | in_list]]|].
    all: split; [split; intros H; elems H; in_list|].
    all: split; [intros e err H He; elems H; subst e; cbn [insert_error] in He;
                 rewrite Hins in He; try discriminate He;
                 (injection He as <-; split; [in_list | intros H'; elems H'])|].
    all: split; [done|].
    all: intros row H; elems H.
    all: injection H as ->; split; [done|]; cbn [gasto_amount]; unfold finalAmount;
      rewrite Htype; apply FloatFacts.neg_abs_not_positive.
  - cbn [fst snd app]. split; [done|]. split; [vm_compute; repeat constructor|].
    split; [split; [intros H; elems H | intros (e & H & He); elems H]|].
    split; [split; intros H; elems H|].
    split; [intros e error H; elems H|].
    split; [intros _; repeat constructor|].
    intros row H; elems H.
Qed.

End TransactionFacts.

(** ** The upload of a member's document *)
Module UploadFacts.
Import Js UploadDocumentModal.

(** X23: Without a chosen file, a member (the identifier 0 counts as none) or a
    document type, a submission only warns: the state is unchanged, nothing
    is uploaded or recorded and no callback runs. *)
Theorem upload_needs_file_member_and_type (be : Backend) (props : Props) (st : State) :
  selectedFile st = None ∨ socioId props = None ∨ socioId props = Some 0%Z ∨
  documentType props = None →
  handleSubmit be props st
  = (st, [preventDefault; toast_warning "Por favor, selecciona un archivo para subir."]).
Proof.
  intros Hmiss. unfold handleSubmit.
  destruct (selectedFile st) as [file|], (socioId props) as [id|],
    (documentType props) as [type|]; try done.
  unfold truthy_int. destruct (decide (id = 0%Z)); [done|].
  destruct Hmiss as [?|[?|[[= ?]|?]]]; done.
Qed.

(** A plan chosen for a member whose identifier is 0. *)
Definition plano : File := {| file_name := "plano.pdf"; file_content := "%PDF" |}.
Definition backend_ok : Backend :=
  {| has_session := true; Date_now := 1753660800000;
     upload := λ _ _ _, None;
     getPublicUrl := λ bucket path, Some ("https://storage/" ++ bucket ++ "/" ++ path)%string;
     upsert := λ _, None |}.

Lemma upload_needs_file_member_and_type_witness :
  handleSubmit backend_ok
    {| socioId := Some 0%Z; socioName := "Ana"; documentType := Some Planos_de_ubicacion |}
    {| selectedFile := Some plano; isUploading := false |}
  = ({| selectedFile := Some plano; isUploading := false |},
     [preventDefault; toast_warning "Por favor, selecciona un archivo para subir."]).
Proof.
  apply upload_needs_file_member_and_type. right. right. left. reflexivity.
Defined.

(** X24: A document is recorded only after its file is stored: every upsert of
    [socio_documentos] is for the member and the type of the props, uses
    the key [socio_id, tipo_documento], and links the public URL of the
    path [{member}/{clock}-{file name}] in the bucket of the type, to which
    the chosen file was uploaded without error in a live session.  The
    callback [onUploadSuccess] runs exactly when that upsert was answered
    without error; then the dialog closes and the chosen file is forgotten,
    and otherwise the chosen file is kept.  The uploading flag is off
    afterwards unless the submission only warned. *)
Theorem document_recorded_only_after_upload (be : Backend) (props : Props) (st : State) :
  let res := handleSubmit be props st in
  (∀ row onConflict, UPSERT_socio_documentos row onConflict ∈ res.2 →
     onConflict = "socio_id, tipo_documento" ∧ socio_id row ≠ 0%Z ∧
     socioId props = Some (socio_id row) ∧ documentType props = Some (tipo_documento row) ∧
     has_session be = true ∧
     ∃ file, selectedFile st = Some file ∧
       let bucket := bucketName (tipo_documento row) in
       let path := filePath (socio_id row) (Date_now be) file in
       storage_upload bucket path file ∈ res.2 ∧
       upload be bucket path file = None ∧
       getPublicUrl be bucket path = Some (link_documento row) ∧
       link_documento row ≠ "") ∧
  (onUploadSuccess ∈ res.2 ↔
   ∃ row onConflict, UPSERT_socio_documentos row onConflict ∈ res.2 ∧ upsert be row = None) ∧
  (onUploadSuccess ∈ res.2 → onOpenChange false ∈ res.2 ∧ selectedFile res.1 = None) ∧
  (onUploadSuccess ∉ res.2 → selectedFile res.1 = selectedFile st) ∧
  (res.1 = st ∨ isUploading res.1 = false).
Proof.
  cbv zeta. unfold handleSubmit.
  destruct (selectedFile st) as [file|] eqn:Hfile, (socioId props) as [id|] eqn:Hid,
    (documentType props) as [type|] eqn:Htype.
  all: try (cbn [fst snd];
            split; [intros row c H; elems H|];
            split; [split; [intros H; elems H | intros (row & c & H & _); elems H]|];
            split; [intros H; elems H|]; split; [done|]; by left).
  unfold truthy_int. destruct (decide (id = 0%Z)) as [Hz|Hnz].
  { cbn [fst snd].
    split; [intros row c H; elems H|].
    split; [split; [intros H; elems H | intros (row & c & H & _); elems H]|].
    split; [intros H; elems H|]. split; [by rewrite Hfile|]. by left. }
  unfold store_document.
  destruct (has_session be) eqn:Hsession; cbn [negb].
  2: { cbn [fst snd app].
       split; [intros row c H; elems H|].
       split; [split; [intros H; elems H | intros (row & c & H & _); elems H]|].
       split; [intros H; elems H|]. split; [done|]. by right. }
  destruct (upload be _ _ file) as [m|] eqn:Hupload.
  { cbn [fst snd app].
    split; [intros row c H; elems H|].
    split; [split; [intros H; elems H | intros (row & c & H & _); elems H]|].
    split; [intros H; elems H|]. split; [done|]. by right. }
  destruct (getPublicUrl be _ _) as [publicUrl|] eqn:Hurl.
  2: { cbn [fst snd app].
       split; [intros row c H; elems H|].
       split; [split; [intros H; elems H | intros (row & c & H & _); elems H]|].
       split; [intros H; elems H|]. split; [done|]. by right. }
  unfold truthy_string. destruct (decide (publicUrl = "")) as [Hempty|Hurl_ok].
  { cbn [fst snd app].
    split; [intros row c H; elems H|].
    split; [split; [intros H; elems H | intros (row & c & H & _); elems H]|].
    split; [intros H; elems H|]. split; [done|]. by right. }
  destruct (upsert be _) as [m|] eqn:Hupsert; cbn [fst snd app].
  all: split; [intros row c H; elems H; injection H as -> ->; cbn;
               split; [done|]; split; [done|]; split; [done|]; split; [done|];
               split; [done|]; exists file; split; [done|];
               split; [in_list|]; split; [done|]; split; done |].
  all: split; [split; [intros H; elems H; (do 2 eexists; split; [in_list|]; exact Hupsert)
                      |intros (row & c & H & Hr); elems H; injection H as -> ->;
                       first [in_list | congruence]]|].
  all: split; [intros H; elems H; (split; [in_list|done])|].
  all: split; [intros H; first [done | exfalso; apply H; in_list]|]; by right.
Qed.

End UploadFacts.

(** ** From the client search to the archived invoice *)
Module InvoiceJourney.
Import Js Json InvoicingTypes InvoicingApi InvoicingDownload BoletaForm BoletaFormActions Samples.

(** The state after a search that found a member. *)
Lemma handleClientSearch_found socio_titulares value c st row :
  tipo_documento c = "1" → 8 ≤ str_length (trim value) →
  ClientLookup.found (socio_titulares (trim value)) row →
  (handleClientSearch socio_titulares value c st).1.1
  = setIsClientSearching false
      (setCurrentSocioId (id_or_null (Some (socio_id row)))
         (setIsClientSearching true (setCurrentSocioId None st))).
Proof.
  intros Htipo Hlong (a & Ha & Hd & He). unfold handleClientSearch.
  rewrite (bool_decide_eq_true_2 _ Htipo), bool_decide_eq_false_2 by lia. cbn [negb orb].
  unfold fetchClientByDocument. rewrite bool_decide_eq_false_2 by lia.
  assert (truthy_string (trim value) = true) as ->.
  { unfold truthy_string. destruct (decide (trim value = "")) as [Heq|]; [|done].
    rewrite Heq in Hlong. vm_compute in Hlong. lia. }
  cbn [negb orb]. rewrite Ha, He, Hd. done.
Qed.

(** X17: The three steps of the form compose: the member found by the search
    for a DNI is the owner of the archived copy of the invoice issued next.
    After a search that found a member with a non-zero identifier and an
    accepted submission, the download stores the PDF of the issued document
    under [{member}/{document number}.pdf] and then saves it in the
    browser. *)
Theorem found_member_owns_archived_invoice (rt : Runtime) (api : InvoicingRest)
    (env : Archive) (socio_titulares : string → QueryOutcome) (value : string)
    (c : Client) (data : BoletaFormValues) (st : FormState)
    (row : SocioTitular) (body : json) (r : IssueResponse) (pdfBlob : string) :
  tipo_documento c = "1" → 8 ≤ str_length (trim value) →
  ClientLookup.found (socio_titulares (trim value)) row → socio_id row ≠ 0%Z →
  post_boletas api (payload data) = Response body →
  IssueResponseSchema_parse body = Some r →
  let searched := (handleClientSearch socio_titulares value c st).1.1 in
  let issued := (onSubmit rt api data searched).1 in
  let numero := numero_completo (InvoicingTypes.data r) in
  let filePath := InvoiceWorkflow.archive_path (socio_id row) numero in
  get_download_pdf env (boleta_id (InvoicingTypes.data r)) "A4" = BlobResponse pdfBlob →
  storage_upload env "comprobante-de-pago" filePath pdfBlob = Uploaded →
  handleDownloadPdf env issued
  = [ io (GET_download_pdf (boleta_id (InvoicingTypes.data r)) "A4");
      io (storage_upload_call "comprobante-de-pago" filePath (numero ++ ".pdf")%string
                              pdfBlob true);
      io (browser_download (numero ++ ".pdf")%string pdfBlob);
      show "Descarga Iniciada y Guardada"
           ("Descargando " ++ numero ++ ".pdf y guardado en el repositorio del socio.")%string
           "success" ].
Proof.
  intros Htipo Hlong Hfound Hnz Hpost Hparse. cbv zeta. intros Hget Hup.
  rewrite (InvoiceWorkflow.onSubmit_accepted_state rt api data _ body r Hpost Hparse).
  rewrite (handleClientSearch_found socio_titulares value c st row Htipo Hlong Hfound).
  unfold handleDownloadPdf, InvoiceWorkflow.after_issue, InvoiceWorkflow.archive_path in *.
  cbn [lastIssuedBoleta currentSocioId setIsClientSearching setCurrentSocioId id_or_null
       issued_id issued_numero_completo].
  unfold truthy_int. rewrite decide_False by done. cbn [id_or_null].
  unfold truthy_int. rewrite decide_False by done.
  unfold downloadBoletaPdf. rewrite Hget. cbv zeta. rewrite Hup. done.
Qed.

(** The member 7, Rosa Quispe, and a table that knows only her, under her
    document number. *)
Definition rosa : SocioTitular :=
  {| socio_id := 7; dni := "12345678"; nombres := Some "Rosa";
     apellidoPaterno := Some "Quispe"; apellidoMaterno := Some "Mamani";
     direccionDNI := Some "Jr. Lima 123"; direccionVivienda := None;
     distritoDNI := None; distritoVivienda := None; provinciaDNI := None;
     provinciaVivienda := None; regionDNI := None; regionVivienda := None;
     celular := None |}.
Definition only_rosa : string → QueryOutcome :=
  λ docNumber,
    if decide (docNumber = "12345678") then
      Answer {| Supabase.data := Some rosa; Supabase.error := None |}
    else nobody docNumber.

Lemma found_member_owns_archived_invoice_witness :
  handleDownloadPdf {| get_download_pdf := λ _ _, BlobResponse "%PDF";
                       storage_upload := λ _ _ _, Uploaded |}
    (onSubmit rt_sample (rest_answering (Response (issued_with_success true)))
       (form_values [defaultDetalle])
       (handleClientSearch only_rosa ClientSearch.padded_dni defaultClient form_idle).1.1).1
  = [ io (GET_download_pdf 42 "A4");
      io (storage_upload_call "comprobante-de-pago" "7/B001-00042.pdf" "B001-00042.pdf"
                              "%PDF" true);
      io (browser_download "B001-00042.pdf" "%PDF");
      show "Descarga Iniciada y Guardada"
           "Descargando B001-00042.pdf y guardado en el repositorio del socio." "success" ].
Proof.
  apply (found_member_owns_archived_invoice rt_sample
           (rest_answering (Response (issued_with_success true)))
           {| get_download_pdf := λ _ _, BlobResponse "%PDF";
              storage_upload := λ _ _ _, Uploaded |}
           only_rosa ClientSearch.padded_dni defaultClient (form_values [defaultDetalle]) form_idle
           rosa (issued_with_success true)
           {| success := true; message := "rechazado";
              data := {| boleta_id := 42; numero_completo := "B001-00042" |} |} "%PDF").
  - reflexivity.
  - vm_compute. lia.
  - eexists. split; [reflexivity|]. split; reflexivity.
  - discriminate.
  - reflexivity.
  - reflexivity.
  - reflexivity.
  - reflexivity.
Defined.

(** X18: A member row whose three name columns are NULL is presented under the
    name "null null null" (commercial name "null null"): the template
    literal prints each missing column as the word null, and the form's
    rule on the name (3 characters) accepts it. *)
Theorem null_names_shown_as_null (socioData : SocioTitular) (at_ : list PathSegment) :
  nombres socioData = None → apellidoPaterno socioData = None →
  apellidoMaterno socioData = None →
  razon_social (clientData socioData) = "null null null" ∧
  nombre_comercial (clientData socioData) = Some "null null" ∧
  string_min 3 "Razón social es requerida." at_ (razon_social (clientData socioData)) = [].
Proof.
  intros Hn Hp Hm. unfold clientData. cbn [razon_social nombre_comercial].
  rewrite Hn, Hp, Hm. split; [reflexivity|]. split; reflexivity.
Qed.

Lemma null_names_shown_as_null_witness :
  razon_social
    (clientData
       {| socio_id := 9; dni := "87654321"; nombres := None; apellidoPaterno := None;
          apellidoMaterno := None; direccionDNI := None; direccionVivienda := None;
          distritoDNI := None; distritoVivienda := None; provinciaDNI := None;
          provinciaVivienda := None; regionDNI := None; regionVivienda := None;
          celular := None |})
  = "null null null".
Proof.
  destruct (null_names_shown_as_null
              {| socio_id := 9; dni := "87654321"; nombres := None; apellidoPaterno := None;
                 apellidoMaterno := None; direccionDNI := None; direccionVivienda := None;
                 distritoDNI := None; distritoVivienda := None; provinciaDNI := None;
                 provinciaVivienda := None; regionDNI := None; regionVivienda := None;
                 celular := None |} [] eq_refl eq_refl eq_refl) as [H _].
  exact H.
Defined.

End InvoiceJourney.
